(** * Hybrid retrieval: content store, BM25 keyword search and
      Reciprocal Rank Fusion

    A shallow embedding of [src/vector_store.py] (class [VectorStore]) and
    [src/retriever.py] (class [Retriever]).

    - Python [dict]s that are iterated ([content_store], and the
      [doc_scores] / [doc_info] tables of the fusion) are insertion-ordered
      association lists; the per-item dictionaries (content items, search
      results) are finite maps from field names to Python values.
    - Python [int] is [Z]; Python [float] is IEEE 754 binary64: the
      primitive floats. Text is ASCII.
    - Exceptions are the left summand of [raises A]; an operation that
      updates an object before it raises returns the updated state too.
    - [uuid.uuid4()] is an oracle: the identifiers drawn by one call of
      [add_documents] are given as a function of the draw's number.
    - The libraries the two classes call into (sentence-transformers,
      ChromaDB, rank_bm25, numpy) are interfaces, given as type classes; a
      small in-memory instance runs the model on concrete stores.
    - The retriever holds a reference to the store: its operations take
      the store's current state. The fusion is given twice, on values and
      on references to result objects, the second refining the first. *)

From Stdlib Require Import Floats ZArith List Ascii String.
From stdpp Require Import gmap strings list sorting.

Local Open Scope Z_scope.

(** ** Python values *)

#[warnings="-register-all"]
Inductive pyval : Type :=
| VNone
| VInt (n : Z)
| VFloat (f : float)
| VStr (s : string)
| VBytes (b : list Byte.byte)
| VDict (d : gmap string pyval).

(** A dictionary with string keys, such as a content item or a result. *)
Abbreviation pydict := (gmap string pyval).

(** [d.get(key)]: the value, or [None]. *)
Definition dict_get (d : pydict) (key : string) : pyval :=
  default VNone (d !! key).

(** [d.get(key, dflt)]. *)
Definition dict_get_or (d : pydict) (key : string) (dflt : pyval) : pyval :=
  default dflt (d !! key).

(** ** Exceptions *)

Inductive exn : Type :=
| KeyError (key : string)
| IndexError
| ZeroDivisionError
| AttributeError
| TypeError
| OverflowError
| LibraryError (msg : string).

(** A computation that returns an [A] or raises. *)
Abbreviation raises := (sum exn).

Definition ret {A} (a : A) : raises A := inr a.
Definition raise {A} (e : exn) : raises A := inl e.

#[global] Instance raises_ret : MRet raises := fun A a => inr a.
#[global] Instance raises_bind : MBind raises := fun A B f m =>
  match m with
  | inl e => inl e
  | inr a => f a
  end.

(** [d[key]]. *)
Definition dict_getitem (d : pydict) (key : string) : raises pyval :=
  match d !! key with
  | Some v => ret v
  | None => raise (KeyError key)
  end.

(** [xs[i]] for a non-negative index. *)
Definition list_getitem {A} (xs : list A) (i : nat) : raises A :=
  match xs !! i with
  | Some x => ret x
  | None => raise IndexError
  end.

(** [xs[:k]]: the first [k] elements, or all but the last [-k] when [k] is
    negative. *)
Definition py_slice_to {A} (k : Z) (xs : list A) : list A :=
  if 0 <=? k then take (Z.to_nat k) xs
  else take (Z.to_nat (Z.of_nat (length xs) + k)) xs.

(** A loop [for x in xs: acc = body(acc, x)] whose body may raise. *)
Fixpoint foldM {A S} (body : S -> A -> raises S) (xs : list A) (s : S)
  : raises S :=
  match xs with
  | [] => ret s
  | x :: xs' => s' ← body s x; foldM body xs' s'
  end.

(** ** Insertion-ordered dictionaries

    A Python [dict] keeps its keys in the order of first insertion;
    assigning to a key that is present keeps its position. *)

Module OrderedDict.

Definition t (V : Type) := list (string * V).

Fixpoint get {V} (d : t V) (key : string) : option V :=
  match d with
  | [] => None
  | (k', v) :: d' => if decide (key = k') then Some v else get d' key
  end.

Definition contains {V} (d : t V) (key : string) : bool :=
  match get d key with Some _ => true | None => false end.

Fixpoint set {V} (d : t V) (key : string) (v : V) : t V :=
  match d with
  | [] => [(key, v)]
  | (k', v') :: d' =>
      if decide (key = k') then (k', v) :: d' else (k', v') :: set d' key v
  end.

(** [d[key]]. *)
Definition getitem {V} (d : t V) (key : string) : raises V :=
  match get d key with
  | Some v => ret v
  | None => raise (KeyError key)
  end.

Definition items {V} (d : t V) : list (string * V) := d.

Definition keys {V} (d : t V) : list string := map fst d.

End OrderedDict.

(** ** Floats *)

Definition SF_of_Z (n : Z) : spec_float :=
  match n with
  | Z0 => S754_zero false
  | Zpos p => S754_finite false p 0
  | Zneg p => S754_finite true p 0
  end.

(** The quotient of two integers, rounded to the nearest binary64 (ties to
    even), as Python's [int / int] computes it. *)
Definition float_quot (a b : Z) : float :=
  SF2Prim (SFdiv prec emax (SF_of_Z a) (SF_of_Z b)).

(** [1 / n] on a Python integer [n]: [ZeroDivisionError] when [n] is zero.
    (The quotient is at most 1 in magnitude, so the [OverflowError] of
    integer division cannot occur here.) *)
Definition py_recip (n : Z) : raises float :=
  if n =? 0 then raise ZeroDivisionError else ret (float_quot 1 n).

(** [enumerate(xs, start)]. *)
Fixpoint enumerate {A} (start : Z) (xs : list A) : list (Z * A) :=
  match xs with
  | [] => []
  | x :: xs' => (start, x) :: enumerate (start + 1) xs'
  end.

(** ** Reciprocal Rank Fusion ([Retriever.reciprocal_rank_fusion]) *)

(** [result['id']]. Identifiers are [str] throughout the program (they are
    [str(uuid.uuid4())]); a result whose id is not a [str] is ill-typed. *)
Definition result_id (result : pydict) : raises string :=
  v ← dict_getitem result "id";
  match v with
  | VStr s => ret s
  | _ => raise TypeError
  end.

(** The two tables filled by the aggregation loop. [doc_scores] starts each
    entry at the integer [0], which the first [+=] turns into a float. *)
Record rrf_tables := RrfTables {
  doc_scores : OrderedDict.t float;
  doc_info : OrderedDict.t pydict
}.

(** One iteration of the inner loop, at [rank] of one result list. *)
Definition rrf_visit (k : Z) (tabs : rrf_tables) (entry : Z * pydict)
  : raises rrf_tables :=
  let '(rank, result) := entry in
  doc_id ← result_id result;
  rrf_score ← py_recip (k + rank);
  let tabs :=
    if OrderedDict.contains (doc_scores tabs) doc_id then tabs
    else {| doc_scores := OrderedDict.set (doc_scores tabs) doc_id 0%float;
            doc_info := OrderedDict.set (doc_info tabs) doc_id result |} in
  s ← OrderedDict.getitem (doc_scores tabs) doc_id;
  ret {| doc_scores :=
           OrderedDict.set (doc_scores tabs) doc_id (s + rrf_score)%float;
         doc_info := doc_info tabs |}.

(** [for results in results_list: for rank, result in enumerate(results, start=1)]. *)
Definition rrf_aggregate (k : Z) (results_list : list (list pydict))
  : raises rrf_tables :=
  foldM (fun tabs results => foldM (rrf_visit k) (enumerate 1 results) tabs)
        results_list
        {| doc_scores := []; doc_info := [] |}.

(** [sorted(items, key=lambda x: x[1], reverse=True)]: a stable sort into
    descending score order; an item stays ahead of the later items it does
    not score strictly less than. *)
Fixpoint insert_desc (x : string * float) (l : list (string * float))
  : list (string * float) :=
  match l with
  | [] => [x]
  | y :: l' =>
      if PrimFloat.ltb (snd x) (snd y) then y :: insert_desc x l'
      else x :: y :: l'
  end.

Definition sorted_desc (l : list (string * float)) : list (string * float) :=
  foldr insert_desc [] l.

(** [result = doc_info[doc_id].copy(); result['rrf_score'] = score]. *)
Definition rrf_format (doc_info : OrderedDict.t pydict)
    (entry : string * float) : raises pydict :=
  let '(doc_id, score) := entry in
  info ← OrderedDict.getitem doc_info doc_id;
  ret (<["rrf_score" := VFloat score]> info).

Definition reciprocal_rank_fusion (results_list : list (list pydict)) (k : Z)
  : raises (list pydict) :=
  tabs ← rrf_aggregate k results_list;
  let sorted_docs := sorted_desc (OrderedDict.items (doc_scores tabs)) in
  mapM (rrf_format (doc_info tabs)) sorted_docs.

(** *** The fusion on result objects

    The results handed to the fusion are dictionary objects, which the
    caller still holds. [doc_info] keeps references to them, and each fused
    result is a new object: a copy of the first-seen result, to which
    [rrf_score] is then assigned. Here an object store lists the
    dictionaries, a reference is a position in it, and the fusion runs on
    lists of references. *)

Abbreviation object_store := (list pydict).

(** Reading the object behind a reference; a reference held by the program
    always points into the store. *)
Definition deref (objects : object_store) (ref : nat) : raises pydict :=
  list_getitem objects ref.

(** The objects behind a list of references. *)
Definition contents (objects : object_store) (refs : list nat) : list pydict :=
  omap (fun ref => objects !! ref) refs.

Record rrf_ref_tables := RrfRefTables {
  ref_scores : OrderedDict.t float;
  ref_info : OrderedDict.t nat
}.

Definition rrf_visit_ref (objects : object_store) (k : Z)
    (tabs : rrf_ref_tables) (entry : Z * nat) : raises rrf_ref_tables :=
  let '(rank, ref) := entry in
  result ← deref objects ref;
  doc_id ← result_id result;
  rrf_score ← py_recip (k + rank);
  let tabs :=
    if OrderedDict.contains (ref_scores tabs) doc_id then tabs
    else {| ref_scores := OrderedDict.set (ref_scores tabs) doc_id 0%float;
            ref_info := OrderedDict.set (ref_info tabs) doc_id ref |} in
  s ← OrderedDict.getitem (ref_scores tabs) doc_id;
  ret {| ref_scores :=
           OrderedDict.set (ref_scores tabs) doc_id (s + rrf_score)%float;
         ref_info := ref_info tabs |}.

(** [result = doc_info[doc_id].copy()] allocates an object with the fields
    of the source, [result['rrf_score'] = score] updates that new object,
    and [fused_results.append(result)] keeps its reference. *)
Definition rrf_copy_ref (info : OrderedDict.t nat)
    (state : object_store * list nat) (entry : string * float)
  : raises (object_store * list nat) :=
  let '(objects, fused_results) := state in
  let '(doc_id, score) := entry in
  source ← OrderedDict.getitem info doc_id;
  fields ← deref objects source;
  let result := length objects in
  let objects := objects ++ [fields] in
  let objects := <[result := <["rrf_score" := VFloat score]> fields]> objects in
  ret (objects, fused_results ++ [result]).

(** [reciprocal_rank_fusion] on references: the object store after the
    call, and the references of the fused results. *)
Definition reciprocal_rank_fusion_refs (objects : object_store)
    (results_list : list (list nat)) (k : Z)
  : raises (object_store * list nat) :=
  tabs ← foldM (fun tabs results =>
                  foldM (rrf_visit_ref objects k) (enumerate 1 results) tabs)
               results_list {| ref_scores := []; ref_info := [] |};
  let sorted_docs := sorted_desc (OrderedDict.items (ref_scores tabs)) in
  foldM (rrf_copy_ref (ref_info tabs)) sorted_docs (objects, []).

(** The tables on values that tables on references stand for. *)
Definition info_values (objects : object_store) (info : OrderedDict.t nat)
  : OrderedDict.t pydict :=
  map (fun entry : string * nat =>
         (entry.1, default ∅ (objects !! entry.2))) info.

Definition tables_of (objects : object_store) (tabs : rrf_ref_tables)
  : rrf_tables :=
  {| doc_scores := ref_scores tabs;
     doc_info := info_values objects (ref_info tabs) |}.

(** Every reference kept in [info] points into the store. *)
Definition valid_info (objects : object_store) (info : OrderedDict.t nat)
  : Prop :=
  Forall (fun entry : string * nat => (entry.2 < length objects)%nat) info.

(** *** What the fusion computes, stated on the inputs *)

(** The identifier of a well-formed result. *)
Definition id_of (result : pydict) : option string :=
  match result !! "id" with
  | Some (VStr s) => Some s
  | _ => None
  end.

(** The first result carrying [id], in iteration order. *)
Definition first_seen (id : string) (results : list pydict) : option pydict :=
  head (filter (fun r => id_of r = Some id) results).

(** Every (rank, result) pair the aggregation loop visits, in order. *)
Definition visits (results_list : list (list pydict)) : list (Z * pydict) :=
  concat (map (enumerate 1) results_list).

(** The ranks of the visits that carry [id]. *)
Definition visit_ranks (id : string) (vs : list (Z * pydict)) : list Z :=
  map fst (filter (fun v : Z * pydict => id_of (snd v) = Some id) vs).

(** The contributions [1 / (k + r)] of the ranks of [id] among [vs], added
    up in the order of the visits, starting from zero. *)
Definition visit_total (k : Z) (id : string) (vs : list (Z * pydict)) : float :=
  fold_left (fun s r => (s + float_quot 1 (k + r))%float)
            (visit_ranks id vs) 0%float.

(** The 1-based ranks at which [id] occurs, list after list. *)
Definition occurrence_ranks (id : string) (results_list : list (list pydict))
  : list Z :=
  visit_ranks id (visits results_list).

(** The sum of [1 / (k + r)] over all occurrences of [id]. *)
Definition rrf_sum (k : Z) (id : string) (results_list : list (list pydict))
  : float :=
  visit_total k id (visits results_list).

(** The identifiers of all input results. *)
Definition input_ids (results_list : list (list pydict)) : list string :=
  omap id_of (concat results_list).

(** The state of the two tables once the loop has made the visits [vs]:
    the keys are the ids met so far, each once; a score is the total of its
    id; [doc_info] holds the first result met for each id. *)
Definition rrf_inv (k : Z) (vs : list (Z * pydict)) (tabs : rrf_tables) : Prop :=
  NoDup (OrderedDict.keys (doc_scores tabs)) /\
  (forall id, id ∈ OrderedDict.keys (doc_scores tabs) <->
              id ∈ omap id_of (map snd vs)) /\
  (forall id s, OrderedDict.get (doc_scores tabs) id = Some s ->
                s = visit_total k id vs) /\
  (forall id, OrderedDict.get (doc_info tabs) id = first_seen id (map snd vs)).

(** What the entry [e] of the sorted score table turns into: the first
    result seen for its id, with the score stored under [rrf_score]. *)
Definition fused_from (k : Z) (rl : list (list pydict))
    (e : string * float) (r : pydict) : Prop :=
  e.2 = rrf_sum k e.1 rl /\
  exists src, first_seen e.1 (concat rl) = Some src /\
              r = <["rrf_score" := VFloat e.2]> src.

(** ** Text

    [str.lower()] and [str.split()] on ASCII text: the letters [A]-[Z] are
    folded, and the separators are the ASCII characters for which
    [str.isspace()] holds. *)

Definition lower_char (c : ascii) : ascii :=
  let n := nat_of_ascii c in
  if ((65 <=? n)%nat && (n <=? 90)%nat)%bool then ascii_of_nat (n + 32) else c.

Fixpoint lower (s : string) : string :=
  match s with
  | EmptyString => EmptyString
  | String c s' => String (lower_char c) (lower s')
  end.

Definition is_space (c : ascii) : bool :=
  let n := nat_of_ascii c in
  (((9 <=? n)%nat && (n <=? 13)%nat) || ((28 <=? n)%nat && (n <=? 32)%nat))%bool.

(** [cur] is the word being read, in order. *)
Fixpoint split_from (cur : string) (s : string) : list string :=
  match s with
  | EmptyString =>
      match cur with EmptyString => [] | _ => [cur] end
  | String c s' =>
      if is_space c then
        match cur with
        | EmptyString => split_from EmptyString s'
        | _ => cur :: split_from EmptyString s'
        end
      else split_from (cur ++ String c EmptyString) s'
  end.

Definition split (s : string) : list string := split_from EmptyString s.

(** ** The libraries behind the two classes *)

(** sentence-transformers: [SentenceTransformer.encode(text).tolist()]. *)
Class SentenceTransformer := {
  encode : pyval -> raises (list float)
}.

(** The dictionary returned by [collection.query] for a list of query
    embeddings: one inner list per query. *)
Record QueryResult := {
  qr_ids : list (list string);
  qr_distances : list (list float);
  qr_metadatas : list (list pydict);
  qr_documents : list (list pyval)
}.

(** ChromaDB: a collection, created empty by [client.create_collection],
    with [collection.add(ids, embeddings, documents, metadatas)] and
    [collection.query(query_embeddings=[e], n_results=n)]. *)
Class ChromaDB := {
  chroma_collection : Type;
  create_collection : chroma_collection;
  collection_add :
    chroma_collection -> list string -> list (list float) -> list pyval ->
    list pydict -> raises chroma_collection;
  collection_query : chroma_collection -> list float -> Z -> raises QueryResult
}.

(** rank_bm25: [BM25Okapi(tokenized_docs)] and [bm25.get_scores(tokens)]. *)
Class RankBM25 := {
  BM25 : Type;
  BM25Okapi : list (list string) -> raises BM25;
  get_scores : BM25 -> list string -> list float
}.

(** numpy: [np.argsort(scores)], the indices that sort [scores]. *)
Class NumPy := {
  argsort : list float -> list nat
}.

(** The score at index [i] is not strictly above the score at index [j]. *)
Definition not_above (scores : list float) (i j : nat) : Prop :=
  forall x y, scores !! i = Some x -> scores !! j = Some y ->
              PrimFloat.ltb y x = false.

(** What [np.argsort] guarantees of its answer [perm] on [scores]: every
    index is in range, and no index comes before one of a strictly smaller
    score. *)
Definition argsort_ok (scores : list float) (perm : list nat) : Prop :=
  Forall (fun i => (i < length scores)%nat) perm /\
  StronglySorted (not_above scores) perm.

(** [argsort_ok], as a check that can be run. *)
Definition score_at (scores : list float) (i : nat) : float :=
  default 0%float (scores !! i).

Fixpoint ascendingb (scores : list float) (perm : list nat) : bool :=
  match perm with
  | [] => true
  | i :: rest =>
      forallb (fun j => negb (PrimFloat.ltb (score_at scores j)
                                            (score_at scores i))) rest
      && ascendingb scores rest
  end.

Definition argsort_okb (scores : list float) (perm : list nat) : bool :=
  forallb (fun i => (i <? length scores)%nat) perm && ascendingb scores perm.

(** ** The vector store ([VectorStore]) *)

Section vector_store.
Context `{!SentenceTransformer, !ChromaDB}.

Record VectorStore := {
  collection : chroma_collection;
  content_store : OrderedDict.t pydict
}.

(** [VectorStore()]: a fresh collection and an empty content store. *)
Definition VectorStore_init : VectorStore :=
  {| collection := create_collection; content_store := [] |}.

(** The four lists handed to [collection.add]. *)
Record batch := {
  b_ids : list string;
  b_documents : list pyval;
  b_embeddings : list (list float);
  b_metadatas : list pydict
}.

(** [item.get('summary', item.get('content', ''))]. *)
Definition item_summary (item : pydict) : pyval :=
  dict_get_or item "summary" (dict_get_or item "content" (VStr "")).

(** The record written to the content store for [item]. *)
Definition stored_record (item : pydict) (page type : pyval) : pydict :=
  {[ "original_content" := dict_get item "content";
     "summary" := item_summary item;
     "page" := page;
     "type" := type;
     "metadata" := dict_get_or item "metadata" (VDict ∅) ]}.

(** The loop of [add_documents]. [uuid4 n] is the identifier drawn for
    the [n]-th item of the call. The content store is updated as the loop
    goes and keeps its updates when an item raises. *)
Fixpoint add_loop (uuid4 : nat -> string) (n : nat) (items : list pydict)
    (b : batch) (store : OrderedDict.t pydict)
  : OrderedDict.t pydict * raises batch :=
  match items with
  | [] => (store, ret b)
  | item :: rest =>
      let doc_id := uuid4 n in
      let summary := item_summary item in
      let fields :=
        embedding ← encode summary;
        page ← dict_getitem item "page";
        type ← dict_getitem item "type";
        ret (embedding, page, type) in
      match fields with
      | inl e => (store, inl e)
      | inr (embedding, page, type) =>
          let metadata : pydict :=
            {[ "page" := page; "type" := type; "doc_id" := VStr doc_id ]} in
          add_loop uuid4 (S n) rest
            {| b_ids := b_ids b ++ [doc_id];
               b_documents := b_documents b ++ [summary];
               b_embeddings := b_embeddings b ++ [embedding];
               b_metadatas := b_metadatas b ++ [metadata] |}
            (OrderedDict.set store doc_id (stored_record item page type))
      end
  end.

Definition add_documents (vs : VectorStore) (summarized_items : list pydict)
    (uuid4 : nat -> string) : VectorStore * raises unit :=
  let '(store, looped) :=
    add_loop uuid4 0 summarized_items
      {| b_ids := []; b_documents := []; b_embeddings := [];
         b_metadatas := [] |}
      (content_store vs) in
  let kept := {| collection := collection vs; content_store := store |} in
  match looped with
  | inl e => (kept, inl e)
  | inr b =>
      match b_ids b with
      | [] => (kept, ret tt)
      | _ :: _ =>
          match collection_add (collection vs) (b_ids b) (b_embeddings b)
                  (b_documents b) (b_metadatas b) with
          | inl e => (kept, inl e)
          | inr c => ({| collection := c; content_store := store |}, ret tt)
          end
      end
  end.

(** One formatted hit of [search], at position [i] of the first query's
    lists. *)
Definition search_hit (vs : VectorStore) (results : QueryResult) (i : nat)
  : raises pydict :=
  ids0 ← list_getitem (qr_ids results) 0;
  doc_id ← list_getitem ids0 i;
  distances0 ← list_getitem (qr_distances results) 0;
  distance ← list_getitem distances0 i;
  metadatas0 ← list_getitem (qr_metadatas results) 0;
  metadata ← list_getitem metadatas0 i;
  documents0 ← list_getitem (qr_documents results) 0;
  document ← list_getitem documents0 i;
  ret ({[ "id" := VStr doc_id;
          "distance" := VFloat distance;
          "metadata" := VDict metadata;
          "document" := document;
          "original_content" :=
            dict_get (default ∅ (OrderedDict.get (content_store vs) doc_id))
                     "original_content";
          "page" := dict_get metadata "page";
          "type" := dict_get metadata "type" ]} : pydict).

Definition search (vs : VectorStore) (query : string) (n_results : Z)
  : raises (list pydict) :=
  query_embedding ← encode (VStr query);
  results ← collection_query (collection vs) query_embedding n_results;
  match qr_ids results with
  | ids0 :: _ =>
      if (0 <? length ids0)%nat
      then mapM (search_hit vs results) (seq 0 (length ids0))
      else ret []
  | [] => ret []
  end.

Definition get_original_content (vs : VectorStore) (doc_id : string)
  : option pydict :=
  OrderedDict.get (content_store vs) doc_id.

(** [reset()]: the collection is deleted and created again, the content
    store is replaced by an empty one. *)
Definition reset (vs : VectorStore) : VectorStore :=
  {| collection := create_collection; content_store := [] |}.

Definition get_all_documents (vs : VectorStore) : list pydict :=
  map (fun '(doc_id, content) => <["doc_id" := VStr doc_id]> content)
      (OrderedDict.items (content_store vs)).

End vector_store.

(** ** The retriever ([Retriever]) *)

Section retriever.
Context `{!SentenceTransformer, !ChromaDB, !RankBM25, !NumPy}.

(** The retriever's own attributes. Its [vector_store] attribute is a
    reference to the store object, which other code may update or reset;
    the operations below therefore take the store's current state as an
    argument. [doc_ids] and [doc_summaries] do not exist before the first
    index is built, and are not read before either: they start empty. *)
Record Retriever := {
  bm25 : option BM25;
  doc_ids : list string;
  doc_summaries : list string
}.

(** A value that has to be a [str]. *)
Definition as_str (v : pyval) : raises string :=
  match v with
  | VStr s => ret s
  | _ => raise TypeError
  end.

(** [summary.lower().split()]: summaries are text; [None] and numbers
    have no [lower] method. Binary summaries are not modelled and are
    turned down in the same way. *)
Definition summary_text (summary : pyval) : raises string :=
  match summary with
  | VStr s => ret s
  | _ => raise AttributeError
  end.

(** The loop of [_build_keyword_index] over [all_docs]; the lists are
    filled as it goes and keep what they have when a document raises. *)
Fixpoint index_loop (all_docs : list pydict)
    (tokenized_docs : list (list string)) (ids summaries : list string)
  : list (list string) * list string * list string * raises unit :=
  match all_docs with
  | [] => (tokenized_docs, ids, summaries, ret tt)
  | doc :: rest =>
      match summary_text (dict_get_or doc "summary" (VStr "")) with
      | inl e => (tokenized_docs, ids, summaries, inl e)
      | inr summary =>
          let tokens := split (lower summary) in
          match as_str (dict_get_or doc "doc_id" (VStr "")) with
          | inl e => (tokenized_docs ++ [tokens], ids, summaries, inl e)
          | inr doc_id =>
              index_loop rest (tokenized_docs ++ [tokens])
                (ids ++ [doc_id]) (summaries ++ [summary])
          end
      end
  end.

Definition _build_keyword_index (vs : VectorStore) (r : Retriever)
  : Retriever * raises unit :=
  match get_all_documents vs with
  | [] => (r, ret tt)
  | all_docs =>
      let '(tokenized_docs, ids, summaries, looped) :=
        index_loop all_docs [] [] [] in
      let filled :=
        {| bm25 := bm25 r; doc_ids := ids; doc_summaries := summaries |} in
      match looped with
      | inl e => (filled, inl e)
      | inr _ =>
          match tokenized_docs with
          | [] => (filled, ret tt)
          | _ :: _ =>
              match BM25Okapi tokenized_docs with
              | inl e => (filled, inl e)
              | inr index =>
                  ({| bm25 := Some index; doc_ids := ids;
                      doc_summaries := summaries |}, ret tt)
              end
          end
      end
  end.

(** [Retriever(vector_store)]. *)
Definition Retriever_init (vs : VectorStore) : raises Retriever :=
  let '(r, built) :=
    _build_keyword_index vs
      {| bm25 := None; doc_ids := []; doc_summaries := [] |} in
  _ ← built; ret r.

Definition dense_search (vs : VectorStore) (query : string) (k : Z)
  : raises (list pydict) :=
  search vs query k.

(** The result built by [keyword_search] for index [idx]. *)
Definition keyword_hit (vs : VectorStore) (doc_id : string) (score : float)
    (document : string) : pydict :=
  let original_content := get_original_content vs doc_id in
  {[ "id" := VStr doc_id;
     "score" := VFloat score;
     "document" := VStr document;
     "original_content" :=
       match original_content with
       | Some c => dict_get c "original_content"
       | None => VNone
       end;
     "page" :=
       match original_content with
       | Some c => dict_get c "page"
       | None => VNone
       end;
     "type" :=
       match original_content with
       | Some c => dict_get c "type"
       | None => VNone
       end;
     "metadata" :=
       match original_content with
       | Some c => dict_get_or c "metadata" (VDict ∅)
       | None => VDict ∅
       end ]}.

(** One iteration of the loop over [top_indices]. *)
Definition keyword_visit (vs : VectorStore) (r : Retriever)
    (scores : list float) (results : list pydict) (idx : nat)
  : raises (list pydict) :=
  score ← list_getitem scores idx;
  if PrimFloat.ltb 0 score then
    doc_id ← list_getitem (doc_ids r) idx;
    document ← list_getitem (doc_summaries r) idx;
    ret (results ++ [keyword_hit vs doc_id score document])
  else ret results.

Definition keyword_search (vs : VectorStore) (r : Retriever)
    (query : string) (k : Z) : raises (list pydict) :=
  match bm25 r with
  | None => ret []
  | Some index =>
      let query_tokens := split (lower query) in
      let scores := get_scores index query_tokens in
      let top_indices := py_slice_to k (reverse (argsort scores)) in
      foldM (keyword_visit vs r scores) top_indices []
  end.

Definition retrieve (vs : VectorStore) (r : Retriever) (query : string)
    (top_k : Z) : raises (list pydict) :=
  dense_results ← dense_search vs query (top_k * 2);
  keyword_results ← keyword_search vs r query (top_k * 2);
  fused_results ← reciprocal_rank_fusion [dense_results; keyword_results] 60;
  ret (py_slice_to top_k fused_results).

Definition rebuild_index (vs : VectorStore) (r : Retriever)
  : Retriever * raises unit :=
  _build_keyword_index vs r.

End retriever.

(** ** Notions used in the statements *)

(** A query answer without hits: no list of ids, or an empty first one. *)
Definition no_hits (results : QueryResult) : Prop :=
  match qr_ids results with
  | [] => True
  | ids0 :: _ => ids0 = []
  end.

Section statement_notions.
Context `{!SentenceTransformer, !ChromaDB, !RankBM25, !NumPy}.

(** An item the loop of [add_documents] accepts: it has a page and a
    type, and its summary can be embedded. *)
Definition item_ok (item : pydict) : Prop :=
  is_Some (item !! "page") /\ is_Some (item !! "type") /\
  exists e, encode (item_summary item) = inr e.

(** The record [add_documents] stores for an accepted item. *)
Definition record_of (item : pydict) : pydict :=
  stored_record item (dict_get item "page") (dict_get item "type").

(** The content store after the loop of [add_documents] has gone through
    [items], the first of them drawing [uuid4 n]. *)
Fixpoint store_after (uuid4 : nat -> string) (n : nat) (items : list pydict)
    (store : OrderedDict.t pydict) : OrderedDict.t pydict :=
  match items with
  | [] => store
  | item :: rest =>
      store_after uuid4 (S n) rest
        (OrderedDict.set store (uuid4 n) (record_of item))
  end.

(** A retriever before any index is built. *)
Definition blank_retriever : Retriever :=
  {| bm25 := None; doc_ids := []; doc_summaries := [] |}.

(** How the index treats a summary: lower-cased, split at white space. *)
Definition tokens_of (summary : string) : list string :=
  split (lower summary).

(** ChromaDB answers a query [e] on an empty collection, for any positive
    number of results, with no hits. *)
Definition empty_collection_answers (e : list float) : Prop :=
  forall n, 0 < n ->
    exists results,
      collection_query create_collection e n = inr results /\
      no_hits results.

(** The BM25 scores [keyword_search] works with for [query]. *)
Definition bm25_scores (r : Retriever) (query : string) : list float :=
  match bm25 r with
  | Some index => get_scores index (split (lower query))
  | None => []
  end.

(** The summaries held by the content store, in insertion order. *)
Definition store_summaries (vs : VectorStore) : list pyval :=
  map (fun entry : string * pydict => dict_get_or entry.2 "summary" (VStr ""))
      (OrderedDict.items (content_store vs)).

(** The result the loop of [keyword_search] appends for index [idx]: the
    identifier and summary at [idx], with the score at [idx], which is
    strictly positive. *)
Definition hit_for (vs : VectorStore) (r : Retriever) (scores : list float)
    (idx : nat) (result : pydict) : Prop :=
  exists doc_id score document,
    doc_ids r !! idx = Some doc_id /\
    doc_summaries r !! idx = Some document /\
    scores !! idx = Some score /\
    PrimFloat.ltb 0 score = true /\
    result = keyword_hit vs doc_id score document.

(** A result of [keyword_search] for [query], read off position [idx]. *)
Definition keyword_hit_at (vs : VectorStore) (r : Retriever)
    (query : string) (idx : nat) (result : pydict) : Prop :=
  hit_for vs r (bm25_scores r query) idx result.

(** The [score] field of a keyword result. *)
Definition score_of (result : pydict) : option float :=
  match result !! "score" with
  | Some (VFloat s) => Some s
  | _ => None
  end.

(** [x] does not score strictly less than [y]. *)
Definition not_below (x y : pydict) : Prop :=
  forall sx sy, score_of x = Some sx -> score_of y = Some sy ->
                PrimFloat.ltb sx sy = false.

(** No result scores strictly less than a later one. *)
Definition descending_scores (results : list pydict) : Prop :=
  StronglySorted not_below results.

End statement_notions.

(** ** A small in-memory instance of the libraries

    Used to run the model on concrete stores: an encoder that accepts any
    text, a collection kept as a list of rows and queried in insertion
    order, a term-overlap scorer with the two divisions of [rank_bm25] that
    can fail ([num_doc / corpus_size] and [idf_sum / len(idf)]), and a
    stable [argsort]. *)

Module Memory.

Definition float_of_nat (n : nat) : float :=
  SF2Prim (binary_normalize prec emax (Z.of_nat n) 0 false).

Definition encoder : SentenceTransformer :=
  {| encode v :=
       match v with
       | VStr s => ret [float_of_nat (String.length s)]
       | _ => raise TypeError
       end |}.

Record row := {
  row_id : string;
  row_embedding : list float;
  row_document : pyval;
  row_metadata : pydict
}.

Fixpoint rows (ids : list string) (embeddings : list (list float))
    (documents : list pyval) (metadatas : list pydict) : list row :=
  match ids, embeddings, documents, metadatas with
  | i :: ids', e :: embeddings', d :: documents', m :: metadatas' =>
      {| row_id := i; row_embedding := e; row_document := d;
         row_metadata := m |} :: rows ids' embeddings' documents' metadatas'
  | _, _, _, _ => []
  end.

(** [n_results] has to be positive; the hits are the first rows. *)
Definition chroma : ChromaDB :=
  {| chroma_collection := list row;
     create_collection := [];
     collection_add c ids embeddings documents metadatas :=
       ret (c ++ rows ids embeddings documents metadatas);
     collection_query c e n :=
       if n <=? 0 then raise (LibraryError "n_results")
       else
         let hits := take (Z.to_nat n) c in
         ret {| qr_ids := [map row_id hits];
                qr_distances := [map (fun _ => 0%float) hits];
                qr_metadatas := [map row_metadata hits];
                qr_documents := [map row_document hits] |} |}.

(** How often the tokens of [query] occur in [doc]. *)
Definition overlap (query doc : list string) : nat :=
  length (filter (fun w => w ∈ query) doc).

(** A corpus without any token has no vocabulary to average over. *)
Definition rank_bm25 : RankBM25 :=
  {| BM25 := list (list string);
     BM25Okapi corpus :=
       match concat corpus with
       | [] => raise ZeroDivisionError
       | _ :: _ => ret corpus
       end;
     get_scores corpus query :=
       map (fun doc => float_of_nat (overlap query doc)) corpus |}.

Fixpoint insert_asc (scores : list float) (i : nat) (l : list nat)
  : list nat :=
  match l with
  | [] => [i]
  | j :: l' =>
      if PrimFloat.ltb (score_at scores j) (score_at scores i)
      then j :: insert_asc scores i l'
      else i :: j :: l'
  end.

Definition numpy : NumPy :=
  {| argsort scores :=
       foldr (insert_asc scores) [] (seq 0 (length scores)) |}.

End Memory.

(** No rank [r] of [results] (from 1 to its length) makes [k + r] zero. *)
Definition rank_defined (k : Z) (results : list pydict) : Prop :=
  ~ (1 <= - k <= Z.of_nat (length results)).

(** The fields of a result that are shown to the caller. *)
Definition display_fields : list string :=
  ["id"; "document"; "original_content"; "page"; "type"; "score";
   "distance"; "metadata"].

(** ** Worked examples *)

Module Sample.

(** A bare result with an id. *)
Definition item (id : string) : pydict := {[ "id" := VStr id ]}.

Definition L1 : list pydict := [item "A"; item "B"; item "C"].
Definition L2 : list pydict := [item "B"; item "C"; item "D"].

Definition scored (id : string) (s : float) : pydict :=
  <["rrf_score" := VFloat s]> (item id).

(** The fused list of [L1] and [L2] at [k = 60]. *)
Definition fused_L1_L2 : list pydict :=
  [ scored "B" (float_quot 1 62 + float_quot 1 61);
    scored "C" (float_quot 1 63 + float_quot 1 62);
    scored "A" (float_quot 1 61);
    scored "D" (float_quot 1 63) ].

(** The same list with the contribution [1/62] for [D]. *)
Definition fused_L1_L2_D62 : list pydict :=
  [ scored "B" (float_quot 1 62 + float_quot 1 61);
    scored "C" (float_quot 1 63 + float_quot 1 62);
    scored "A" (float_quot 1 61);
    scored "D" (float_quot 1 62) ].

(** The score of the fourth fused result (the one of [D]), in the
    sign-mantissa-exponent form of binary64. *)
Definition score_at_D (m : raises (list pydict)) : option spec_float :=
  match m with
  | inr fused =>
      match fused !! 3%nat ≫= (fun r => r !! "rrf_score") with
      | Some (VFloat s) => Some (Prim2SF s)
      | _ => None
      end
  | inl _ => None
  end.

(** A dense hit and a keyword hit for the same item, and one more of
    each kind. *)
Definition dense_hit (id : string) (distance : float) : pydict :=
  {[ "id" := VStr id; "distance" := VFloat distance;
     "metadata" := VDict {[ "page" := VInt 1; "type" := VStr "text";
                            "doc_id" := VStr id ]};
     "document" := VStr "alpha beta"; "original_content" := VStr "alpha beta";
     "page" := VInt 1; "type" := VStr "text" ]}.

Definition keyword_result (id : string) (score : float) : pydict :=
  {[ "id" := VStr id; "score" := VFloat score;
     "document" := VStr "alpha beta"; "original_content" := VStr "alpha beta";
     "page" := VInt 1; "type" := VStr "text"; "metadata" := VDict ∅ ]}.

Definition dense_list : list pydict :=
  [dense_hit "u1" 0.25; dense_hit "u2" 0.5].
Definition keyword_list : list pydict :=
  [keyword_result "u2" 3; keyword_result "u1" 1; keyword_result "u2" 3].

(** The five result objects, and the two lists as references to them. *)
Definition objects : object_store := dense_list ++ keyword_list.
Definition dense_refs : list nat := [0; 1]%nat.
Definition keyword_refs : list nat := [2; 3; 4]%nat.

(** The two fused results. *)
Definition fused_u2 : pydict :=
  <["rrf_score" := VFloat (float_quot 1 62 + float_quot 1 61 + float_quot 1 63)]>
    (dense_hit "u2" 0.5).
Definition fused_u1 : pydict :=
  <["rrf_score" := VFloat (float_quot 1 61 + float_quot 1 62)]>
    (dense_hit "u1" 0.25).

(** Three text items, and the identifiers drawn for them. *)
Definition text_item (text : string) (page : Z) : pydict :=
  {[ "content" := VStr text; "summary" := VStr text; "page" := VInt page;
     "type" := VStr "text" ]}.

Definition items : list pydict :=
  [ text_item "Alpha beta alpha" 1; text_item "beta gamma" 1;
    text_item "delta" 2 ].

(** Two items with the same summary text. *)
Definition twins : list pydict :=
  [ text_item "same words" 1; text_item "same words" 2 ].

Definition uuid4 (n : nat) : string :=
  nth n ["u1"; "u2"; "u3"; "u4"; "u5"; "u6"; "u7"; "u8"; "u9"; "u10"] "u0".

(** Ten items that share a word. *)
Definition ten_items : list pydict :=
  map (fun n => text_item ("common " ++ uuid4 n) 1) (seq 0 10).

End Sample.

(** The value of a computation that is known to return. *)
Definition returned {A} (dflt : A) (m : raises A) : A :=
  match m with
  | inr a => a
  | inl _ => dflt
  end.

(** A store holding the three example items, the retriever constructed
    over it, and the store after [reset()]. *)
Module Scenario.
#[local] Existing Instances
  Memory.encoder Memory.chroma Memory.rank_bm25 Memory.numpy.

Definition store : VectorStore :=
  (add_documents VectorStore_init Sample.items Sample.uuid4).1.

Definition retriever : Retriever :=
  returned blank_retriever (Retriever_init store).

Definition store_after_reset : VectorStore := reset store.

(** A store whose only item has an empty summary. *)
Definition blank_store : VectorStore :=
  (add_documents VectorStore_init [Sample.text_item "" 1] Sample.uuid4).1.

(** A store with one ordinary item. *)
Definition single_store : VectorStore :=
  (add_documents VectorStore_init [Sample.text_item "alpha" 1]
                 Sample.uuid4).1.

(** A store with the ten items, its retriever, and the candidates the
    two searches return for ten results. *)
Definition large_store : VectorStore :=
  (add_documents VectorStore_init Sample.ten_items Sample.uuid4).1.

Definition large_retriever : Retriever :=
  returned blank_retriever (Retriever_init large_store).

Definition large_dense : list pydict :=
  returned [] (dense_search large_store "common" (5 * 2)).

Definition large_keyword : list pydict :=
  returned [] (keyword_search large_store large_retriever "common" (5 * 2)).

(** The keyword result for the first item, read against [vs]. *)
Definition alpha_hit (vs : VectorStore) : pydict :=
  keyword_hit vs "u1" 2 "Alpha beta alpha".

(** What [retrieve] returns for "alpha" once the store has been reset
    under the retriever. *)
Definition stale_result : pydict :=
  <["rrf_score" := VFloat (float_quot 1 61)]> (alpha_hit store_after_reset).

(** The two keyword results for the query "alpha beta". *)
Definition alpha_beta_hits : list pydict :=
  [ keyword_hit store "u1" 3 "Alpha beta alpha";
    keyword_hit store "u2" 1 "beta gamma" ].

End Scenario.


(** ** The states a vector store goes through *)

Section store_states.
Context `{!SentenceTransformer, !ChromaDB}.

(** The stores a program can hold: a new one, and what [add_documents]
    (returning or raising, whatever identifiers are drawn) and [reset]
    make of one. *)
Inductive reachable : VectorStore -> Prop :=
| reachable_init : reachable VectorStore_init
| reachable_add vs items uuid4 :
    reachable vs -> reachable (add_documents vs items uuid4).1
| reachable_reset vs : reachable vs -> reachable (reset vs).

(** The document [get_all_documents] lists for the [i]-th item of a call
    of [add_documents]. *)
Definition listed_document (uuid4 : nat -> string) (i : nat) (item : pydict)
  : pydict :=
  <["doc_id" := VStr (uuid4 i)]> (record_of item).

End store_states.

(** ** The shape of a query answer *)

(** The list for the first (and only) query embedding. *)
Definition first_list {A} (ls : list (list A)) : list A :=
  default [] (head ls).

(** How many positions the distances, metadatas and documents of an
    answer all cover. *)
Definition answer_width (results : QueryResult) : nat :=
  Nat.min (length (first_list (qr_distances results)))
          (Nat.min (length (first_list (qr_metadatas results)))
                   (length (first_list (qr_documents results)))).

(** [content_store.get(doc_id, {}).get('original_content')]. *)
Definition stored_original_content `{!SentenceTransformer, !ChromaDB}
    (vs : VectorStore) (doc_id : string) : pyval :=
  match get_original_content vs doc_id with
  | Some content => dict_get content "original_content"
  | None => VNone
  end.

(** ** The order of the fused results *)

(** The [rrf_score] field of a fused result. *)
Definition rrf_score_of (result : pydict) : option float :=
  match result !! "rrf_score" with
  | Some (VFloat s) => Some s
  | _ => None
  end.

(** Both results have an RRF score, and the first one's is not strictly
    less than the second one's. *)
Definition not_outscored_by (x y : pydict) : Prop :=
  exists sx sy,
    rrf_score_of x = Some sx /\ rrf_score_of y = Some sy /\
    PrimFloat.ltb sx sy = false.

(** An entry of the score table does not score strictly less than the
    next one. *)
Definition by_score (a b : string * float) : Prop :=
  PrimFloat.ltb a.2 b.2 = false.

(** The fields of a result of [retrieve] that [generate_answer] reads,
    with the identifier and the fused score. *)
Definition answer_fields : list string :=
  ["id"; "document"; "original_content"; "page"; "type"; "rrf_score"].

(** The text is ASCII: every character is below 128. On such text
    [lower], [split] and [strip] are [str.lower()], [str.split()] and
    [str.strip()]; on other text Python folds and separates more. *)
Definition ascii_char (c : ascii) : bool := (nat_of_ascii c <? 128)%nat.

Fixpoint ascii_text (s : string) : bool :=
  match s with
  | EmptyString => true
  | String c s' => ascii_char c && ascii_text s'
  end.

(** [str.upper()] on ASCII text, to state that keyword search ignores
    letter case. *)
Definition upper_char (c : ascii) : ascii :=
  let n := nat_of_ascii c in
  if ((97 <=? n)%nat && (n <=? 122)%nat)%bool then ascii_of_nat (n - 32) else c.

Fixpoint upper (s : string) : string :=
  match s with
  | EmptyString => EmptyString
  | String c s' => String (upper_char c) (upper s')
  end.

(** ** Further examples *)

Module Cases.
#[local] Existing Instances
  Memory.encoder Memory.rank_bm25 Memory.numpy.

(** A table item whose summary is not its content. *)
Definition table_item : pydict :=
  {[ "content" := VStr "| a | b |"; "summary" := VStr "alpha table";
     "page" := VInt 3; "type" := VStr "table" ]}.

(** An item without a page. *)
Definition no_page : pydict := {[ "content" := VStr "beta" ]}.

(** An item with a page and without a type. *)
Definition no_type : pydict :=
  {[ "content" := VStr "beta"; "page" := VInt 1 ]}.

(** A collection whose answers have one distance too few. *)
Definition short_chroma : ChromaDB :=
  {| chroma_collection := list Memory.row;
     create_collection := [];
     collection_add c ids embeddings documents metadatas :=
       ret (c ++ Memory.rows ids embeddings documents metadatas);
     collection_query c e n :=
       let hits := take (Z.to_nat n) c in
       ret {| qr_ids := [map Memory.row_id hits];
              qr_distances := [map (fun _ => 0%float) (tail hits)];
              qr_metadatas := [map Memory.row_metadata hits];
              qr_documents := [map Memory.row_document hits] |} |}.

(** A result without an id. *)
Definition anonymous : pydict := {[ "document" := VStr "alpha" ]}.

End Cases.

(** * Extraction, summaries and answers

    A shallow embedding of [src/document_processor.py] (class
    [DocumentProcessor]), [src/summarizer.py] (class [Summarizer]),
    [src/answer_generator.py] (class [AnswerGenerator]) and of the two
    pipelines of [app.py].

    - The PDF is what pdfplumber and PyMuPDF present of it: per page the
      extracted text and tables, and the outcome of extracting each image.
      [process] is given the pages as they were read; that opening the
      file or reading a page can raise is part of [process_document].
    - The Gemini model is an interface; a call returns the text of the
      response or raises, as a function of what it is asked. What the code
      prints on a failure is not modelled.
    - Constructing a store, a summarizer or an answer generator calls into
      the libraries, and each of these calls returns or raises.
    - [str()] of a float, of bytes and of a dictionary, and of an
      exception, are part of an interface too. *)

From Stdlib Require DecimalString.

(** ** Python's text built-ins *)

Definition newline_char : ascii := "010"%char.
Definition newline : string := String newline_char EmptyString.

(** [str(n)] for an [int]. *)
Definition str_of_int (n : Z) : string :=
  DecimalString.NilZero.string_of_int (Z.to_int n).

Class PyRepr := {
  str_float : float -> string;
  str_bytes : list Byte.byte -> string;
  str_dict : pydict -> string;
  str_exn : exn -> string
}.

(** [str(v)], which is also how an f-string formats [v]. *)
Definition py_str `{!PyRepr} (v : pyval) : string :=
  match v with
  | VNone => "None"
  | VInt n => str_of_int n
  | VFloat f => str_float f
  | VStr s => s
  | VBytes b => str_bytes b
  | VDict d => str_dict d
  end.

(** [v == s] for a string literal [s]. *)
Definition py_eq_str (v : pyval) (s : string) : bool :=
  match v with
  | VStr t => bool_decide (t = s)
  | _ => false
  end.

(** [sep.join(parts)]. *)
Fixpoint join (sep : string) (parts : list string) : string :=
  match parts with
  | [] => ""
  | p :: rest =>
      match rest with
      | [] => p
      | _ :: _ => p +:+ sep +:+ join sep rest
      end
  end.

(** [s.split(sep)] for a separator of one character. *)
Fixpoint split_on (sep : ascii) (s : string) : list string :=
  match s with
  | EmptyString => [""]
  | String c s' =>
      if Ascii.eqb c sep then "" :: split_on sep s'
      else
        match split_on sep s' with
        | [] => [String c ""]
        | p :: ps => String c p :: ps
        end
  end.

(** [s.strip()]. *)
Fixpoint lstrip (s : string) : string :=
  match s with
  | EmptyString => EmptyString
  | String c s' => if is_space c then lstrip s' else s
  end.

Fixpoint rstrip (s : string) : string :=
  match s with
  | EmptyString => EmptyString
  | String c s' =>
      match rstrip s' with
      | EmptyString => if is_space c then EmptyString else String c EmptyString
      | t => String c t
      end
  end.

Definition strip (s : string) : string := rstrip (lstrip s).

(** [s[:n]] for a natural number [n]. *)
Fixpoint str_take (n : nat) (s : string) : string :=
  match n, s with
  | S n', String c s' => String c (str_take n' s')
  | _, _ => EmptyString
  end.

(** The truth value of a string: it is not empty. *)
Definition str_truthy (s : string) : bool :=
  match s with
  | EmptyString => false
  | String _ _ => true
  end.

(** A text given line by line. *)
Definition text_of_lines (lines : list string) : string := join newline lines.

(** ** The Gemini model *)

(** [model.generate_content(prompt).text], and, for an image,
    [model.generate_content([prompt, Image.open(io.BytesIO(image_bytes))]).text]. *)
Class GenerativeModel := {
  generate_content : string -> raises string;
  generate_content_image : string -> list Byte.byte -> raises string
}.

(** ** The document processor ([DocumentProcessor]) *)

(** A table of pdfplumber: rows of cells, a cell being a text or [None]. *)
Abbreviation pdf_table := (list (list (option string))).

(** A page as pdfplumber presents it. *)
Record pdf_page := {
  extract_text : option string;
  extract_tables : list pdf_table
}.

(** A page as PyMuPDF presents it: its images, each with the outcome of
    [pdf_fitz.extract_image(xref)["image"]]. *)
Abbreviation fitz_page := (list (raises pyval)).

Record DocumentProcessor := {
  text_blocks : list pydict;
  tables : list pydict;
  images : list pydict
}.

Definition DocumentProcessor_init : DocumentProcessor :=
  {| text_blocks := []; tables := []; images := [] |}.

(** [[str(cell) if cell is not None else "" for cell in row]]. *)
Definition clean_row (row : list (option string)) : list string :=
  map (fun cell => match cell with Some s => s | None => "" end) row.

(** ["| " + " | ".join(cells) + " |"]. *)
Definition table_line (cells : list string) : string :=
  "| " +:+ join " | " cells +:+ " |".

(** [while len(row) < len(header): row.append("")]. *)
Definition pad_row (width : nat) (row : list string) : list string :=
  row ++ replicate (width - length row) "".

Definition markdown_lines (cleaned_table : list (list string)) : list string :=
  match cleaned_table with
  | [] => []
  | header :: rows =>
      table_line header
      :: table_line (replicate (length header) "---")
      :: map (fun row =>
                table_line (take (length header)
                                 (pad_row (length header) row))) rows
  end.

Definition _table_to_markdown (table : pdf_table) : string :=
  match table with
  | [] => ""
  | _ :: _ =>
      let cleaned_table := map clean_row table in
      match cleaned_table with
      | [] => ""
      | _ :: _ => join newline (markdown_lines cleaned_table)
      end
  end.

Definition _extract_image_fitz (img : raises pyval) (page_num img_idx : Z)
  : option pydict :=
  match img with
  | inr image_bytes =>
      Some {[ "content" := image_bytes; "page" := VInt page_num;
              "type" := VStr "image"; "image_index" := VInt img_idx;
              "metadata" := VDict ∅ ]}
  | inl _ => None
  end.

Definition text_block (text : string) (page_num : Z) : pydict :=
  {[ "content" := VStr text; "page" := VInt page_num;
     "type" := VStr "text"; "metadata" := VDict ∅ ]}.

Definition table_block (table : pdf_table) (page_num table_idx : Z) : pydict :=
  {[ "content" := VStr (_table_to_markdown table); "page" := VInt page_num;
     "type" := VStr "table"; "table_index" := VInt table_idx;
     "metadata" := VDict ∅ ]}.

(** The text block of a page, if it has text that is not blank. *)
Definition page_text_blocks (page_num : Z) (page : pdf_page) : list pydict :=
  match extract_text page with
  | Some text =>
      if (str_truthy text && str_truthy (strip text))%bool
      then [text_block text page_num]
      else []
  | None => []
  end.

Definition page_tables (page_num : Z) (page : pdf_page) : list pydict :=
  omap (fun '(table_idx, table) =>
          match table with
          | [] => None
          | _ :: _ => Some (table_block table page_num table_idx)
          end)
       (enumerate 0 (extract_tables page)).

Definition page_images (pdf_fitz : list fitz_page) (page_num : Z)
  : list pydict :=
  if page_num <=? Z.of_nat (length pdf_fitz) then
    match pdf_fitz !! Z.to_nat (page_num - 1) with
    | Some page_fitz =>
        omap (fun '(img_idx, img) => _extract_image_fitz img page_num img_idx)
             (enumerate 0 page_fitz)
    | None => []
    end
  else [].

(** One iteration of the loop over the pages. *)
Definition process_page (pdf_fitz : list fitz_page) (dp : DocumentProcessor)
    (entry : Z * pdf_page) : DocumentProcessor :=
  let '(page_num, page) := entry in
  {| text_blocks := text_blocks dp ++ page_text_blocks page_num page;
     tables := tables dp ++ page_tables page_num page;
     images := images dp ++ page_images pdf_fitz page_num |}.

(** [process()]: the lists of the processor are appended to, and are what
    the call returns under ['text'], ['tables'] and ['images']. *)
Definition process (pdf : list pdf_page) (pdf_fitz : list fitz_page)
    (dp : DocumentProcessor) : DocumentProcessor :=
  fold_left (process_page pdf_fitz) (enumerate 1 pdf) dp.

Definition get_all_content (dp : DocumentProcessor) : list pydict :=
  text_blocks dp ++ tables dp ++ images dp.

(** ** The summarizer ([Summarizer]) *)

Section summarizer.
Context `{!PyRepr, !GenerativeModel}.

Definition table_prompt (table_markdown page_num : pyval) : string :=
  text_of_lines
    [ "Analyze the following table from page " +:+ py_str page_num
      +:+ " of a document and provide a concise, structured summary.";
      "";
      "Focus on:";
      "- Key trends or patterns";
      "- Important comparisons";
      "- Notable values or statistics";
      "- The overall purpose or meaning";
      "";
      "Table (Markdown):";
      py_str table_markdown;
      "";
      "Provide a clear, technical summary (2-4 sentences):" ].

Definition summarize_table (table_markdown page_num : pyval) : string :=
  match generate_content (table_prompt table_markdown page_num) with
  | inr text => strip text
  | inl _ =>
      "Table on page " +:+ py_str page_num +:+ " (summary generation failed)"
  end.

Definition image_prompt : string :=
  text_of_lines
    [ "Analyze this image from a technical document and provide a structured, technical description.";
      "";
      "Focus on:";
      "- Key components or elements visible";
      "- Flow, structure, or relationships shown";
      "- Labels, text, or annotations present";
      "- Overall purpose and meaning in the document context";
      "";
      "Provide a clear, technical description (3-5 sentences):" ].

(** [io.BytesIO] turns down a value that is not bytes, inside the [try]. *)
Definition summarize_image (image_bytes page_num : pyval) : string :=
  let failed :=
    "Image on page " +:+ py_str page_num
    +:+ " (description generation failed)" in
  match image_bytes with
  | VNone =>
      "Image/diagram on page " +:+ py_str page_num
      +:+ " (image content available in original document at this page)"
  | VBytes b =>
      match generate_content_image image_prompt b with
      | inr text => strip text
      | inl _ => failed
      end
  | _ => failed
  end.

(** One iteration of the loop of [summarize_batch]. *)
Definition summarize_item (item : pydict) : raises pydict :=
  type ← dict_getitem item "type";
  if py_eq_str type "table" then
    content ← dict_getitem item "content";
    page ← dict_getitem item "page";
    ret (<["summary" := VStr (summarize_table content page)]> item)
  else if py_eq_str type "image" then
    content ← dict_getitem item "content";
    page ← dict_getitem item "page";
    ret (<["summary" := VStr (summarize_image content page)]> item)
  else
    content ← dict_getitem item "content";
    ret (<["summary" := content]> item).

Definition summarize_batch (content_items : list pydict)
  : raises (list pydict) :=
  mapM summarize_item content_items.

End summarizer.

(** ** The answer generator ([AnswerGenerator]) *)

Section answer_generator.
Context `{!PyRepr, !GenerativeModel}.

(** What the loop of [_format_context] appends for the [i]-th document,
    before the empty line. *)
Definition context_part (i : Z) (doc : pydict) : string :=
  let content_type := dict_get_or doc "type" (VStr "unknown") in
  let page_num := dict_get_or doc "page" (VStr "?") in
  let original_content := dict_get doc "original_content" in
  if py_eq_str content_type "text" then
    "[Source " +:+ str_of_int i +:+ " - Page " +:+ py_str page_num
    +:+ ", Text]" +:+ newline +:+ py_str original_content
  else if py_eq_str content_type "table" then
    "[Source " +:+ str_of_int i +:+ " - Page " +:+ py_str page_num
    +:+ ", Table]" +:+ newline +:+ py_str original_content
  else if py_eq_str content_type "image" then
    "[Source " +:+ str_of_int i +:+ " - Page " +:+ py_str page_num
    +:+ ", Image]" +:+ newline
    +:+ "(Diagram/image description available - see source details)"
  else
    "[Source " +:+ str_of_int i +:+ " - Page " +:+ py_str page_num
    +:+ "]" +:+ newline +:+ py_str original_content.

Definition context_parts (retrieved_docs : list pydict) : list string :=
  concat (map (fun '(i, doc) => [context_part i doc; ""])
              (enumerate 1 retrieved_docs)).

Definition _format_context (retrieved_docs : list pydict) : string :=
  join newline (context_parts retrieved_docs).

Definition _get_content_preview (doc : pydict) (max_length : nat) : string :=
  let original_content := dict_get_or doc "original_content" (VStr "") in
  let content_type := dict_get_or doc "type" (VStr "") in
  if py_eq_str content_type "image" then "[Image/Diagram]"
  else if py_eq_str content_type "table" then
    let lines := take 3 (split_on newline_char (py_str original_content)) in
    let preview := join newline lines in
    if (String.length preview <? String.length (py_str original_content))%nat
    then preview +:+ "..."
    else preview
  else
    let content_str := py_str original_content in
    if (max_length <? String.length content_str)%nat
    then str_take max_length content_str +:+ "..."
    else content_str.

Definition answer_prompt (context query : string) : string :=
  text_of_lines
    [ "You are a helpful assistant that answers questions based ONLY on the provided context from a document.";
      "";
      "IMPORTANT RULES:";
      "1. Answer ONLY using information from the provided context";
      "2. If the context doesn't contain enough information to answer, say so explicitly";
      "3. Do NOT make up or infer information that isn't in the context";
      "4. Be concise but complete";
      "5. Reference the page numbers when mentioning specific information";
      "";
      "Context from document:";
      context;
      "";
      "Question: " +:+ query;
      "";
      "Answer (based only on the provided context):" ].

(** The dictionary returned by [generate_answer]. *)
Record Answer := {
  answer : string;
  sources : list pydict
}.

Definition source_of (doc : pydict) : pydict :=
  {[ "page" := dict_get doc "page";
     "type" := dict_get doc "type";
     "content_preview" := VStr (_get_content_preview doc 200);
     "original_content" := dict_get doc "original_content" ]}.

Definition generate_answer (query : string) (retrieved_docs : list pydict)
  : Answer :=
  match retrieved_docs with
  | [] =>
      {| answer :=
           "I couldn't find any relevant information to answer your question.";
         sources := [] |}
  | _ :: _ =>
      let context := _format_context retrieved_docs in
      match generate_content (answer_prompt context query) with
      | inr text =>
          {| answer := strip text;
             sources := map source_of retrieved_docs |}
      | inl e =>
          {| answer := "Error generating answer: " +:+ str_exn e;
             sources := [] |}
      end
  end.

End answer_generator.

(** ** The two pipelines of the application ([app.py]) *)

(** The calls of the pipelines into the libraries that come before any
    item is handled, each returning or raising: opening the PDF with
    PyMuPDF and pdfplumber and reading its pages, in [process];
    [SentenceTransformer('all-MiniLM-L6-v2')] and then
    [chromadb.Client(...)] with the collection deleted and created, both in
    [VectorStore.__init__]; [genai.configure(...)] with
    [genai.GenerativeModel(...)], in [Summarizer.__init__] and in
    [AnswerGenerator.__init__]. *)
Class Runtime := {
  read_pdf : raises unit;
  load_embedding_model : raises unit;
  open_collection : raises unit;
  configure_gemini : raises unit
}.

Section app.
Context `{!SentenceTransformer, !ChromaDB, !RankBM25, !NumPy,
          !PyRepr, !GenerativeModel, !Runtime}.

(** [VectorStore()]: when the model is loaded and the collection created,
    a store with an empty collection and an empty content store. The
    client is the one of the process, and the collection has one name:
    creating a store deletes the collection an earlier store holds. The
    steps below use the new store only. *)
Definition VectorStore_new : raises VectorStore :=
  _ ← load_embedding_model;
  _ ← open_collection;
  ret VectorStore_init.

(** [Summarizer(api_key)] and [AnswerGenerator(api_key)]. *)
Definition Summarizer_new : raises unit := configure_gemini.
Definition AnswerGenerator_new : raises unit := configure_gemini.

(** What [process_document] leaves in the session when it succeeds. *)
Record Session := {
  vector_store : VectorStore;
  retriever : Retriever;
  text_count : nat;
  table_count : nat;
  image_count : nat
}.

(** The steps of [process_document] on an uploaded PDF: extraction,
    summaries, a new vector store, a retriever over it, and the index
    rebuilt; [pdf] and [pdf_fitz] are the pages as the two libraries read
    them, when they do. An exception of any step ends the call (the
    application then reports it and does not write the session). *)
Definition process_document (pdf : list pdf_page) (pdf_fitz : list fitz_page)
    (uuid4 : nat -> string) : raises Session :=
  _ ← read_pdf;
  let processor := process pdf pdf_fitz DocumentProcessor_init in
  _ ← Summarizer_new;
  let all_content := get_all_content processor in
  summarized_content ← summarize_batch all_content;
  new_store ← VectorStore_new;
  let '(vector_store, added) :=
    add_documents new_store summarized_content uuid4 in
  _ ← added;
  retriever ← Retriever_init vector_store;
  let '(retriever, rebuilt) := rebuild_index vector_store retriever in
  _ ← rebuilt;
  ret {| vector_store := vector_store; retriever := retriever;
         text_count := length (text_blocks processor);
         table_count := length (tables processor);
         image_count := length (images processor) |}.

(** The steps of a search in [main]: hybrid retrieval of five results,
    then the answer. *)
Definition answer_query (session : Session) (query : string) : raises Answer :=
  retrieved_docs ← retrieve (vector_store session) (retriever session) query 5;
  _ ← AnswerGenerator_new;
  ret (generate_answer query retrieved_docs).

End app.

(** ** Notions used in the statements on text *)

(** How often the character [c] occurs in [s]. *)
Fixpoint count_char (c : ascii) (s : string) : nat :=
  match s with
  | EmptyString => 0
  | String a s' => (if Ascii.eqb a c then 1 else 0) + count_char c s'
  end.

(** A cell that holds neither a column separator nor a line break. *)
Definition plain_cell (cell : option string) : Prop :=
  match cell with
  | Some s => count_char "|" s = 0%nat /\ count_char newline_char s = 0%nat
  | None => True
  end.

(** ** Notions used in the statements on summaries *)

(** The item is a table or an image: its summary is asked of the model,
    with its page. *)
Definition needs_model (item : pydict) : bool :=
  (py_eq_str (dict_get item "type") "table"
   || py_eq_str (dict_get item "type") "image")%bool.

(** An item [summarize_batch] can read: it has a type and a content, and
    a page when it is a table or an image. *)
Definition summarizable (item : pydict) : Prop :=
  is_Some (item !! "type") /\ is_Some (item !! "content") /\
  (needs_model item = true -> is_Some (item !! "page")).

(** ** Notions used in the statements on answers *)

(** [doc'] is [doc], or is the image [doc] with another content. *)
Definition same_but_image_content (doc doc' : pydict) : Prop :=
  doc' = doc \/
  (doc !! "type" = Some (VStr "image") /\
   exists content, doc' = <["original_content" := content]> doc).

(** The answer given when nothing was retrieved. *)
Definition nothing_found : string :=
  "I couldn't find any relevant information to answer your question.".

(** ** Notions used in the statements on the pipelines *)

(** The text of the page, if it has one, is ASCII. *)
Definition ascii_page (page : pdf_page) : Prop :=
  match extract_text page with
  | Some text => ascii_text text = true
  | None => True
  end.

(** The page number of an extracted item. *)
Definition page_of (item : pydict) : Z :=
  match item !! "page" with
  | Some (VInt n) => n
  | _ => 0
  end.

(** The item made of the [img_idx]-th image of a page. *)
Definition image_block (image_bytes : pyval) (page_num img_idx : Z) : pydict :=
  {[ "content" := image_bytes; "page" := VInt page_num;
     "type" := VStr "image"; "image_index" := VInt img_idx;
     "metadata" := VDict ∅ ]}.

(** An item as the processor extracts it: its page is a number, its type
    one of the three, and the content of a text or of a table is text. *)
Definition extracted (item : pydict) : Prop :=
  exists content page_num type,
    item !! "content" = Some content /\
    item !! "page" = Some (VInt page_num) /\
    item !! "type" = Some (VStr type) /\
    type ∈ ["text"; "table"; "image"] /\
    (type = "text" -> exists text, content = VStr text).

(** The item has a page and a type, and its summary is a text. *)
Definition ready_to_index (item : pydict) : Prop :=
  is_Some (item !! "page") /\ is_Some (item !! "type") /\
  exists text, item_summary item = VStr text.

(** The exception was raised by one of the libraries: when the PDF was
    read, when the Gemini client was configured, when the embedding model
    was loaded, when the collection was created, by the encoder on a text,
    by the collection when a batch was added, or by the BM25 index. *)
Definition raised_by_library
    `{!SentenceTransformer, !ChromaDB, !RankBM25, !Runtime} (e : exn) : Prop :=
  read_pdf = inl e \/
  configure_gemini = inl e \/
  load_embedding_model = inl e \/
  open_collection = inl e \/
  (exists text, encode (VStr text) = inl e) \/
  (exists c ids embeddings documents metadatas,
      collection_add c ids embeddings documents metadatas = inl e) \/
  (exists corpus, BM25Okapi corpus = inl e).

(** ** A small PDF, and two models *)

Module Demo.
#[local] Existing Instances
  Memory.encoder Memory.chroma Memory.rank_bm25 Memory.numpy.

Definition repr : PyRepr :=
  {| str_float _ := "0.0";
     str_bytes _ := "b'...'";
     str_dict _ := "{...}";
     str_exn e :=
       match e with
       | LibraryError msg => msg
       | KeyError key => key
       | _ => "error"
       end |}.

(** A model that answers text prompts and turns images down. *)
Definition model : GenerativeModel :=
  {| generate_content _ := ret " Alpha figures by year. ";
     generate_content_image _ _ := raise (LibraryError "quota") |}.

(** The PDF can be read and every object constructed. *)
Definition runtime : Runtime :=
  {| read_pdf := ret tt;
     load_embedding_model := ret tt;
     open_collection := ret tt;
     configure_gemini := ret tt |}.

(** The embedding model cannot be loaded. *)
Definition offline : Runtime :=
  {| read_pdf := ret tt;
     load_embedding_model := raise (LibraryError "all-MiniLM-L6-v2");
     open_collection := ret tt;
     configure_gemini := ret tt |}.

(** A model whose answers are blank. *)
Definition blank_model : GenerativeModel :=
  {| generate_content _ := ret "  ";
     generate_content_image _ _ := ret "" |}.

Definition figures : pdf_table :=
  [ [Some "year"; Some "alpha"];
    [Some "2023"];
    [Some "2024"; None; Some "extra"] ].

Definition page_one : pdf_page :=
  {| extract_text := Some "Alpha beta"; extract_tables := [figures; []] |}.

Definition blank_page : pdf_page :=
  {| extract_text := Some "  "; extract_tables := [] |}.

Definition pdf : list pdf_page := [page_one; blank_page].

(** The first page has one image that can be extracted and one that
    cannot; PyMuPDF knows one page only. *)
Definition pdf_fitz : list fitz_page :=
  [[inr (VBytes []); inl (LibraryError "xref")]].

Definition image_block : pydict :=
  {[ "content" := VBytes []; "page" := VInt 1; "type" := VStr "image";
     "image_index" := VInt 0; "metadata" := VDict ∅ ]}.

(** What the processor extracts from the PDF. *)
Definition items : list pydict :=
  [text_block "Alpha beta" 1; table_block figures 1 0; image_block].

(** A PDF with one table and nothing else. *)
Definition table_pdf : list pdf_page :=
  [{| extract_text := None; extract_tables := [figures] |}].

(** Retrieved documents: a text, and an image with its bytes or with
    other bytes. *)
Definition text_doc : pydict :=
  {[ "id" := VStr "u1"; "type" := VStr "text"; "page" := VInt 1;
     "original_content" := VStr "Alpha beta" ]}.

Definition image_doc : pydict :=
  {[ "id" := VStr "u3"; "type" := VStr "image"; "page" := VInt 1;
     "original_content" := VBytes [] ]}.

Definition table_doc : pydict :=
  {[ "id" := VStr "u2"; "type" := VStr "table"; "page" := VInt 1;
     "original_content" := VStr (_table_to_markdown figures) ]}.

(** A session over the store of three text items. *)
Definition session : Session :=
  {| vector_store := Scenario.store; retriever := Scenario.retriever;
     text_count := 3; table_count := 0; image_count := 0 |}.

End Demo.

(** The session after the small PDF has been processed, and the answer to
    a query on the store of three text items. *)
Module Ingest.
#[local] Existing Instances
  Memory.encoder Memory.chroma Memory.rank_bm25 Memory.numpy
  Demo.repr Demo.model Demo.runtime.

Definition session : Session :=
  returned Demo.session
           (process_document Demo.pdf Demo.pdf_fitz Sample.uuid4).

Definition result : Answer :=
  returned {| answer := ""; sources := [] |}
           (answer_query Demo.session "alpha").

End Ingest.
(** ** The building blocks on small inputs *)

Example tokens_of_mixed_case :
  split (lower "Alpha  beta
GAMMA ") = ["alpha"; "beta"; "gamma"].
Proof. reflexivity. Qed.

Example tokens_of_blank : split (lower "   ") = [].
Proof. reflexivity. Qed.

Example py_slice_to_examples :
  py_slice_to 2 [1; 2; 3] = [1; 2] /\
  py_slice_to 5 [1; 2; 3] = [1; 2; 3] /\
  py_slice_to (-1) [1; 2; 3] = [1; 2] /\
  py_slice_to (-5) [1; 2; 3] = [].
Proof. repeat split; reflexivity. Qed.

Example enumerate_from_one :
  enumerate 1 ["a"; "b"; "c"] = [(1, "a"); (2, "b"); (3, "c")].
Proof. reflexivity. Qed.

(** Equal scores keep the order they had. *)
Example sorted_desc_is_stable :
  sorted_desc [("a", 1%float); ("b", 2%float); ("c", 1%float); ("d", 2%float)]
  = [("b", 2%float); ("d", 2%float); ("a", 1%float); ("c", 1%float)].
Proof. reflexivity. Qed.

Example py_recip_examples :
  py_recip 0 = inl ZeroDivisionError /\
  py_recip 2 = inr 0.5%float /\
  py_recip (-4) = inr (-0.25)%float.
Proof. repeat split; reflexivity. Qed.

(** Assigning to a key that is present keeps its place. *)
Example ordered_dict_set :
  OrderedDict.set (OrderedDict.set (OrderedDict.set [] "x" 1) "y" 2) "x" 3
  = [("x", 3); ("y", 2)].
Proof. reflexivity. Qed.

(** ** Lemmas on the error monad and on ordered dictionaries *)

Lemma bind_inr {A B} (m : raises A) (f : A -> raises B) (b : B) :
  m ≫= f = inr b -> exists a, m = inr a /\ f a = inr b.
Proof. destruct m as [e|a]; [discriminate | eauto]. Qed.

Ltac inv_bind H :=
  let a := fresh "a" in
  let Ha := fresh "Hm" in
  apply bind_inr in H; destruct H as (a & Ha & H).

Lemma foldM_app {A S} (body : S -> A -> raises S) xs ys s :
  foldM body (xs ++ ys) s = foldM body xs s ≫= foldM body ys.
Proof.
  revert s. induction xs as [|x xs IH]; intros s; simpl; [done|].
  destruct (body s x) as [e|s']; simpl; [done | apply IH].
Qed.

Lemma foldM_concat {A S} (body : S -> A -> raises S) (xss : list (list A)) s :
  foldM (fun s xs => foldM body xs s) xss s = foldM body (concat xss) s.
Proof.
  revert s. induction xss as [|xs xss IH]; intros s; simpl; [done|].
  rewrite foldM_app. destruct (foldM body xs s); simpl; [done | apply IH].
Qed.

Lemma foldM_map {A B S} (body : S -> B -> raises S) (f : A -> B) xs s :
  foldM (fun s x => body s (f x)) xs s = foldM body (map f xs) s.
Proof.
  revert s. induction xs as [|x xs IH]; intros s; simpl; [done|].
  destruct (body s (f x)); simpl; [done | apply IH].
Qed.

Lemma elem_of_concat {A} (x : A) (ls : list (list A)) :
  x ∈ concat ls <-> exists l, x ∈ l /\ l ∈ ls.
Proof.
  rewrite list_elem_of_In, in_concat. split.
  - intros (l & Hl & Hx). exists l. by rewrite !list_elem_of_In.
  - intros (l & Hx & Hl). exists l. by rewrite <- !list_elem_of_In.
Qed.

Lemma filter_none {A} (P : A -> Prop) `{forall x, Decision (P x)} (l : list A) :
  (forall x, x ∈ l -> ~ P x) -> filter P l = [].
Proof.
  induction l as [|x l IH]; intros Hl; [done|].
  rewrite filter_cons_False by (apply Hl; left).
  apply IH. intros y Hy. apply Hl. by right.
Qed.

(** A loop invariant rule for [foldM]: [P] relates the prefix visited so far
    to the state. *)
Lemma foldM_invariant {A S} (body : S -> A -> raises S) (P : list A -> S -> Prop)
    xs pre s s' :
  (forall pre s x s', P pre s -> body s x = inr s' -> P (pre ++ [x]) s') ->
  P pre s -> foldM body xs s = inr s' -> P (pre ++ xs) s'.
Proof.
  intros Hstep. revert pre s. induction xs as [|x xs IH]; intros pre s HP H.
  - simpl in H. injection H as <-. by rewrite app_nil_r.
  - simpl in H. inv_bind H.
    replace (pre ++ x :: xs) with ((pre ++ [x]) ++ xs) by by rewrite <- app_assoc.
    eapply IH; [|exact H]. eapply Hstep; eauto.
Qed.

Lemma mapM_inr_Forall2 {A B} (f : A -> raises B) xs ys :
  mapM f xs = inr ys <-> Forall2 (fun x y => f x = inr y) xs ys.
Proof.
  revert ys. induction xs as [|x xs IH]; intros ys; simpl.
  - split.
    + intros [= <-]. constructor.
    + intros H. by inversion H.
  - split.
    + intros H. inv_bind H. inv_bind H. injection H as <-.
      constructor; [done|]. by apply IH.
    + intros H. inversion H as [|? y ? ys' Hx Hxs]; subst.
      rewrite Hx. simpl. apply IH in Hxs. rewrite Hxs. done.
Qed.

Module OrderedDictFacts.
Import OrderedDict.

Section facts.
Context {V : Type}.
Implicit Types (d : t V) (key : string) (v : V).

Lemma get_set_eq d key v : get (set d key v) key = Some v.
Proof.
  induction d as [|[k' v'] d IH]; simpl.
  - by rewrite decide_True.
  - destruct (decide (key = k')) as [->|Hne]; simpl.
    + by rewrite decide_True.
    + by rewrite decide_False.
Qed.

Lemma get_set_ne d key key' v :
  key <> key' -> get (set d key v) key' = get d key'.
Proof.
  intros Hne. induction d as [|[k' v'] d IH]; simpl.
  - by rewrite decide_False.
  - destruct (decide (key = k')) as [->|Hne']; simpl.
    + by rewrite !decide_False.
    + by rewrite IH.
Qed.

Lemma get_None_keys d key : get d key = None <-> key ∉ keys d.
Proof.
  unfold keys. induction d as [|[k' v'] d IH]; simpl.
  - split; [intros _; apply not_elem_of_nil | done].
  - rewrite not_elem_of_cons. destruct (decide (key = k')); [|tauto].
    split; [done | tauto].
Qed.

Lemma get_Some_keys d key : is_Some (get d key) <-> key ∈ keys d.
Proof.
  rewrite <- not_eq_None_Some, get_None_keys.
  destruct (decide (key ∈ keys d)); tauto.
Qed.

Lemma keys_set_present d key v :
  key ∈ keys d -> keys (set d key v) = keys d.
Proof.
  unfold keys. induction d as [|[k' v'] d IH]; simpl.
  - by intros ?%elem_of_nil.
  - intros Hin. destruct (decide (key = k')) as [->|Hne]; simpl; [done|].
    f_equal. apply IH. apply elem_of_cons in Hin as [?|?]; done.
Qed.

Lemma keys_set_absent d key v :
  key ∉ keys d -> keys (set d key v) = keys d ++ [key].
Proof.
  unfold keys. induction d as [|[k' v'] d IH]; simpl; [done|].
  intros [Hne Hnin]%not_elem_of_cons.
  rewrite decide_False by done. simpl. f_equal. by apply IH.
Qed.

Lemma items_get d key v :
  NoDup (keys d) -> (key, v) ∈ items d -> get d key = Some v.
Proof.
  unfold items, keys. induction d as [|[k' v'] d IH]; simpl.
  - by intros _ ?%elem_of_nil.
  - intros [Hnin Hnd]%NoDup_cons [Heq|Hin]%elem_of_cons.
    + injection Heq as -> ->. by rewrite decide_True.
    + destruct (decide (key = k')) as [->|Hne]; [|by apply IH].
      exfalso. apply Hnin. apply list_elem_of_fmap. by exists (k', v).
Qed.

End facts.
End OrderedDictFacts.

(** ** Reciprocal Rank Fusion *)

Section rrf_facts.
Import OrderedDict OrderedDictFacts.

Lemma result_id_inr result id : result_id result = inr id <-> id_of result = Some id.
Proof.
  unfold result_id, id_of, dict_getitem.
  destruct (result !! "id") as [[]|]; simpl; split; intros [=]; by subst.
Qed.

Lemma id_of_insert_score result (s : float) :
  id_of (<["rrf_score" := VFloat s]> result) = id_of result.
Proof. unfold id_of. by rewrite lookup_insert_ne. Qed.

Lemma enumerate_snd {A} (start : Z) (xs : list A) :
  map snd (enumerate start xs) = xs.
Proof.
  revert start. induction xs as [|x xs IH]; intros start; simpl; [done|].
  by rewrite IH.
Qed.

Lemma enumerate_rank {A} (start : Z) (xs : list A) rank x :
  (rank, x) ∈ enumerate start xs ->
  start <= rank < start + Z.of_nat (length xs).
Proof.
  revert start. induction xs as [|y xs IH]; intros start; simpl.
  - by intros ?%elem_of_nil.
  - intros [[= -> ->]|Hin%IH]%elem_of_cons; lia.
Qed.

Lemma visits_snd rl : map snd (visits rl) = concat rl.
Proof.
  unfold visits. induction rl as [|results rl IH]; simpl; [done|].
  by rewrite map_app, enumerate_snd, IH.
Qed.

Lemma visits_rank rl rank x :
  (rank, x) ∈ visits rl ->
  exists results, results ∈ rl /\ 1 <= rank <= Z.of_nat (length results).
Proof.
  unfold visits. intros (l & Hin & Hl)%elem_of_concat.
  apply list_elem_of_fmap in Hl as (results & -> & Hres).
  apply enumerate_rank in Hin. exists results. split; [done | lia].
Qed.

(** [first_seen] along a list that grows at its end. *)
Lemma first_seen_snoc id results r :
  first_seen id (results ++ [r]) =
  match first_seen id results with
  | Some x => Some x
  | None => if decide (id_of r = Some id) then Some r else None
  end.
Proof.
  unfold first_seen. rewrite filter_app.
  destruct (filter _ results) as [|x l]; simpl; [|done].
  rewrite filter_cons, filter_nil. by case_decide.
Qed.

Lemma first_seen_Some id results src :
  first_seen id results = Some src -> src ∈ results /\ id_of src = Some id.
Proof.
  unfold first_seen. intros Hhd.
  assert (src ∈ filter (fun r => id_of r = Some id) results) as Hin.
  { destruct (filter _ results); simplify_eq/=. apply list_elem_of_here. }
  apply list_elem_of_filter in Hin. tauto.
Qed.

Lemma first_seen_None id results :
  first_seen id results = None <-> id ∉ omap id_of results.
Proof.
  unfold first_seen. rewrite head_None. split.
  - intros Hnil (r & Hr & Hid)%list_elem_of_omap.
    assert (r ∈ filter (fun r => id_of r = Some id) results) as Hin
      by by apply list_elem_of_filter.
    rewrite Hnil in Hin. by apply elem_of_nil in Hin.
  - intros Hnin. apply filter_none. intros r Hr Hid.
    apply Hnin, list_elem_of_omap. eauto.
Qed.

Context (k : Z).

Local Lemma total_snoc_same id vs rank r :
  id_of r = Some id ->
  visit_total k id (vs ++ [(rank, r)]) = (visit_total k id vs + float_quot 1 (k + rank))%float.
Proof.
  intros Hid. unfold visit_total, visit_ranks.
  rewrite filter_app, filter_cons, filter_nil, decide_True by done.
  by rewrite map_app, fold_left_app.
Qed.

Local Lemma total_snoc_other id vs rank r :
  id_of r <> Some id -> visit_total k id (vs ++ [(rank, r)]) = visit_total k id vs.
Proof.
  intros Hid. unfold visit_total, visit_ranks.
  rewrite filter_app, filter_cons, filter_nil, decide_False by done.
  by rewrite app_nil_r.
Qed.

Local Lemma total_absent id vs :
  id ∉ omap id_of (map snd vs) -> visit_total k id vs = 0%float.
Proof.
  intros Hnin. unfold visit_total, visit_ranks.
  replace (filter _ vs) with (@nil (Z * pydict)); [done|].
  symmetry. apply filter_none. intros [rank r] Hr Hid.
  apply Hnin, list_elem_of_omap. exists r. split; [|done].
  apply list_elem_of_fmap. by exists (rank, r).
Qed.

Lemma rrf_inv_init : rrf_inv k [] {| doc_scores := []; doc_info := [] |}.
Proof.
  split; [constructor|]. split; [done|]. split; [done|]. done.
Qed.

Lemma rrf_visit_inv vs tabs v tabs' :
  rrf_inv k vs tabs -> rrf_visit k tabs v = inr tabs' ->
  rrf_inv k (vs ++ [v]) tabs'.
Proof.
  intros (Hnd & Hkeys & Hsc & Hinfo) Hv. destruct v as [rank r].
  unfold rrf_visit in Hv. inv_bind Hv. rename a into id.
  apply result_id_inr in Hm. inv_bind Hv. rename a into term.
  unfold py_recip in Hm0. destruct (k + rank =? 0); [discriminate|].
  injection Hm0 as <-.
  assert (forall id', id' ∈ omap id_of (map snd (vs ++ [(rank, r)])) <->
                      id' ∈ omap id_of (map snd vs) \/ id' = id) as Hids.
  { intros id'. rewrite map_app, omap_app, elem_of_app. simpl. rewrite Hm.
    by rewrite list_elem_of_singleton. }
  unfold contains in Hv.
  destruct (get (doc_scores tabs) id) as [s|] eqn:Hget.
  - (* the id has been seen *)
    cbv beta iota in Hv. unfold getitem in Hv. rewrite Hget in Hv.
    injection Hv as <-. unfold rrf_inv. cbn [doc_scores doc_info].
    assert (id ∈ keys (doc_scores tabs)) as Hin
      by (apply get_Some_keys; eauto).
    split; [by rewrite keys_set_present|].
    split; [intros id'; rewrite keys_set_present, Hids, Hkeys by done;
            split; [tauto | intros [?| ->]; [done | by apply Hkeys]]|].
    split.
    + intros id' s'. destruct (decide (id = id')) as [<-|Hne].
      * rewrite get_set_eq. intros [= <-].
        rewrite total_snoc_same by done. by rewrite (Hsc _ _ Hget).
      * rewrite get_set_ne by done. intros Hs%Hsc.
        rewrite total_snoc_other; [done|]. congruence.
    + intros id'. rewrite map_app. cbn [map snd]. rewrite first_seen_snoc, <- Hinfo.
      destruct (get (doc_info tabs) id') as [x|] eqn:Hx; [done|].
      case_decide as Hid; [|done]. exfalso.
      rewrite Hinfo in Hx. apply first_seen_None in Hx. apply Hx.
      apply Hkeys. congruence.
  - (* first occurrence *)
    cbv beta iota in Hv. cbn [doc_scores doc_info] in Hv.
    unfold getitem in Hv. rewrite get_set_eq in Hv.
    injection Hv as <-. unfold rrf_inv. cbn [doc_scores doc_info].
    assert (id ∉ keys (doc_scores tabs)) as Hnin by by apply get_None_keys.
    assert (keys (set (set (doc_scores tabs) id 0%float) id
                      (0 + float_quot 1 (k + rank))%float)
            = keys (doc_scores tabs) ++ [id]) as Hk.
    { rewrite keys_set_present, keys_set_absent; [done..|].
      rewrite keys_set_absent by done. apply elem_of_app. right.
      apply list_elem_of_here. }
    split.
    { rewrite Hk. apply NoDup_app. split; [done|]. split; [|apply NoDup_singleton].
      intros x Hx ->%list_elem_of_singleton. done. }
    split.
    { intros id'. rewrite Hk, Hids, elem_of_app, list_elem_of_singleton.
      by rewrite Hkeys. }
    split.
    + intros id' s'. destruct (decide (id = id')) as [<-|Hne].
      * rewrite get_set_eq. intros [= <-].
        rewrite total_snoc_same by done.
        rewrite total_absent; [done|]. by rewrite <- Hkeys.
      * rewrite !get_set_ne by done. intros Hs%Hsc.
        rewrite total_snoc_other; [done|]. congruence.
    + intros id'. rewrite map_app. cbn [map snd]. rewrite first_seen_snoc, <- Hinfo.
      destruct (decide (id = id')) as [<-|Hne].
      * rewrite get_set_eq.
        assert (get (doc_info tabs) id = None) as ->.
        { rewrite Hinfo. apply first_seen_None. by rewrite <- Hkeys. }
        by rewrite decide_True.
      * rewrite get_set_ne by done.
        destruct (get (doc_info tabs) id'); [done|].
        rewrite decide_False; [done|]. congruence.
Qed.

Lemma rrf_aggregate_flat rl :
  rrf_aggregate k rl =
  foldM (rrf_visit k) (visits rl) {| doc_scores := []; doc_info := [] |}.
Proof. unfold rrf_aggregate, visits. by rewrite <- foldM_concat, <- foldM_map. Qed.

End rrf_facts.

Lemma foldM_returns {A S} (body : S -> A -> raises S) xs s :
  (forall s x, x ∈ xs -> exists s', body s x = inr s') ->
  exists s', foldM body xs s = inr s'.
Proof.
  revert s. induction xs as [|x xs IH]; intros s Hbody; simpl; [by eexists|].
  destruct (Hbody s x) as [s1 ->]; [left|]. simpl.
  apply IH. intros s2 y Hy. apply Hbody. by right.
Qed.

Lemma mapM_returns {A B} (f : A -> raises B) xs :
  (forall x, x ∈ xs -> exists y, f x = inr y) -> exists ys, mapM f xs = inr ys.
Proof.
  induction xs as [|x xs IH]; intros Hf; simpl; [by eexists|].
  destruct (Hf x) as [y ->]; [left|]. simpl.
  destruct IH as [ys ->]; [intros z Hz; apply Hf; by right|]. by eexists.
Qed.

Lemma Forall2_and_l {A B} (P : A -> Prop) (R : A -> B -> Prop) xs ys :
  Forall P xs -> Forall2 R xs ys -> Forall2 (fun x y => P x /\ R x y) xs ys.
Proof.
  intros HP HR. induction HR as [|x y xs ys Hxy HR IH]; [constructor|].
  apply Forall_cons in HP as [Hx Hxs]. constructor; auto.
Qed.

Lemma insert_desc_perm x l : insert_desc x l ≡ₚ x :: l.
Proof.
  induction l as [|y l IH]; simpl; [done|].
  destruct (PrimFloat.ltb x.2 y.2); [|done].
  by rewrite IH, Permutation_swap.
Qed.

Lemma sorted_desc_perm l : sorted_desc l ≡ₚ l.
Proof.
  unfold sorted_desc. induction l as [|x l IH]; simpl; [done|].
  by rewrite insert_desc_perm, IH.
Qed.

Section rrf_correct.
Import OrderedDict OrderedDictFacts.

Lemma rrf_entries rl k tabs :
  rrf_aggregate k rl = inr tabs ->
  let entries := sorted_desc (items (doc_scores tabs)) in
  NoDup entries.*1 /\
  (forall id, id ∈ entries.*1 <-> id ∈ input_ids rl) /\
  Forall (fun e => e.2 = rrf_sum k e.1 rl /\
                   exists src, first_seen e.1 (concat rl) = Some src /\
                               get (doc_info tabs) e.1 = Some src) entries.
Proof.
  intros Hagg entries. rewrite rrf_aggregate_flat in Hagg.
  apply (foldM_invariant _ (rrf_inv k) _ []) in Hagg;
    [|apply rrf_visit_inv | apply rrf_inv_init].
  simpl in Hagg. destruct Hagg as (Hnd & Hkeys & Hsc & Hinfo).
  rewrite visits_snd in Hkeys, Hinfo.
  assert (entries ≡ₚ items (doc_scores tabs)) as Hperm
    by apply sorted_desc_perm.
  assert (entries.*1 ≡ₚ keys (doc_scores tabs)) as Hperm1
    by (unfold keys; by rewrite Hperm).
  split; [by rewrite Hperm1|].
  split; [intros id; by rewrite Hperm1, Hkeys|].
  apply Forall_forall. intros [id s] Hin. simpl.
  rewrite Hperm in Hin.
  assert (get (doc_scores tabs) id = Some s) as Hget by by apply items_get.
  split; [by apply Hsc|].
  assert (id ∈ omap id_of (concat rl)) as Hid.
  { apply Hkeys, get_Some_keys. eauto. }
  rewrite Hinfo.
  destruct (first_seen id (concat rl)) as [src|] eqn:Hfs; [eauto|].
  by apply first_seen_None in Hfs.
Qed.

(** The fused list, entry by entry. *)
Lemma rrf_fused rl k fused :
  reciprocal_rank_fusion rl k = inr fused ->
  exists entries : list (string * float),
    NoDup entries.*1 /\
    (forall id, id ∈ entries.*1 <-> id ∈ input_ids rl) /\
    Forall2 (fused_from k rl) entries fused.
Proof.
  unfold reciprocal_rank_fusion. intros H. inv_bind H. rename a into tabs.
  destruct (rrf_entries _ _ _ Hm) as (Hnd & Hids & Hall).
  eexists. split; [exact Hnd|]. split; [exact Hids|].
  apply mapM_inr_Forall2 in H.
  eapply Forall2_impl; [apply (Forall2_and_l _ _ _ _ Hall H)|].
  intros [id s] r [[Hs (src & Hfs & Hget)] Hfmt]. simpl in *.
  unfold rrf_format, getitem in Hfmt. rewrite Hget in Hfmt.
  injection Hfmt as <-. split; [done|]. eauto.
Qed.

(** The fusion returns whenever every result has an id and no rank hits
    the zero of [k + rank]. *)
Lemma rrf_returns rl k :
  Forall (Forall (fun r => is_Some (id_of r))) rl ->
  Forall (fun results : list pydict =>
            forall rank, 1 <= rank <= Z.of_nat (length results) ->
                         k + rank <> 0) rl ->
  exists fused, reciprocal_rank_fusion rl k = inr fused.
Proof.
  intros Hids Hk. unfold reciprocal_rank_fusion.
  destruct (rrf_aggregate k rl) as [e|tabs] eqn:Hagg.
  - exfalso. rewrite rrf_aggregate_flat in Hagg.
    destruct (foldM_returns (rrf_visit k) (visits rl)
                {| doc_scores := []; doc_info := [] |}) as [tabs Ht];
      [|congruence].
    intros tabs [rank r] Hin.
    assert (is_Some (id_of r)) as [id Hid].
    { assert (r ∈ concat rl) as (l & Hr & Hl)%elem_of_concat.
      { rewrite <- visits_snd. apply list_elem_of_fmap. by exists (rank, r). }
      rewrite Forall_forall in Hids. specialize (Hids _ Hl).
      rewrite Forall_forall in Hids. by apply Hids. }
    assert (k + rank <> 0) as Hne.
    { apply visits_rank in Hin as (results & Hres & Hrank).
      rewrite Forall_forall in Hk. by apply (Hk _ Hres). }
    unfold rrf_visit. apply result_id_inr in Hid. rewrite Hid. simpl.
    unfold py_recip. apply Z.eqb_neq in Hne. rewrite Hne. simpl.
    unfold contains, getitem.
    destruct (get (doc_scores tabs) id) as [s|] eqn:Hget.
    + rewrite Hget. simpl. by eexists.
    + cbn [doc_scores]. rewrite get_set_eq. simpl. by eexists.
  - simpl. destruct (rrf_entries _ _ _ Hagg) as (_ & _ & Hall).
    apply mapM_returns. intros [id s] Hin.
    rewrite Forall_forall in Hall.
    destruct (Hall _ Hin) as (_ & src & _ & Hget). simpl in Hget.
    unfold rrf_format, getitem. rewrite Hget. simpl. by eexists.
Qed.

End rrf_correct.

(** ** The fusion on references refines the fusion on values *)

Lemma mapM_snoc {A B} (f : A -> raises B) xs x ys y :
  mapM f xs = inr ys -> f x = inr y -> mapM f (xs ++ [x]) = inr (ys ++ [y]).
Proof.
  rewrite !mapM_inr_Forall2. intros Hxs Hx.
  apply Forall2_app; [done|]. by repeat constructor.
Qed.

Section rrf_refs_facts.
Import OrderedDict OrderedDictFacts.
Context (objects : object_store).

Lemma info_values_get info key :
  get (info_values objects info) key
  = (fun ref => default ∅ (objects !! ref)) <$> get info key.
Proof.
  unfold info_values. induction info as [|[k' ref] info IH]; simpl; [done|].
  by destruct (decide (key = k')).
Qed.

Lemma info_values_set info key ref :
  info_values objects (set info key ref)
  = set (info_values objects info) key (default ∅ (objects !! ref)).
Proof.
  unfold info_values. induction info as [|[k' ref'] info IH]; simpl; [done|].
  destruct (decide (key = k')); simpl; [done|]. by rewrite IH.
Qed.

Lemma valid_info_set info key ref :
  valid_info objects info -> (ref < length objects)%nat ->
  valid_info objects (set info key ref).
Proof.
  unfold valid_info. intros Hinfo Href.
  induction Hinfo as [|[k' ref'] info Hx Hinfo IH]; simpl.
  - by repeat constructor.
  - destruct (decide (key = k')); constructor; auto.
Qed.

Lemma valid_info_get info key ref :
  valid_info objects info -> get info key = Some ref ->
  (ref < length objects)%nat.
Proof.
  unfold valid_info. intros Hinfo.
  induction Hinfo as [|[k' ref'] info Hx Hinfo IH]; simpl; [done|].
  destruct (decide (key = k')); [by intros [= <-] | done].
Qed.

Lemma rrf_visit_ref_sim k tabs rank ref tabs' :
  rrf_visit_ref objects k tabs (rank, ref) = inr tabs' ->
  valid_info objects (ref_info tabs) ->
  exists result,
    objects !! ref = Some result /\
    rrf_visit k (tables_of objects tabs) (rank, result)
    = inr (tables_of objects tabs') /\
    valid_info objects (ref_info tabs').
Proof.
  intros Hv Hvalid. unfold rrf_visit_ref in Hv.
  inv_bind Hv. rename a into result. inv_bind Hv. rename a into doc_id.
  inv_bind Hv. rename a into term.
  unfold deref, list_getitem in Hm.
  destruct (objects !! ref) as [result'|] eqn:Href; [|discriminate Hm].
  injection Hm as ->. exists result. split; [done|].
  unfold rrf_visit. rewrite Hm0. simpl. rewrite Hm1. simpl.
  unfold contains, getitem in Hv |- *.
  unfold tables_of. cbn [doc_scores doc_info].
  destruct (get (ref_scores tabs) doc_id) as [s|] eqn:Hget;
    cbn [ref_scores ref_info doc_scores doc_info] in Hv |- *.
  - rewrite Hget in Hv |- *. simpl in Hv |- *. injection Hv as <-. done.
  - rewrite get_set_eq in Hv |- *. simpl in Hv |- *. injection Hv as <-.
    cbn [ref_scores ref_info]. split.
    + by rewrite info_values_set, Href.
    + apply valid_info_set; [done|]. by apply lookup_lt_Some in Href.
Qed.

Lemma contents_cons ref refs result :
  objects !! ref = Some result ->
  contents objects (ref :: refs) = result :: contents objects refs.
Proof. intros Href. unfold contents. simpl. by rewrite Href. Qed.

Lemma rrf_visits_ref_sim k refs start tabs tabs' :
  foldM (rrf_visit_ref objects k) (enumerate start refs) tabs = inr tabs' ->
  valid_info objects (ref_info tabs) ->
  foldM (rrf_visit k) (enumerate start (contents objects refs))
        (tables_of objects tabs)
  = inr (tables_of objects tabs') /\
  length (contents objects refs) = length refs /\
  valid_info objects (ref_info tabs').
Proof.
  revert start tabs.
  induction refs as [|ref refs IH]; intros start tabs.
  - simpl. by intros [= <-].
  - intros Hloop Hvalid. cbn [enumerate foldM] in Hloop.
    inv_bind Hloop. rename a into mid.
    apply rrf_visit_ref_sim in Hm as (result & Href & Hvisit & Hmid); [|done].
    destruct (IH _ _ Hloop Hmid) as (Hrest & Hlen & Hvalid').
    rewrite (contents_cons _ _ _ Href). cbn [enumerate foldM length].
    rewrite Hvisit. split; [exact Hrest|]. by rewrite Hlen.
Qed.

Lemma rrf_aggregate_ref_sim k rl tabs tabs' :
  foldM (fun tabs results =>
           foldM (rrf_visit_ref objects k) (enumerate 1 results) tabs) rl tabs
  = inr tabs' ->
  valid_info objects (ref_info tabs) ->
  foldM (fun tabs results => foldM (rrf_visit k) (enumerate 1 results) tabs)
        (map (contents objects) rl) (tables_of objects tabs)
  = inr (tables_of objects tabs') /\
  valid_info objects (ref_info tabs').
Proof.
  revert tabs. induction rl as [|refs rl IH]; intros tabs; simpl.
  - by intros [= <-].
  - intros Hloop Hvalid. inv_bind Hloop. rename a into mid.
    apply rrf_visits_ref_sim in Hm as (Hinner & _ & Hmid); [|done].
    rewrite Hinner. simpl. by apply IH.
Qed.

Lemma rrf_copy_ref_sim info sorted objects' out :
  valid_info objects info ->
  foldM (rrf_copy_ref info) sorted (objects, []) = inr (objects', out) ->
  exists fused,
    mapM (rrf_format (info_values objects info)) sorted = inr fused /\
    objects' = objects ++ fused /\
    out = seq (length objects) (length fused).
Proof.
  intros Hvalid Hloop.
  apply (foldM_invariant _
           (fun pre state =>
              exists fused,
                mapM (rrf_format (info_values objects info)) pre = inr fused /\
                state = (objects ++ fused,
                         seq (length objects) (length fused)))
           _ []) in Hloop.
  - destruct Hloop as (fused & Hfused & [= -> ->]). by exists fused.
  - intros pre [cur refs] [doc_id score] state' (fused & Hfused & [= -> ->]) Hstep.
    unfold rrf_copy_ref, getitem, deref, list_getitem in Hstep.
    destruct (get info doc_id) as [source|] eqn:Hget; [|discriminate].
    simpl in Hstep.
    pose proof (valid_info_get _ _ _ Hvalid Hget) as Hsource.
    rewrite lookup_app_l in Hstep by done.
    destruct (objects !! source) as [fields|] eqn:Hfields; [|discriminate].
    simpl in Hstep. injection Hstep as <-.
    exists (fused ++ [<["rrf_score" := VFloat score]> fields]). split.
    + apply mapM_snoc; [done|]. unfold rrf_format, getitem.
      rewrite info_values_get, Hget. simpl. by rewrite Hfields.
    + f_equal.
      * rewrite insert_app_r_alt by done. rewrite Nat.sub_diag. simpl.
        by rewrite <- app_assoc.
      * rewrite !length_app. simpl. rewrite Nat.add_1_r, seq_S. done.
  - exists []. split; [done|]. by rewrite app_nil_r.
Qed.

(** The fusion on references returns the fused records of the fusion on
    the referenced values, as new objects after the existing ones. *)
Lemma rrf_refs_refines rl k objects' out :
  reciprocal_rank_fusion_refs objects rl k = inr (objects', out) ->
  exists fused,
    reciprocal_rank_fusion (map (contents objects) rl) k = inr fused /\
    objects' = objects ++ fused /\
    out = seq (length objects) (length fused).
Proof.
  unfold reciprocal_rank_fusion_refs, reciprocal_rank_fusion, rrf_aggregate.
  intros Hrefs. inv_bind Hrefs. rename a into tabs.
  apply rrf_aggregate_ref_sim in Hm as [Hagg Hvalid]; [|constructor].
  change (tables_of objects {| ref_scores := []; ref_info := [] |})
    with {| doc_scores := []; doc_info := [] |} in Hagg.
  rewrite Hagg. simpl.
  by apply rrf_copy_ref_sim.
Qed.

End rrf_refs_facts.

(** ** Reciprocal Rank Fusion: the statements *)

(** C1 (as amended): for L1 = [A, B, C] and L2 = [B, C, D] with k = 60 the
    fusion gives A the score 1/61, B the score 1/62 + 1/61, C the score
    1/63 + 1/62 and D, third in L2, the score 1/63, and returns the order
    B, C, A, D; A and D, each in one list only, are in the output with
    their single contribution. *)
Theorem rrf_worked_example :
  reciprocal_rank_fusion [Sample.L1; Sample.L2] 60
  = inr Sample.fused_L1_L2.
Proof. reflexivity. Qed.

(** C1 as stated gives D the contribution 1/62; the fused list does not
    carry that score. *)
Lemma rrf_worked_example_D_is_not_62 :
  reciprocal_rank_fusion [Sample.L1; Sample.L2] 60
  <> inr Sample.fused_L1_L2_D62.
Proof.
  intros Heq.
  assert (Sample.score_at_D (reciprocal_rank_fusion [Sample.L1; Sample.L2] 60)
          = Sample.score_at_D (inr Sample.fused_L1_L2_D62)) as Hd
    by (by rewrite Heq).
  vm_compute in Hd. discriminate Hd.
Qed.

Lemma rrf_fused_fields
    (rl : list (list pydict)) (k : Z) (fused : list pydict) (r : pydict) :
  reciprocal_rank_fusion rl k = inr fused -> r ∈ fused ->
  exists (id : string) (src : pydict) (score : float),
    first_seen id (concat rl) = Some src /\
    id_of src = Some id /\
    r = <["rrf_score" := VFloat score]> src.
Proof.
  intros Hrrf Hr. apply rrf_fused in Hrrf as (entries & _ & _ & Hall).
  apply list_elem_of_lookup in Hr as [i Hi].
  destruct (Forall2_lookup_r _ _ _ _ _ Hall Hi) as ([id s] & _ & Hs & src & Hfs & ->).
  simpl in *. exists id, src, s.
  split; [done|]. split; [exact (proj2 (first_seen_Some _ _ _ Hfs)) | done].
Qed.

(** C8: the fusion leaves every result object it was given as it was, and
    each fused result is a new object: the first-seen input result of its
    id with the field [rrf_score] set. All other fields, the display fields
    among them, are those of that source record, and a source record
    without an [rrf_score] field is extended by it. *)
Theorem rrf_keeps_first_seen_fields
    (objects : object_store) (rl : list (list nat)) (k : Z)
    (objects' : object_store) (out : list nat) :
  reciprocal_rank_fusion_refs objects rl k = inr (objects', out) ->
  (forall ref obj, objects !! ref = Some obj -> objects' !! ref = Some obj) /\
  Forall (fun ref =>
            (length objects <= ref)%nat /\
            exists (r : pydict) (id : string) (src : pydict) (score : float),
              objects' !! ref = Some r /\
              first_seen id (concat (map (contents objects) rl)) = Some src /\
              id_of src = Some id /\
              r = <["rrf_score" := VFloat score]> src /\
              r !! "rrf_score" = Some (VFloat score) /\
              (forall field, field <> "rrf_score" -> r !! field = src !! field) /\
              Forall (fun field => r !! field = src !! field) display_fields /\
              (src !! "rrf_score" = None -> src ⊆ r)) out.
Proof.
  intros (fused & Hfused & -> & ->)%rrf_refs_refines. split.
  { intros ref obj Href. rewrite lookup_app_l; [done|].
    by apply lookup_lt_Some in Href. }
  apply Forall_forall. intros ref [i Hi]%list_elem_of_lookup.
  apply lookup_seq in Hi as [-> Hlt]. split; [lia|].
  destruct (lookup_lt_is_Some_2 fused i Hlt) as [r Hr].
  destruct (rrf_fused_fields _ _ _ r Hfused) as (id & src & score & Hfs & Hid & ->).
  { by eapply list_elem_of_lookup_2. }
  exists (<["rrf_score" := VFloat score]> src), id, src, score.
  split.
  { rewrite lookup_app_r by lia. by replace (length objects + i - length objects)%nat with i by lia. }
  split; [done|]. split; [done|]. split; [done|].
  split; [by rewrite lookup_insert_eq|].
  split; [intros field Hne; by rewrite lookup_insert_ne|].
  split.
  - unfold display_fields. repeat constructor; by rewrite lookup_insert_ne.
  - intros Hnone. by apply insert_subseteq.
Qed.

Lemma rrf_keeps_first_seen_fields_witness :
  reciprocal_rank_fusion_refs Sample.objects
    [Sample.dense_refs; Sample.keyword_refs] 60
  = inr (Sample.objects ++ [Sample.fused_u2; Sample.fused_u1], [5; 6]%nat) /\
  (forall ref obj,
      Sample.objects !! ref = Some obj ->
      (Sample.objects ++ [Sample.fused_u2; Sample.fused_u1]) !! ref = Some obj) /\
  Forall (fun ref =>
            (length Sample.objects <= ref)%nat /\
            exists (r : pydict) (id : string) (src : pydict) (score : float),
              (Sample.objects ++ [Sample.fused_u2; Sample.fused_u1]) !! ref
              = Some r /\
              first_seen id
                (concat (map (contents Sample.objects)
                             [Sample.dense_refs; Sample.keyword_refs]))
              = Some src /\
              id_of src = Some id /\
              r = <["rrf_score" := VFloat score]> src /\
              r !! "rrf_score" = Some (VFloat score) /\
              (forall field, field <> "rrf_score" -> r !! field = src !! field) /\
              Forall (fun field => r !! field = src !! field) display_fields /\
              (src !! "rrf_score" = None -> src ⊆ r)) [5; 6]%nat.
Proof.
  split; [reflexivity|].
  apply (rrf_keeps_first_seen_fields Sample.objects
           [Sample.dense_refs; Sample.keyword_refs] 60).
  reflexivity.
Defined.

(** C10: when every input result has an id and no rank meets the zero of
    [k + rank], the fusion returns a list in which each id of the inputs
    occurs exactly once, however often it occurs in the inputs, and the
    [rrf_score] of an id is the sum of [1 / (k + r)] over all its
    occurrences. *)
Theorem rrf_each_id_once (rl : list (list pydict)) (k : Z) :
  Forall (Forall (fun r => is_Some (id_of r))) rl ->
  Forall (rank_defined k) rl ->
  exists (fused : list pydict) (ids : list string),
    reciprocal_rank_fusion rl k = inr fused /\
    Forall2 (fun r id =>
               id_of r = Some id /\
               r !! "rrf_score" = Some (VFloat (rrf_sum k id rl))) fused ids /\
    NoDup ids /\
    (forall id, id ∈ ids <-> id ∈ input_ids rl).
Proof.
  intros Hids Hk.
  destruct (rrf_returns rl k Hids) as [fused Hrrf].
  { eapply Forall_impl; [exact Hk|]. unfold rank_defined. intros; lia. }
  destruct (rrf_fused _ _ _ Hrrf) as (entries & Hnd & Hin & Hall).
  exists fused, entries.*1. split; [done|]. split; [|done].
  apply Forall2_fmap_r, Forall2_flip.
  eapply Forall2_impl; [exact Hall|].
  intros [id s] r (Hs & src & Hfs & ->). simpl in *.
  rewrite id_of_insert_score, lookup_insert_eq, Hs.
  split; [exact (proj2 (first_seen_Some _ _ _ Hfs)) | done].
Qed.

Lemma rrf_each_id_once_witness :
  exists (fused : list pydict) (ids : list string),
    reciprocal_rank_fusion [Sample.dense_list; Sample.keyword_list] 60
    = inr fused /\
    Forall2 (fun r id =>
               id_of r = Some id /\
               r !! "rrf_score" =
               Some (VFloat (rrf_sum 60 id
                               [Sample.dense_list; Sample.keyword_list])))
            fused ids /\
    NoDup ids /\
    (forall id, id ∈ ids <->
                id ∈ input_ids [Sample.dense_list; Sample.keyword_list]).
Proof.
  apply (rrf_each_id_once [Sample.dense_list; Sample.keyword_list] 60).
  - repeat constructor; unfold item_ok, is_Some; eauto.
  - repeat constructor; unfold rank_defined; simpl; lia.
Defined.

(** ** The content store *)

Section store_facts.
Context `{!SentenceTransformer, !ChromaDB}.
Import OrderedDict OrderedDictFacts.

Lemma add_loop_accepts uuid4 n items b store :
  Forall item_ok items ->
  exists b',
    add_loop uuid4 n items b store
    = (store_after uuid4 n items store, inr b') /\
    b_ids b' = b_ids b ++ map uuid4 (seq n (length items)).
Proof.
  intros Hok. revert n b store.
  induction Hok as [|item items Hitem _ IH]; intros n b store; simpl.
  - eexists. split; [done|]. by rewrite app_nil_r.
  - destruct Hitem as ([page Hp] & [type Ht] & [e He]).
    rewrite He. unfold dict_getitem. rewrite Hp, Ht. simpl.
    replace (stored_record item page type) with (record_of item)
      by (unfold record_of, dict_get; by rewrite Hp, Ht).
    edestruct IH as (b' & -> & Hids). eexists. split; [done|].
    rewrite Hids. simpl. by rewrite <- app_assoc.
Qed.

Lemma store_after_other uuid4 n items store key :
  key ∉ map uuid4 (seq n (length items)) ->
  get (store_after uuid4 n items store) key = get store key.
Proof.
  revert n store. induction items as [|item items IH]; intros n store; simpl;
    [done|].
  intros [Hne Hnin]%not_elem_of_cons.
  rewrite IH by done. by rewrite get_set_ne.
Qed.

Lemma store_after_lookup uuid4 n items store i item :
  NoDup (map uuid4 (seq n (length items))) ->
  items !! i = Some item ->
  get (store_after uuid4 n items store) (uuid4 (n + i)%nat)
  = Some (record_of item).
Proof.
  revert n store i.
  induction items as [|item' items IH]; intros n store i; simpl; [done|].
  intros [Hnin Hnd]%NoDup_cons Hi. destruct i as [|i]; simpl in Hi.
  - injection Hi as ->. rewrite Nat.add_0_r.
    rewrite store_after_other by done. apply get_set_eq.
  - rewrite Nat.add_succ_r. by apply (IH (S n)).
Qed.

Lemma add_documents_store vs items uuid4 :
  Forall item_ok items ->
  content_store (add_documents vs items uuid4).1
  = store_after uuid4 0 items (content_store vs).
Proof.
  intros Hok. unfold add_documents.
  edestruct (add_loop_accepts uuid4 0 items) as (b' & -> & _); [done|].
  destruct (b_ids b'); [done|]. by destruct collection_add.
Qed.

Lemma add_documents_returns vs items uuid4 :
  Forall item_ok items ->
  (forall ids es ds ms,
      exists c, collection_add (collection vs) ids es ds ms = inr c) ->
  (add_documents vs items uuid4).2 = inr tt.
Proof.
  intros Hok Hadd. unfold add_documents.
  edestruct (add_loop_accepts uuid4 0 items) as (b' & -> & _); [done|].
  destruct (b_ids b'); [done|].
  by edestruct Hadd as [c ->].
Qed.

End store_facts.

(** C3: after [add_documents] has gone through items it accepts, with
    identifiers drawn without repetition, [get_original_content] at the
    identifier of each item returns the record stored for that item; two
    items, also with the same summary text, have distinct identifiers and
    each identifier resolves to the record of its own item. The call
    returns normally when [collection.add] does. *)
Theorem content_store_round_trip `{!SentenceTransformer, !ChromaDB}
    (vs : VectorStore) (items : list pydict) (uuid4 : nat -> string) :
  Forall item_ok items ->
  NoDup (map uuid4 (seq 0 (length items))) ->
  let vs' := (add_documents vs items uuid4).1 in
  (forall i item,
      items !! i = Some item ->
      get_original_content vs' (uuid4 i) = Some (record_of item)) /\
  (forall i j item_i item_j,
      i <> j -> items !! i = Some item_i -> items !! j = Some item_j ->
      item_summary item_i = item_summary item_j ->
      uuid4 i <> uuid4 j /\
      get_original_content vs' (uuid4 i) = Some (record_of item_i) /\
      get_original_content vs' (uuid4 j) = Some (record_of item_j)) /\
  ((forall ids es ds ms,
       exists c, collection_add (collection vs) ids es ds ms = inr c) ->
   (add_documents vs items uuid4).2 = inr tt).
Proof.
  intros Hok Hnd vs'.
  assert (forall i item,
             items !! i = Some item ->
             get_original_content vs' (uuid4 i) = Some (record_of item)) as Hget.
  { intros i item Hi. unfold get_original_content, vs'.
    rewrite add_documents_store by done.
    by apply (store_after_lookup uuid4 0 items _ i). }
  split; [done|]. split.
  - intros i j item_i item_j Hij Hi Hj _. split; [|split; by apply Hget].
    intros Heq. apply Hij.
    apply (NoDup_lookup _ i j (uuid4 i) Hnd).
    + rewrite list_lookup_fmap, lookup_seq_lt; [done|].
      by apply lookup_lt_Some in Hi.
    + rewrite list_lookup_fmap, lookup_seq_lt; [by rewrite Heq|].
      by apply lookup_lt_Some in Hj.
  - by apply add_documents_returns.
Qed.

(** ** The keyword index *)

Lemma py_slice_to_sublist {A} (k : Z) (l : list A) :
  py_slice_to k l `sublist_of` l.
Proof. unfold py_slice_to. destruct (0 <=? k); apply sublist_take. Qed.

Lemma py_slice_to_length {A} (k : Z) (l : list A) :
  0 <= k -> Z.of_nat (length (py_slice_to k l)) <= k.
Proof.
  intros Hk. unfold py_slice_to. rewrite (proj2 (Z.leb_le 0 k) Hk).
  rewrite length_take. lia.
Qed.

Lemma py_slice_to_nil {A} (k : Z) : py_slice_to k (@nil A) = [].
Proof. unfold py_slice_to. destruct (0 <=? k); apply take_nil. Qed.

Lemma StronglySorted_sublist {A} (R : relation A) l1 l2 :
  l1 `sublist_of` l2 -> StronglySorted R l2 -> StronglySorted R l1.
Proof.
  induction 1 as [|x l1 l2 Hsub IH|x l1 l2 Hsub IH]; intros Hs.
  - constructor.
  - apply StronglySorted_cons in Hs as [Hx Hs]. constructor; [by apply IH|].
    rewrite Forall_forall in Hx. apply Forall_forall. intros y Hy. apply Hx.
    by eapply elem_of_sublist.
  - apply StronglySorted_cons in Hs as [_ Hs]. by apply IH.
Qed.

Lemma StronglySorted_reverse {A} (R : relation A) l :
  StronglySorted R l -> StronglySorted (flip R) (reverse l).
Proof.
  induction 1 as [|x l Hs IH Hx]; [constructor|].
  rewrite reverse_cons. apply StronglySorted_app_2; [|done|repeat constructor].
  intros y z Hy ->%list_elem_of_singleton. rewrite elem_of_reverse in Hy.
  rewrite Forall_forall in Hx. by apply Hx.
Qed.

Lemma StronglySorted_Forall2 {A B} (R : relation A) (R' : relation B)
    (Q : A -> B -> Prop) l k :
  (forall x x' y y', R x x' -> Q x y -> Q x' y' -> R' y y') ->
  Forall2 Q l k -> StronglySorted R l -> StronglySorted R' k.
Proof.
  intros HR HQ. induction HQ as [|x y l k Hxy HQ IH]; intros Hs; [constructor|].
  apply StronglySorted_cons in Hs as [Hx Hs]. constructor; [by apply IH|].
  rewrite Forall_forall in Hx. apply Forall_forall. intros y' Hy'.
  apply list_elem_of_lookup in Hy' as [i Hi].
  destruct (Forall2_lookup_r _ _ _ _ _ HQ Hi) as (x' & Hx' & Hq).
  eapply HR; [|exact Hxy|exact Hq]. apply Hx. by eapply list_elem_of_lookup_2.
Qed.

Section retriever_facts.
Context `{!SentenceTransformer, !ChromaDB, !RankBM25, !NumPy}.
Import OrderedDict OrderedDictFacts.

Lemma id_of_keyword_hit vs doc_id score document :
  id_of (keyword_hit vs doc_id score document) = Some doc_id.
Proof. unfold id_of, keyword_hit. by rewrite lookup_insert_eq. Qed.

Lemma score_of_keyword_hit vs doc_id score document :
  score_of (keyword_hit vs doc_id score document) = Some score.
Proof. unfold score_of, keyword_hit. by simplify_map_eq. Qed.

Lemma keyword_visit_inr vs r scores results idx results' :
  keyword_visit vs r scores results idx = inr results' ->
  results' = results \/
  exists result, hit_for vs r scores idx result /\
                 results' = results ++ [result].
Proof.
  unfold keyword_visit, list_getitem. intros Hv.
  destruct (scores !! idx) as [s|] eqn:Hs; [|discriminate]. simpl in Hv.
  destruct (PrimFloat.ltb 0 s) eqn:Hpos; [|injection Hv as <-; by left].
  destruct (doc_ids r !! idx) as [id|] eqn:Hid; [|discriminate].
  destruct (doc_summaries r !! idx) as [doc|] eqn:Hdoc; [|discriminate].
  simpl in Hv. injection Hv as <-. right. eexists. split; [|done].
  by exists id, s, doc.
Qed.

Lemma keyword_loop_kept vs r scores idxs out :
  foldM (keyword_visit vs r scores) idxs [] = inr out ->
  exists kept, kept `sublist_of` idxs /\
               Forall2 (hit_for vs r scores) kept out.
Proof.
  intros Hloop.
  apply (foldM_invariant _
           (fun pre results =>
              exists kept, kept `sublist_of` pre /\
                           Forall2 (hit_for vs r scores) kept results)
           _ []) in Hloop; [done| |].
  - intros pre results idx results' (kept & Hsub & Hall) Hv.
    apply keyword_visit_inr in Hv as [->|(result & Hhit & ->)].
    + exists kept. split; [by apply sublist_inserts_r | done].
    + exists (kept ++ [idx]). split; [by apply sublist_app|].
      apply Forall2_app; [done|]. by repeat constructor.
  - exists []. split; constructor.
Qed.

Lemma keyword_loop_returns vs r scores idxs :
  Forall (fun i => (i < length scores)%nat) idxs ->
  length (doc_ids r) = length scores ->
  length (doc_summaries r) = length scores ->
  exists out, foldM (keyword_visit vs r scores) idxs [] = inr out.
Proof.
  intros Hidx Hids Hsums. apply foldM_returns. intros results idx Hin.
  rewrite Forall_forall in Hidx. specialize (Hidx _ Hin).
  unfold keyword_visit, list_getitem.
  destruct (lookup_lt_is_Some_2 scores idx Hidx) as [s ->].
  destruct (lookup_lt_is_Some_2 (doc_ids r) idx) as [id ->]; [lia|].
  destruct (lookup_lt_is_Some_2 (doc_summaries r) idx) as [doc ->]; [lia|].
  simpl. destruct (PrimFloat.ltb 0 s); by eexists.
Qed.

Lemma keyword_search_indexed vs r query k index :
  bm25 r = Some index ->
  keyword_search vs r query k
  = foldM (keyword_visit vs r (bm25_scores r query))
          (py_slice_to k (reverse (argsort (bm25_scores r query)))) [].
Proof. intros Hb. unfold keyword_search, bm25_scores. by rewrite Hb. Qed.

Lemma keyword_search_blank vs r query k :
  bm25 r = None -> keyword_search vs r query k = inr [].
Proof. intros Hb. unfold keyword_search. by rewrite Hb. Qed.

Lemma keyword_search_ids vs r query k out :
  keyword_search vs r query k = inr out ->
  Forall (fun res => is_Some (id_of res)) out.
Proof.
  destruct (bm25 r) as [index|] eqn:Hb.
  - rewrite (keyword_search_indexed _ _ _ _ _ Hb).
    intros (kept & _ & Hall)%keyword_loop_kept.
    apply Forall_forall. intros res Hres.
    apply list_elem_of_lookup in Hres as [i Hi].
    destruct (Forall2_lookup_r _ _ _ _ _ Hall Hi)
      as (idx & _ & id & s & doc & _ & _ & _ & _ & ->).
    rewrite id_of_keyword_hit. eauto.
  - rewrite keyword_search_blank by done. intros [= <-]. constructor.
Qed.

End retriever_facts.

Lemma map_VStr_inj (l1 l2 : list string) : map VStr l1 = map VStr l2 -> l1 = l2.
Proof.
  revert l2. induction l1 as [|x l1 IH]; intros [|y l2]; simpl; try done.
  intros [= -> Hl]. f_equal. by apply IH.
Qed.

Section index_facts.
Context `{!SentenceTransformer, !ChromaDB, !RankBM25, !NumPy}.
Import OrderedDict OrderedDictFacts.

Lemma index_loop_spec docs toks ids sums toks' ids' sums' u :
  index_loop docs toks ids sums = (toks', ids', sums', inr u) ->
  exists new_ids new_sums,
    toks' = toks ++ map tokens_of new_sums /\
    ids' = ids ++ new_ids /\
    sums' = sums ++ new_sums /\
    map VStr new_sums
    = map (fun doc => dict_get_or doc "summary" (VStr "")) docs /\
    map VStr new_ids
    = map (fun doc => dict_get_or doc "doc_id" (VStr "")) docs.
Proof.
  revert toks ids sums.
  induction docs as [|doc docs IH]; intros toks ids sums; simpl.
  - intros [= <- <- <-]. exists [], []. by rewrite !app_nil_r.
  - destruct (dict_get_or doc "summary" (VStr "")) as [| | |s| |] eqn:Hs;
      simpl; try discriminate.
    destruct (dict_get_or doc "doc_id" (VStr "")) as [| | |i| |] eqn:Hi;
      simpl; try discriminate.
    intros (new_ids & new_sums & -> & -> & -> & Hsums & Hids)%IH.
    exists (i :: new_ids), (s :: new_sums). simpl.
    rewrite <- !app_assoc. by rewrite Hsums, Hids.
Qed.

Lemma get_all_documents_nil (vs : VectorStore) :
  get_all_documents vs = [] <-> content_store vs = [].
Proof.
  unfold get_all_documents, items. destruct (content_store vs); simpl; [done|].
  split; discriminate.
Qed.

Lemma get_all_documents_ids (vs : VectorStore) :
  map (fun doc => dict_get_or doc "doc_id" (VStr "")) (get_all_documents vs)
  = map VStr (keys (content_store vs)).
Proof.
  unfold get_all_documents, items, keys.
  induction (content_store vs) as [|[id c] l IH]; simpl; [done|].
  rewrite IH. unfold dict_get_or. by rewrite lookup_insert_eq.
Qed.

Lemma get_all_documents_summaries (vs : VectorStore) :
  map (fun doc => dict_get_or doc "summary" (VStr "")) (get_all_documents vs)
  = store_summaries vs.
Proof.
  unfold get_all_documents, store_summaries, items.
  induction (content_store vs) as [|[id c] l IH]; simpl; [done|].
  rewrite IH. unfold dict_get_or. by rewrite lookup_insert_ne.
Qed.

(** What a build that returns leaves in the retriever. *)
Lemma build_spec vs r0 r :
  _build_keyword_index vs r0 = (r, inr tt) ->
  (content_store vs = [] /\ r = r0) \/
  (content_store vs <> [] /\
   exists index,
     bm25 r = Some index /\
     BM25Okapi (map tokens_of (doc_summaries r)) = inr index /\
     map VStr (doc_summaries r) = store_summaries vs /\
     doc_ids r = keys (content_store vs)).
Proof.
  unfold _build_keyword_index.
  destruct (get_all_documents vs) as [|doc docs] eqn:Hdocs.
  { intros [= <-]. left. split; [by apply get_all_documents_nil | done]. }
  assert (content_store vs <> []) as Hne.
  { intros Hnil%get_all_documents_nil. congruence. }
  destruct (index_loop (doc :: docs) [] [] [])
    as [[[toks ids] sums] [e|[]]] eqn:Hloop; [discriminate|].
  apply index_loop_spec in Hloop
    as (new_ids & new_sums & -> & -> & -> & Hsums & Hids).
  rewrite <- Hdocs, get_all_documents_summaries in Hsums.
  rewrite <- Hdocs, get_all_documents_ids in Hids.
  apply map_VStr_inj in Hids as ->. simpl.
  destruct (map tokens_of new_sums) as [|tk tks] eqn:Htoks.
  { exfalso. destruct new_sums; [|discriminate].
    unfold store_summaries, items in Hsums. destruct (content_store vs); done. }
  destruct (BM25Okapi (tk :: tks)) as [e|index] eqn:Hbm; [discriminate|].
  intros [= <-]. right. split; [done|]. exists index. simpl.
  by rewrite Htoks.
Qed.

Lemma build_twice vs r0 r :
  _build_keyword_index vs r0 = (r, inr tt) ->
  _build_keyword_index vs r = (r, inr tt).
Proof.
  unfold _build_keyword_index.
  destruct (get_all_documents vs) as [|doc docs]; [by intros [= <-]|].
  destruct (index_loop (doc :: docs) [] [] [])
    as [[[toks ids] sums] [e|[]]]; [discriminate|].
  destruct toks as [|tk tks]; [by intros [= <-]|].
  destruct (BM25Okapi (tk :: tks)) as [e|index]; [discriminate|].
  by intros [= <-].
Qed.

Lemma Retriever_init_build vs r :
  Retriever_init vs = inr r <->
  _build_keyword_index vs blank_retriever = (r, inr tt).
Proof.
  unfold Retriever_init. fold blank_retriever.
  destruct (_build_keyword_index vs blank_retriever) as [r' [e|[]]]; simpl.
  - split; discriminate.
  - split; by intros [= ->].
Qed.

End index_facts.

(** C6: a retriever whose index was built over the store answers a query
    the same way after [rebuild_index] over the unchanged store: the rebuild
    returns the same retriever state, hence the same result list. *)
Theorem rebuild_index_idempotent
    `{!SentenceTransformer, !ChromaDB, !RankBM25, !NumPy}
    (vs : VectorStore) (r0 r : Retriever) (query : string) (k : Z) :
  _build_keyword_index vs r0 = (r, inr tt) ->
  rebuild_index vs r = (r, inr tt) /\
  keyword_search vs (rebuild_index vs r).1 query k
  = keyword_search vs r query k.
Proof.
  intros Hbuilt%build_twice. unfold rebuild_index. by rewrite Hbuilt.
Qed.

(** C5 (as amended): for a retriever constructed over a store, given that
    BM25 returns one score per indexed document and that [argsort] orders
    the indices by ascending score, [keyword_search query n] returns; for
    every [n >= 0] it returns at most [n] results; each result carries
    the identifier, the summary and the BM25 score of one indexed document,
    the index being built from the lower-cased, white-space-split
    summaries; scores are strictly positive (no zero score is returned) and
    in descending order. *)
Theorem keyword_search_ranked
    `{!SentenceTransformer, !ChromaDB, !RankBM25, !NumPy}
    (vs0 vs : VectorStore) (r : Retriever) (query : string) (n : Z) :
  Retriever_init vs0 = inr r ->
  length (bm25_scores r query) = length (doc_ids r) ->
  argsort_ok (bm25_scores r query) (argsort (bm25_scores r query)) ->
  exists out,
    keyword_search vs r query n = inr out /\
    (0 <= n -> Z.of_nat (length out) <= n) /\
    Forall (fun res => exists idx, keyword_hit_at vs r query idx res) out /\
    Forall (fun res => exists s, score_of res = Some s /\
                                 PrimFloat.ltb 0 s = true) out /\
    descending_scores out /\
    (content_store vs0 <> [] ->
     exists index,
       bm25 r = Some index /\
       BM25Okapi (map tokens_of (doc_summaries r)) = inr index /\
       map VStr (doc_summaries r) = store_summaries vs0 /\
       doc_ids r = OrderedDict.keys (content_store vs0)).
Proof.
  intros Hinit%Retriever_init_build Hlen [Hrange Hsorted].
  apply build_spec in Hinit
    as [[Hnil ->]|(Hne & index & Hb & Hbm & Hsums & Hids)].
  { exists []. split; [done|]. split; [simpl; lia|].
    repeat split; try constructor. done. }
  rewrite (keyword_search_indexed _ _ _ _ _ Hb).
  set (scores := bm25_scores r query) in *.
  set (top := py_slice_to n (reverse (argsort scores))).
  assert (top `sublist_of` reverse (argsort scores)) as Htop
    by apply py_slice_to_sublist.
  destruct (keyword_loop_returns vs r scores top) as [out Hout].
  { apply Forall_forall. intros i Hi.
    rewrite Forall_forall in Hrange. apply Hrange.
    apply elem_of_reverse. by eapply elem_of_sublist. }
  { done. }
  { rewrite Hlen, Hids. unfold OrderedDict.keys.
    rewrite <- (length_map VStr), Hsums. unfold store_summaries.
    by rewrite !length_map. }
  exists out. split; [done|].
  destruct (keyword_loop_kept _ _ _ _ _ Hout) as (kept & Hkept & Hall).
  split.
  { intros Hn. rewrite <- (Forall2_length _ _ _ Hall).
    apply sublist_length in Hkept. unfold top in Hkept.
    pose proof (py_slice_to_length n (reverse (argsort scores)) Hn). lia. }
  split.
  { apply Forall_forall. intros res Hres.
    apply list_elem_of_lookup in Hres as [i Hi].
    destruct (Forall2_lookup_r _ _ _ _ _ Hall Hi) as (idx & _ & Hhit).
    by exists idx. }
  split.
  { apply Forall_forall. intros res Hres.
    apply list_elem_of_lookup in Hres as [i Hi].
    destruct (Forall2_lookup_r _ _ _ _ _ Hall Hi)
      as (idx & _ & id & s & doc & _ & _ & _ & Hpos & ->).
    exists s. by rewrite score_of_keyword_hit. }
  split; [|intros _; by exists index].
  eapply (StronglySorted_Forall2 (flip (not_above scores))); [|exact Hall|].
  - intros i j x y Hij (idi & si & di & _ & _ & Hsi & _ & ->)
           (idj & sj & dj & _ & _ & Hsj & _ & ->) sx sy.
    rewrite !score_of_keyword_hit. intros [= <-] [= <-].
    by apply (Hij sj si).
  - eapply StronglySorted_sublist; [exact Hkept|].
    eapply StronglySorted_sublist; [exact Htop|].
    by apply StronglySorted_reverse.
Qed.

(** ** Dense search and retrieval *)

Section search_facts.
Context `{!SentenceTransformer, !ChromaDB, !RankBM25, !NumPy}.

Lemma search_hit_fields vs results i res :
  search_hit vs results i = inr res ->
  exists doc_id,
    id_of res = Some doc_id /\
    res !! "original_content"
    = Some (dict_get (default ∅ (OrderedDict.get (content_store vs) doc_id))
                     "original_content").
Proof.
  unfold search_hit. intros Hhit.
  repeat (inv_bind Hhit). injection Hhit as <-.
  eexists. split.
  - unfold id_of. by rewrite lookup_insert_eq.
  - by simplify_map_eq.
Qed.

Lemma search_hits vs query n dense :
  search vs query n = inr dense ->
  Forall (fun res => exists i results, search_hit vs results i = inr res)
         dense.
Proof.
  unfold search. intros Hs. inv_bind Hs. inv_bind Hs.
  rename a0 into results.
  destruct (qr_ids results) as [|ids0 rest]; [injection Hs as <-; constructor|].
  destruct (0 <? length ids0)%nat; [|injection Hs as <-; constructor].
  apply mapM_inr_Forall2 in Hs. apply Forall_forall. intros res Hres.
  apply list_elem_of_lookup in Hres as [i Hi].
  destruct (Forall2_lookup_r _ _ _ _ _ Hs Hi) as (j & _ & Hj). eauto.
Qed.

Lemma search_ids vs query n dense :
  search vs query n = inr dense ->
  Forall (fun res => is_Some (id_of res)) dense.
Proof.
  intros Hs%search_hits. eapply Forall_impl; [exact Hs|].
  intros res (i & results & (id & Hid & _)%search_hit_fields). eauto.
Qed.

Lemma search_no_hits vs query n e results :
  encode (VStr query) = inr e ->
  collection_query (collection vs) e n = inr results ->
  no_hits results ->
  search vs query n = inr [].
Proof.
  intros He Hq Hnone. unfold search. rewrite He. simpl. rewrite Hq. simpl.
  unfold no_hits in Hnone. destruct (qr_ids results) as [|ids0 rest]; [done|].
  by subst ids0.
Qed.

Lemma retrieve_nothing vs r query top_k :
  dense_search vs query (top_k * 2) = inr [] ->
  keyword_search vs r query (top_k * 2) = inr [] ->
  retrieve vs r query top_k = inr [].
Proof.
  intros Hd Hk. unfold retrieve. rewrite Hd, Hk.
  change (@inr exn _ (py_slice_to top_k (@nil pydict)) = inr []).
  by rewrite py_slice_to_nil.
Qed.

End search_facts.

(** C2: [retrieve query top_k] asks the dense index and then the keyword
    index for 2 * top_k candidates each, and raises what either of them
    raises; when both return it fuses the two answers with k = 60 and
    returns the first top_k of the fused list, which are at most [top_k]
    results for a count [top_k >= 0], and at most 5 for top_k = 5 however
    many candidates the two indexes return. *)
Theorem retrieve_top_k
    `{!SentenceTransformer, !ChromaDB, !RankBM25, !NumPy}
    (vs : VectorStore) (r : Retriever) (query : string) (top_k : Z) :
  (forall err,
      dense_search vs query (top_k * 2) = inl err ->
      retrieve vs r query top_k = inl err) /\
  (forall dense err,
      dense_search vs query (top_k * 2) = inr dense ->
      keyword_search vs r query (top_k * 2) = inl err ->
      retrieve vs r query top_k = inl err) /\
  (forall dense keyword,
      dense_search vs query (top_k * 2) = inr dense ->
      keyword_search vs r query (top_k * 2) = inr keyword ->
      exists fused,
        reciprocal_rank_fusion [dense; keyword] 60 = inr fused /\
        retrieve vs r query top_k = inr (py_slice_to top_k fused) /\
        (0 <= top_k ->
         Z.of_nat (length (py_slice_to top_k fused)) <= top_k) /\
        (top_k = 5 -> (length (py_slice_to top_k fused) <= 5)%nat)).
Proof.
  split; [|split].
  - intros err Hd. unfold retrieve. by rewrite Hd.
  - intros dense err Hd Hk. unfold retrieve. by rewrite Hd, Hk.
  - intros dense keyword Hd Hk.
    destruct (rrf_returns [dense; keyword] 60) as [fused Hf].
    { repeat constructor; [by eapply search_ids | by eapply keyword_search_ids]. }
    { repeat constructor; intros; lia. }
    exists fused. split; [done|]. split.
    + unfold retrieve. rewrite Hd, Hk. simpl. by rewrite Hf.
    + split; [apply py_slice_to_length|].
      intros ->. pose proof (py_slice_to_length 5 fused). lia.
Qed.

Section empty_corpus_facts.
Context `{!SentenceTransformer, !ChromaDB, !RankBM25, !NumPy}.

Lemma reset_is_init (vs : VectorStore) : reset vs = VectorStore_init.
Proof. reflexivity. Qed.

Lemma build_on_empty_store vs r :
  content_store vs = [] -> _build_keyword_index vs r = (r, inr tt).
Proof.
  intros Hnil%get_all_documents_nil. unfold _build_keyword_index.
  by rewrite Hnil.
Qed.

Lemma build_on_single_store vs r doc_id c s :
  content_store vs = [(doc_id, c)] -> c !! "summary" = Some (VStr s) ->
  _build_keyword_index vs r
  = match BM25Okapi [tokens_of s] with
    | inl err =>
        ({| bm25 := bm25 r; doc_ids := [doc_id]; doc_summaries := [s] |},
         inl err)
    | inr index =>
        ({| bm25 := Some index; doc_ids := [doc_id]; doc_summaries := [s] |},
         inr tt)
    end.
Proof.
  intros Hstore Hsum. unfold _build_keyword_index, get_all_documents.
  rewrite Hstore. simpl. unfold dict_get_or.
  rewrite lookup_insert_ne, Hsum by done. simpl.
  rewrite lookup_insert_eq. simpl. unfold tokens_of.
  by destruct (BM25Okapi [split (lower s)]).
Qed.

Lemma dense_search_empty query n e :
  encode (VStr query) = inr e -> empty_collection_answers e -> 0 < n ->
  dense_search VectorStore_init query n = inr [].
Proof.
  intros He Hempty Hn. destruct (Hempty n Hn) as (results & Hq & Hnone).
  by apply (search_no_hits _ _ _ e results).
Qed.

Lemma retrieve_empty r query top_k e :
  encode (VStr query) = inr e -> empty_collection_answers e -> 0 < top_k ->
  bm25 r = None ->
  retrieve VectorStore_init r query top_k = inr [].
Proof.
  intros He Hempty Hk Hb. apply retrieve_nothing.
  - apply (dense_search_empty _ _ e); [done..|lia].
  - by apply keyword_search_blank.
Qed.

(** The identifiers and scores of the keyword results do not depend on
    the content store. *)
Lemma keyword_loop_any_store vs vs' r scores idxs acc acc' out :
  map id_of acc' = map id_of acc ->
  map score_of acc' = map score_of acc ->
  foldM (keyword_visit vs r scores) idxs acc = inr out ->
  exists out',
    foldM (keyword_visit vs' r scores) idxs acc' = inr out' /\
    map id_of out' = map id_of out /\
    map score_of out' = map score_of out.
Proof.
  revert acc acc'. induction idxs as [|idx idxs IH]; intros acc acc' Hi Hs; simpl.
  - intros [= <-]. by exists acc'.
  - intros Hloop. inv_bind Hloop. rename a into mid.
    unfold keyword_visit, list_getitem in Hm |- *.
    destruct (scores !! idx) as [s|]; [|discriminate]. simpl in Hm |- *.
    destruct (PrimFloat.ltb 0 s).
    + destruct (doc_ids r !! idx) as [id|]; [|discriminate].
      destruct (doc_summaries r !! idx) as [doc|]; [|discriminate].
      simpl in Hm |- *. injection Hm as <-.
      apply (IH (acc ++ [keyword_hit vs id s doc])
                (acc' ++ [keyword_hit vs' id s doc])); [| |done].
      * rewrite !map_app. simpl. by rewrite Hi, !id_of_keyword_hit.
      * rewrite !map_app. simpl. by rewrite Hs, !score_of_keyword_hit.
    + simpl in Hm |- *. injection Hm as <-. by apply (IH acc acc').
Qed.

End empty_corpus_facts.

(** C4 (as amended): on a store to which nothing was added, given that the
    query can be embedded and that ChromaDB answers a query on an empty
    collection with no hits, dense search returns the empty list; a
    retriever constructed over that store holds no BM25 index, its keyword
    search returns the empty list, and so does [retrieve]. Index
    construction is short-circuited on an empty store only: there the
    retriever is left as it is and [BM25Okapi] is not called; over a store
    with one item [BM25Okapi] is called on the one tokenized summary, and
    what it raises is raised by the build. *)
Theorem empty_corpus_returns_nothing
    `{!SentenceTransformer, !ChromaDB, !RankBM25, !NumPy}
    (query : string) (n top_k : Z) (e : list float) :
  encode (VStr query) = inr e ->
  empty_collection_answers e ->
  0 < n -> 0 < top_k ->
  dense_search VectorStore_init query n = inr [] /\
  Retriever_init VectorStore_init = inr blank_retriever /\
  (forall vs r k, bm25 r = None -> keyword_search vs r query k = inr []) /\
  retrieve VectorStore_init blank_retriever query top_k = inr [] /\
  (forall vs r, content_store vs = [] ->
                _build_keyword_index vs r = (r, inr tt)) /\
  (forall vs r doc_id c s,
      content_store vs = [(doc_id, c)] -> c !! "summary" = Some (VStr s) ->
      _build_keyword_index vs r
      = match BM25Okapi [tokens_of s] with
        | inl err =>
            ({| bm25 := bm25 r; doc_ids := [doc_id]; doc_summaries := [s] |},
             inl err)
        | inr index =>
            ({| bm25 := Some index; doc_ids := [doc_id];
                doc_summaries := [s] |}, inr tt)
        end).
Proof.
  intros He Hempty Hn Hk.
  split; [by apply (dense_search_empty _ _ e)|].
  split; [done|].
  split; [intros vs r k; apply keyword_search_blank|].
  split; [by apply (retrieve_empty _ _ _ e)|].
  split; [apply build_on_empty_store | apply build_on_single_store].
Qed.

(** C7 (as amended): after [reset()] the store has no documents; given that
    the query can be embedded and that ChromaDB answers a query on an empty
    collection with no hits, a retriever constructed over the store after
    the reset, and any retriever that holds no BM25 index, returns the
    empty list from [retrieve]. *)
Theorem reset_then_retrieve
    `{!SentenceTransformer, !ChromaDB, !RankBM25, !NumPy}
    (vs : VectorStore) (query : string) (top_k : Z) (e : list float) :
  encode (VStr query) = inr e ->
  empty_collection_answers e ->
  0 < top_k ->
  get_all_documents (reset vs) = [] /\
  Retriever_init (reset vs) = inr blank_retriever /\
  retrieve (reset vs) blank_retriever query top_k = inr [] /\
  (forall r, bm25 r = None -> retrieve (reset vs) r query top_k = inr []).
Proof.
  intros He Hempty Hk. split; [done|]. split; [done|].
  split; [by apply (retrieve_empty _ _ _ e)|].
  intros r Hb. by apply (retrieve_empty _ _ _ e).
Qed.

Section dense_candidates.
Context `{!SentenceTransformer, !ChromaDB, !RankBM25, !NumPy}.

Lemma stored_original_content_get vs doc_id :
  dict_get (default ∅ (OrderedDict.get (content_store vs) doc_id))
           "original_content"
  = stored_original_content vs doc_id.
Proof.
  unfold stored_original_content, get_original_content.
  by destruct (OrderedDict.get (content_store vs) doc_id).
Qed.

Lemma search_hit_any_store vs vs' results i res :
  search_hit vs results i = inr res ->
  exists res', search_hit vs' results i = inr res' /\ id_of res' = id_of res.
Proof.
  unfold search_hit. intros Hhit.
  repeat (inv_bind Hhit). injection Hhit as <-.
  repeat match goal with
         | Hx : list_getitem _ _ = inr _ |- _ => rewrite Hx; clear Hx; cbn
         end.
  eexists. split; [done|]. unfold id_of. by rewrite !lookup_insert_eq.
Qed.

Lemma mapM_related {A B} (f g : A -> raises B) (P : B -> B -> Prop) xs ys :
  (forall x y, f x = inr y -> exists y', g x = inr y' /\ P y' y) ->
  mapM f xs = inr ys ->
  exists ys', mapM g xs = inr ys' /\ Forall2 P ys' ys.
Proof.
  intros Hfg Hxs. apply mapM_inr_Forall2 in Hxs.
  induction Hxs as [|x y xs ys Hxy _ (ys' & Hys' & Hall)].
  - exists []. split; [done|constructor].
  - destruct (Hfg x y Hxy) as (y' & Hy' & Hp).
    exists (y' :: ys'). split; [|by constructor].
    cbn. rewrite Hy'. cbn. by rewrite Hys'.
Qed.

(** Dense search asks the collection and reads the content store for the
    original content only: over another content store it returns hits with
    the same ids. *)
Lemma search_any_store vs store' query n dense :
  search vs query n = inr dense ->
  exists dense',
    search {| collection := collection vs; content_store := store' |} query n
    = inr dense' /\
    map id_of dense' = map id_of dense.
Proof.
  unfold search. intros Hs. inv_bind Hs. inv_bind Hs.
  rename a0 into results. cbn [collection]. rewrite Hm. cbn. rewrite Hm0. cbn.
  destruct (qr_ids results) as [|ids0 rest];
    [injection Hs as <-; by exists []|].
  destruct ids0 as [|id0 ids0']; [injection Hs as <-; by exists []|].
  change (0 <? length (id0 :: ids0'))%nat with true in Hs.
  cbv iota in Hs. cbn [length] in Hs |- *. cbv iota.
  destruct (mapM_related _
              (search_hit {| collection := collection vs;
                             content_store := store' |} results)
              (fun res' res => id_of res' = id_of res) _ _
              (fun i res => search_hit_any_store vs _ results i res) Hs)
    as (dense' & Hdense' & Hall).
  exists dense'. split; [done|].
  clear -Hall. induction Hall as [|res' res l' l Hid _ IH]; [done|].
  cbn. by rewrite Hid, IH.
Qed.

End dense_candidates.

(** C9 (as amended): a candidate whose id does not resolve in the content
    store does not fail the query and is not dropped. Keyword search
    returns it with [original_content], [page] and [type] set to [None] and
    [metadata] set to the empty dictionary, and returns the same
    identifiers with the same scores whatever the content store holds.
    Dense search gives each hit the original content the content store has
    for its id, [None] when it has none, and returns hits with the same
    identifiers whatever the content store holds. *)
Theorem unresolved_ids_stay_in_results
    `{!SentenceTransformer, !ChromaDB, !RankBM25, !NumPy}
    (vs : VectorStore) (r : Retriever) (query : string) (k n : Z)
    (keyword dense : list pydict) :
  keyword_search vs r query k = inr keyword ->
  search vs query n = inr dense ->
  Forall (fun res =>
            exists doc_id,
              id_of res = Some doc_id /\
              (get_original_content vs doc_id = None ->
               res !! "original_content" = Some VNone /\
               res !! "page" = Some VNone /\
               res !! "type" = Some VNone /\
               res !! "metadata" = Some (VDict ∅))) keyword /\
  (forall vs', exists keyword',
      keyword_search vs' r query k = inr keyword' /\
      map id_of keyword' = map id_of keyword /\
      map score_of keyword' = map score_of keyword) /\
  Forall (fun res =>
            exists doc_id,
              id_of res = Some doc_id /\
              res !! "original_content"
              = Some (stored_original_content vs doc_id) /\
              (get_original_content vs doc_id = None ->
               res !! "original_content" = Some VNone)) dense /\
  (forall store', exists dense',
      search {| collection := collection vs; content_store := store' |}
             query n = inr dense' /\
      map id_of dense' = map id_of dense /\
      Forall (fun res =>
                exists doc_id,
                  id_of res = Some doc_id /\
                  (OrderedDict.get store' doc_id = None ->
                   res !! "original_content" = Some VNone)) dense').
Proof.
  intros Hkw Hdense.
  assert (forall vs0 hits,
             search vs0 query n = inr hits ->
             Forall (fun res =>
                       exists doc_id,
                         id_of res = Some doc_id /\
                         res !! "original_content"
                         = Some (stored_original_content vs0 doc_id) /\
                         (get_original_content vs0 doc_id = None ->
                          res !! "original_content" = Some VNone)) hits)
    as Hhits.
  { intros vs0 hits Hs. apply search_hits in Hs.
    eapply Forall_impl; [exact Hs|].
    intros res (i & results & (id & Hid & Hoc)%search_hit_fields).
    exists id. rewrite stored_original_content_get in Hoc.
    split; [done|]. split; [done|].
    intros Hnone. rewrite Hoc. unfold stored_original_content.
    by rewrite Hnone. }
  split; [|split; [|split]].
  - destruct (bm25 r) as [index|] eqn:Hb.
    + rewrite (keyword_search_indexed _ _ _ _ _ Hb) in Hkw.
      apply keyword_loop_kept in Hkw as (kept & _ & Hall).
      apply Forall_forall. intros res Hres.
      apply list_elem_of_lookup in Hres as [i Hi].
      destruct (Forall2_lookup_r _ _ _ _ _ Hall Hi)
        as (idx & _ & id & s & doc & _ & _ & _ & _ & ->).
      exists id. split; [apply id_of_keyword_hit|].
      intros Hnone. unfold keyword_hit. rewrite Hnone.
      by simplify_map_eq.
    + rewrite keyword_search_blank in Hkw by done. injection Hkw as <-.
      constructor.
  - intros vs'. destruct (bm25 r) as [index|] eqn:Hb.
    + rewrite (keyword_search_indexed _ _ _ _ _ Hb) in Hkw.
      rewrite (keyword_search_indexed _ _ _ _ _ Hb).
      by apply (keyword_loop_any_store vs vs' r _ _ [] []).
    + rewrite keyword_search_blank in Hkw |- * by done. injection Hkw as <-.
      by exists [].
  - by apply Hhits.
  - intros store'.
    destruct (search_any_store vs store' query n dense Hdense)
      as (dense' & Hdense' & Hids).
    exists dense'. split; [done|]. split; [done|].
    eapply Forall_impl; [exact (Hhits _ _ Hdense')|].
    intros res (id & Hid & _ & Hnone). by exists id.
Qed.

(** ** The statements on concrete stores *)

Lemma ascendingb_sorted scores perm :
  ascendingb scores perm = true -> StronglySorted (not_above scores) perm.
Proof.
  induction perm as [|i rest IH]; simpl; [constructor|].
  intros [Hi Hrest]%andb_prop. constructor; [by apply IH|].
  apply Forall_forall. intros j Hj x y Hx Hy.
  rewrite forallb_forall in Hi. apply list_elem_of_In in Hj.
  specialize (Hi j Hj). apply negb_true_iff in Hi.
  unfold score_at in Hi. by rewrite Hx, Hy in Hi.
Qed.

Lemma argsort_okb_ok scores perm :
  argsort_okb scores perm = true -> argsort_ok scores perm.
Proof.
  unfold argsort_okb. intros [Hrange Hasc]%andb_prop. split.
  - apply Forall_forall. intros i Hi%list_elem_of_In.
    rewrite forallb_forall in Hrange. by apply Nat.ltb_lt, Hrange.
  - by apply ascendingb_sorted.
Qed.

Section on_memory.
#[local] Existing Instances
  Memory.encoder Memory.chroma Memory.rank_bm25 Memory.numpy.

Lemma memory_empty_collection_answers e : empty_collection_answers e.
Proof.
  intros n Hn. simpl. apply Z.leb_gt in Hn. rewrite Hn.
  eexists. split; [done|]. unfold no_hits. simpl. by rewrite take_nil.
Qed.

Lemma scenario_retriever :
  Retriever_init Scenario.store = inr Scenario.retriever.
Proof. reflexivity. Qed.

Lemma retrieve_top_k_witness :
  dense_search Scenario.large_store "common" (5 * 2)
  = inr Scenario.large_dense /\
  keyword_search Scenario.large_store Scenario.large_retriever "common" (5 * 2)
  = inr Scenario.large_keyword /\
  exists fused,
    reciprocal_rank_fusion [Scenario.large_dense; Scenario.large_keyword] 60
    = inr fused /\
    retrieve Scenario.large_store Scenario.large_retriever "common" 5
    = inr (py_slice_to 5 fused) /\
    (0 <= 5 -> Z.of_nat (length (py_slice_to 5 fused)) <= 5) /\
    (5 = 5 -> (length (py_slice_to 5 fused) <= 5)%nat).
Proof.
  split; [reflexivity|]. split; [reflexivity|].
  apply (proj2 (proj2 (retrieve_top_k Scenario.large_store
                         Scenario.large_retriever "common" 5))
           Scenario.large_dense Scenario.large_keyword).
  - reflexivity.
  - reflexivity.
Defined.

(** A request for no results is turned down by the collection, and
    [retrieve] raises with it. *)
Example retrieve_zero :
  retrieve Scenario.store Scenario.retriever "alpha" 0
  = inl (LibraryError "n_results").
Proof. reflexivity. Qed.

(** Ten candidates from each index, five results. *)
Example retrieve_truncates :
  length Scenario.large_dense = 10%nat /\
  length Scenario.large_keyword = 10%nat /\
  length (returned [] (retrieve Scenario.large_store Scenario.large_retriever
                                "common" 5)) = 5%nat.
Proof. repeat split; reflexivity. Qed.

Lemma content_store_round_trip_witness :
  Forall item_ok Sample.twins /\
  NoDup (map Sample.uuid4 (seq 0 (length Sample.twins))) /\
  let vs' := (add_documents VectorStore_init Sample.twins Sample.uuid4).1 in
  get_original_content vs' "u1"
  = Some (record_of (Sample.text_item "same words" 1)) /\
  get_original_content vs' "u2"
  = Some (record_of (Sample.text_item "same words" 2)) /\
  (add_documents VectorStore_init Sample.twins Sample.uuid4).2 = inr tt.
Proof.
  assert (Forall item_ok Sample.twins) as Hok.
  { repeat constructor; unfold item_ok, is_Some; eauto. }
  assert (NoDup (map Sample.uuid4 (seq 0 (length Sample.twins)))) as Hnd.
  { simpl. apply NoDup_cons_2; [|apply NoDup_singleton].
  by intros [=]%list_elem_of_singleton. }
  split; [exact Hok|]. split; [exact Hnd|].
  destruct (content_store_round_trip VectorStore_init Sample.twins
              Sample.uuid4 Hok Hnd) as (Hget & _ & Hret).
  split; [exact (Hget 0%nat _ eq_refl)|].
  split; [exact (Hget 1%nat _ eq_refl)|].
  apply Hret. intros. by eexists.
Defined.

Lemma keyword_search_ranked_witness :
  Retriever_init Scenario.store = inr Scenario.retriever /\
  exists out,
    keyword_search Scenario.store Scenario.retriever "alpha beta" 1 = inr out /\
    (0 <= 1 -> Z.of_nat (length out) <= 1) /\
    Forall (fun res =>
              exists idx, keyword_hit_at Scenario.store Scenario.retriever
                            "alpha beta" idx res) out /\
    Forall (fun res => exists s, score_of res = Some s /\
                                 PrimFloat.ltb 0 s = true) out /\
    descending_scores out /\
    (content_store Scenario.store <> [] ->
     exists index,
       bm25 Scenario.retriever = Some index /\
       BM25Okapi (map tokens_of (doc_summaries Scenario.retriever))
       = inr index /\
       map VStr (doc_summaries Scenario.retriever)
       = store_summaries Scenario.store /\
       doc_ids Scenario.retriever
       = OrderedDict.keys (content_store Scenario.store)).
Proof.
  split; [reflexivity|].
  apply (keyword_search_ranked Scenario.store Scenario.store
           Scenario.retriever "alpha beta" 1).
  - reflexivity.
  - reflexivity.
  - apply argsort_okb_ok. reflexivity.
Defined.

(** Both matching items, best first, when ten results are asked for. *)
Example keyword_search_alpha_beta :
  keyword_search Scenario.store Scenario.retriever "alpha beta" 10
  = inr Scenario.alpha_beta_hits.
Proof. reflexivity. Qed.

(** C5 as stated covers every [n]: for [n = -1] the slice [[:n]] drops
    the last index only, and a result is returned. *)
Lemma keyword_search_negative_count :
  keyword_search Scenario.store Scenario.retriever "alpha" (-1)
  = inr [Scenario.alpha_hit Scenario.store] /\
  ~ (Z.of_nat (length [Scenario.alpha_hit Scenario.store]) <= -1).
Proof. split; [reflexivity | simpl; lia]. Qed.

Lemma rebuild_index_idempotent_witness :
  _build_keyword_index Scenario.store blank_retriever
  = (Scenario.retriever, inr tt) /\
  rebuild_index Scenario.store Scenario.retriever
  = (Scenario.retriever, inr tt) /\
  keyword_search Scenario.store
    (rebuild_index Scenario.store Scenario.retriever).1 "alpha" 10
  = keyword_search Scenario.store Scenario.retriever "alpha" 10.
Proof.
  split; [reflexivity|].
  apply (rebuild_index_idempotent Scenario.store blank_retriever
           Scenario.retriever "alpha" 10).
  reflexivity.
Defined.

Lemma empty_corpus_returns_nothing_witness :
  encode (VStr "alpha") = inr [Memory.float_of_nat 5] /\
  dense_search VectorStore_init "alpha" 10 = inr [] /\
  Retriever_init VectorStore_init = inr blank_retriever /\
  (forall vs r k, bm25 r = None -> keyword_search vs r "alpha" k = inr []) /\
  retrieve VectorStore_init blank_retriever "alpha" 5 = inr [] /\
  (forall vs r, content_store vs = [] ->
                _build_keyword_index vs r = (r, inr tt)) /\
  (forall vs r doc_id c s,
      content_store vs = [(doc_id, c)] -> c !! "summary" = Some (VStr s) ->
      _build_keyword_index vs r
      = match BM25Okapi [tokens_of s] with
        | inl err =>
            ({| bm25 := bm25 r; doc_ids := [doc_id]; doc_summaries := [s] |},
             inl err)
        | inr index =>
            ({| bm25 := Some index; doc_ids := [doc_id];
                doc_summaries := [s] |}, inr tt)
        end).
Proof.
  split; [reflexivity|].
  apply (empty_corpus_returns_nothing "alpha" 10 5 [Memory.float_of_nat 5]).
  - reflexivity.
  - apply memory_empty_collection_answers.
  - lia.
  - lia.
Defined.

(** C4 as stated has index construction short-circuited for a corpus of
    one item as well: over a store with one item the index is built, and
    when the item's summary has no token the division of the IDF average
    by the vocabulary size raises. *)
Lemma single_item_corpus_is_indexed :
  length (content_store Scenario.single_store) = 1%nat /\
  Retriever_init Scenario.single_store
  = inr {| bm25 := Some [["alpha"]]; doc_ids := ["u1"];
           doc_summaries := ["alpha"] |} /\
  length (content_store Scenario.blank_store) = 1%nat /\
  Retriever_init Scenario.blank_store = inl ZeroDivisionError.
Proof. repeat split; reflexivity. Qed.

Lemma reset_then_retrieve_witness :
  encode (VStr "alpha") = inr [Memory.float_of_nat 5] /\
  get_all_documents (reset Scenario.store) = [] /\
  Retriever_init (reset Scenario.store) = inr blank_retriever /\
  retrieve (reset Scenario.store) blank_retriever "alpha" 5 = inr [] /\
  (forall r, bm25 r = None ->
             retrieve (reset Scenario.store) r "alpha" 5 = inr []).
Proof.
  split; [reflexivity|].
  apply (reset_then_retrieve Scenario.store "alpha" 5 [Memory.float_of_nat 5]).
  - reflexivity.
  - apply memory_empty_collection_answers.
  - lia.
Defined.

(** C7 as stated covers every retriever backed by the store: one that was
    constructed before the reset keeps its BM25 index, also through
    [rebuild_index], and [retrieve] returns what that index matches. *)
Lemma retrieve_after_reset_is_stale :
  Retriever_init Scenario.store = inr Scenario.retriever /\
  get_all_documents (reset Scenario.store) = [] /\
  rebuild_index (reset Scenario.store) Scenario.retriever
  = (Scenario.retriever, inr tt) /\
  retrieve (reset Scenario.store) Scenario.retriever "alpha" 5
  = inr [Scenario.stale_result] /\
  retrieve (reset Scenario.store) Scenario.retriever "alpha" 5 <> inr [].
Proof.
  split; [reflexivity|]. split; [reflexivity|].
  split; [reflexivity|].
  assert (retrieve (reset Scenario.store) Scenario.retriever "alpha" 5
          = inr [Scenario.stale_result]) as Hstale
    by (reflexivity).
  split; [exact Hstale|]. rewrite Hstale. discriminate.
Qed.

Lemma unresolved_ids_stay_in_results_witness :
  keyword_search Scenario.store_after_reset Scenario.retriever "alpha" 10
  = inr [Scenario.alpha_hit Scenario.store_after_reset] /\
  Forall (fun res =>
            exists doc_id,
              id_of res = Some doc_id /\
              (get_original_content Scenario.store_after_reset doc_id = None ->
               res !! "original_content" = Some VNone /\
               res !! "page" = Some VNone /\
               res !! "type" = Some VNone /\
               res !! "metadata" = Some (VDict ∅)))
         [Scenario.alpha_hit Scenario.store_after_reset] /\
  (forall vs', exists keyword',
      keyword_search vs' Scenario.retriever "alpha" 10 = inr keyword' /\
      map id_of keyword'
      = map id_of [Scenario.alpha_hit Scenario.store_after_reset] /\
      map score_of keyword'
      = map score_of [Scenario.alpha_hit Scenario.store_after_reset]) /\
  map id_of (returned [] (search Scenario.store "alpha" 10))
  = [Some "u1"; Some "u2"; Some "u3"] /\
  Forall (fun res =>
            exists doc_id,
              id_of res = Some doc_id /\
              res !! "original_content"
              = Some (stored_original_content Scenario.store doc_id) /\
              (get_original_content Scenario.store doc_id = None ->
               res !! "original_content" = Some VNone))
         (returned [] (search Scenario.store "alpha" 10)) /\
  exists dense',
    search {| collection := collection Scenario.store; content_store := [] |}
           "alpha" 10 = inr dense' /\
    map id_of dense' = map id_of (returned [] (search Scenario.store "alpha" 10)) /\
    Forall (fun res =>
              exists doc_id,
                id_of res = Some doc_id /\
                (OrderedDict.get (@nil (string * pydict)) doc_id = None ->
                 res !! "original_content" = Some VNone)) dense'.
Proof.
  destruct (unresolved_ids_stay_in_results Scenario.store_after_reset
              Scenario.retriever "alpha" 10 10
              [Scenario.alpha_hit Scenario.store_after_reset] [])
    as (Hkeyword & Hany & _ & _); [reflexivity|reflexivity|].
  destruct (unresolved_ids_stay_in_results Scenario.store
              Scenario.retriever "alpha" 10 10
              (returned [] (keyword_search Scenario.store Scenario.retriever
                                           "alpha" 10))
              (returned [] (search Scenario.store "alpha" 10)))
    as (_ & _ & Hdense & Hstore); [reflexivity|reflexivity|].
  split; [reflexivity|]. split; [exact Hkeyword|]. split; [exact Hany|].
  split; [reflexivity|]. split; [exact Hdense|]. exact (Hstore []).
Defined.

(** C9 as stated has every returned id resolve in the store: after a
    reset under the retriever, keyword search returns the id [u1], which
    the store no longer holds. *)
Lemma keyword_result_id_does_not_resolve :
  keyword_search Scenario.store_after_reset Scenario.retriever "alpha" 10
  = inr [Scenario.alpha_hit Scenario.store_after_reset] /\
  id_of (Scenario.alpha_hit Scenario.store_after_reset) = Some "u1" /\
  get_original_content Scenario.store_after_reset "u1" = None.
Proof. repeat split; reflexivity. Qed.

End on_memory.

(** * Further properties of the code *)

(** ** The content store under [add_documents] *)

Section add_loop_facts.
Context `{!SentenceTransformer, !ChromaDB}.
Import OrderedDict OrderedDictFacts.

Lemma keys_set_NoDup {V} (d : OrderedDict.t V) key v :
  NoDup (keys d) -> NoDup (keys (set d key v)).
Proof.
  intros Hnd. destruct (decide (key ∈ keys d)) as [Hin|Hout].
  - by rewrite keys_set_present.
  - rewrite keys_set_absent by done. apply NoDup_app. split; [done|].
    split; [|apply NoDup_singleton].
    intros x Hx ->%list_elem_of_singleton. done.
Qed.

Lemma add_loop_other uuid4 n items b store key :
  key ∉ map uuid4 (seq n (length items)) ->
  get (add_loop uuid4 n items b store).1 key = get store key.
Proof.
  revert n b store. induction items as [|item rest IH]; intros n b store Hkey;
    [done|].
  cbn [add_loop]. cbn [length seq map] in Hkey.
  apply not_elem_of_cons in Hkey as [Hne Hrest].
  destruct (encode (item_summary item)) as [e|emb]; [done|].
  destruct (dict_getitem item "page") as [e|page]; [done|].
  destruct (dict_getitem item "type") as [e|type]; [done|].
  cbn. rewrite IH by done. by apply get_set_ne.
Qed.

Lemma add_loop_NoDup uuid4 n items b store :
  NoDup (keys store) -> NoDup (keys (add_loop uuid4 n items b store).1).
Proof.
  revert n b store. induction items as [|item rest IH]; intros n b store Hnd;
    [done|].
  cbn [add_loop].
  destruct (encode (item_summary item)) as [e|emb]; [done|].
  destruct (dict_getitem item "page") as [e|page]; [done|].
  destruct (dict_getitem item "type") as [e|type]; [done|].
  cbn. apply IH. by apply keys_set_NoDup.
Qed.

Lemma add_documents_content vs items uuid4 :
  content_store (add_documents vs items uuid4).1
  = (add_loop uuid4 0 items
       {| b_ids := []; b_documents := []; b_embeddings := [];
          b_metadatas := [] |} (content_store vs)).1.
Proof.
  unfold add_documents.
  destruct (add_loop _ _ _ _ _) as [store [e|b]]; [done|].
  destruct (b_ids b); [done|].
  by destruct (collection_add _ _ _ _ _).
Qed.

Lemma reachable_NoDup vs : reachable vs -> NoDup (keys (content_store vs)).
Proof.
  induction 1 as [|vs items uuid4 _ IH|vs _ _].
  - constructor.
  - rewrite add_documents_content. by apply add_loop_NoDup.
  - constructor.
Qed.

End add_loop_facts.

Section store_properties.
Context `{!SentenceTransformer, !ChromaDB}.
Import OrderedDict OrderedDictFacts.

Lemma add_loop_app uuid4 n xs ys b store :
  add_loop uuid4 n (xs ++ ys) b store
  = match add_loop uuid4 n xs b store with
    | (store', inl e) => (store', inl e)
    | (store', inr b') => add_loop uuid4 (n + length xs) ys b' store'
    end.
Proof.
  revert n b store. induction xs as [|x xs IH]; intros n b store.
  - cbn. by rewrite Nat.add_0_r.
  - cbn [app add_loop length].
    destruct (encode (item_summary x)) as [e|emb]; [done|].
    destruct (dict_getitem x "page") as [e|page]; [done|].
    destruct (dict_getitem x "type") as [e|type]; [done|].
    cbn. rewrite IH. by rewrite Nat.add_succ_r.
Qed.

(** X1: [add_documents] changes no record other than those of the
    identifiers it draws in the call: under any other identifier
    [get_original_content] answers as before, whether the call returns or
    raises. *)
Theorem add_documents_keeps_other_records
    (vs : VectorStore) (items : list pydict) (uuid4 : nat -> string)
    (doc_id : string) :
  doc_id ∉ map uuid4 (seq 0 (length items)) ->
  get_original_content (add_documents vs items uuid4).1 doc_id
  = get_original_content vs doc_id.
Proof.
  intros Hout. unfold get_original_content.
  rewrite add_documents_content. by apply add_loop_other.
Qed.

(** X2: an item without ['page'] (or with a page and without ['type'])
    makes [add_documents] raise [KeyError] for that key. The items before
    it have by then been written to the content store, and nothing has been
    handed to the collection: the store is left with records the collection
    does not know. *)
Theorem add_documents_missing_field
    (vs : VectorStore) (accepted : list pydict) (item : pydict)
    (rest : list pydict) (uuid4 : nat -> string) (e : list float) :
  Forall item_ok accepted ->
  encode (item_summary item) = inr e ->
  (item !! "page" = None ->
   add_documents vs (accepted ++ item :: rest) uuid4
   = ({| collection := collection vs;
         content_store := store_after uuid4 0 accepted (content_store vs) |},
      inl (KeyError "page"))) /\
  (is_Some (item !! "page") -> item !! "type" = None ->
   add_documents vs (accepted ++ item :: rest) uuid4
   = ({| collection := collection vs;
         content_store := store_after uuid4 0 accepted (content_store vs) |},
      inl (KeyError "type"))).
Proof.
  intros Hok He.
  assert (forall b, exists b',
    add_loop uuid4 0 (accepted ++ item :: rest) b (content_store vs)
    = add_loop uuid4 (length accepted) (item :: rest) b'
        (store_after uuid4 0 accepted (content_store vs))) as Hloop.
  { intros b. rewrite add_loop_app.
    destruct (add_loop_accepts uuid4 0 accepted b (content_store vs) Hok)
      as (b' & -> & _). by exists b'. }
  split.
  - intros Hpage. unfold add_documents.
    destruct (Hloop {| b_ids := []; b_documents := []; b_embeddings := [];
                       b_metadatas := [] |}) as [b' ->].
    cbn [add_loop]. rewrite He. unfold dict_getitem. rewrite Hpage. done.
  - intros [page Hpage] Htype. unfold add_documents.
    destruct (Hloop {| b_ids := []; b_documents := []; b_embeddings := [];
                       b_metadatas := [] |}) as [b' ->].
    cbn [add_loop]. rewrite He. unfold dict_getitem.
    rewrite Hpage, Htype. done.
Qed.

(** X3: in every store the program can reach, no identifier is held
    twice (a drawn identifier that is already there overwrites), so
    [get_all_documents] and [get_original_content] agree: the documents
    listed are exactly the stored records, each with its identifier under
    ['doc_id'], and no two listed documents share an identifier. *)
Theorem reachable_store_lists_each_record_once (vs : VectorStore) :
  reachable vs ->
  NoDup (keys (content_store vs)) /\
  (forall doc,
      doc ∈ get_all_documents vs <->
      exists doc_id content,
        get_original_content vs doc_id = Some content /\
        doc = <["doc_id" := VStr doc_id]> content) /\
  NoDup (map (fun doc => dict_get_or doc "doc_id" (VStr ""))
             (get_all_documents vs)).
Proof.
  intros Hnd%reachable_NoDup. split; [done|]. split.
  - intros doc. unfold get_all_documents, get_original_content. split.
    + intros ([id c] & -> & Hin)%list_elem_of_fmap. exists id, c.
      split; [|done]. by apply items_get.
    + intros (id & c & Hget & ->).
      apply list_elem_of_fmap. exists (id, c). split; [done|].
      clear Hnd. induction (content_store vs) as [|[k v] d IH]; [done|].
      cbn in Hget. destruct (decide (id = k)) as [->|Hne].
      * injection Hget as ->. apply list_elem_of_here.
      * apply list_elem_of_further. by apply IH.
  - rewrite get_all_documents_ids. apply NoDup_fmap_2; [|done].
    by intros x y [=].
Qed.

End store_properties.

Section insertion_order.
Context `{!SentenceTransformer, !ChromaDB}.
Import OrderedDict OrderedDictFacts.

Lemma set_absent {V} (d : OrderedDict.t V) key v :
  get d key = None -> set d key v = d ++ [(key, v)].
Proof.
  induction d as [|[k w] d IH]; [done|]. cbn.
  destruct (decide (key = k)); [done|]. intros Hget. by rewrite IH.
Qed.

Lemma store_after_fresh uuid4 n items store :
  NoDup (map uuid4 (seq n (length items))) ->
  Forall (fun id => get store id = None) (map uuid4 (seq n (length items))) ->
  store_after uuid4 n items store
  = store ++ imap (fun i item => (uuid4 (n + i)%nat, record_of item)) items.
Proof.
  revert n store. induction items as [|item rest IH]; intros n store Hnd Hfresh.
  - cbn. by rewrite app_nil_r.
  - cbn [length seq map] in Hnd, Hfresh.
    apply NoDup_cons in Hnd as [Hhead Hnd].
    apply Forall_cons in Hfresh as [Hn Hfresh].
    cbn [store_after imap]. rewrite IH; [|done|].
    + rewrite set_absent by done. rewrite <- app_assoc. cbn.
      rewrite Nat.add_0_r. do 2 f_equal. apply imap_ext.
      intros i x _. cbn. by rewrite Nat.add_succ_r.
    + apply Forall_forall. intros id Hid.
      rewrite get_set_ne by (by intros <-).
      rewrite Forall_forall in Hfresh. by apply Hfresh.
Qed.

(** X4: [add_documents] keeps the order of arrival. When the identifiers
    drawn are new and distinct, [get_all_documents] afterwards lists the
    documents that were there, in their order, followed by one document per
    item, in the order of the items: the item's record with the identifier
    drawn for it under ['doc_id']. *)
Theorem get_all_documents_after_add
    (vs : VectorStore) (items : list pydict) (uuid4 : nat -> string) :
  Forall item_ok items ->
  NoDup (map uuid4 (seq 0 (length items))) ->
  Forall (fun doc_id => get_original_content vs doc_id = None)
         (map uuid4 (seq 0 (length items))) ->
  get_all_documents (add_documents vs items uuid4).1
  = get_all_documents vs ++ imap (listed_document uuid4) items.
Proof.
  intros Hok Hnd Hfresh. unfold get_all_documents at 1.
  rewrite add_documents_store by done.
  rewrite store_after_fresh by done.
  unfold OrderedDict.items. rewrite map_app. f_equal.
  change (map ?f ?l) with (f <$> l). rewrite fmap_imap. by apply imap_ext.
Qed.

End insertion_order.

(** ** Dense search *)

Section search_properties.
Context `{!SentenceTransformer, !ChromaDB}.

Lemma list_getitem_first {A} (ls : list (list A)) (i : nat) :
  (ls_first ← list_getitem ls 0; list_getitem ls_first i)
  = list_getitem (first_list ls) i.
Proof.
  unfold first_list, list_getitem. destruct ls as [|l ls]; cbn; [|done].
  done.
Qed.

Lemma mapM_raises {A B} (f : A -> raises B) (e : exn) xs :
  (forall x, x ∈ xs -> f x = inl e \/ exists y, f x = inr y) ->
  (exists x, x ∈ xs /\ f x = inl e) ->
  mapM f xs = inl e.
Proof.
  induction xs as [|x xs IH]; intros Hall (x0 & Hin & Hx0).
  - by apply elem_of_nil in Hin.
  - cbn. destruct (Hall x) as [Hx|[y Hx]]; [apply list_elem_of_here| |].
    + by rewrite Hx.
    + rewrite Hx. cbn. rewrite IH; [done| |].
      * intros z Hz. apply Hall. by apply list_elem_of_further.
      * apply elem_of_cons in Hin as [->|Hin]; [congruence|]. by exists x0.
Qed.

Lemma search_hit_cases vs results i :
  match first_list (qr_ids results) !! i,
        first_list (qr_distances results) !! i,
        first_list (qr_metadatas results) !! i,
        first_list (qr_documents results) !! i with
  | Some doc_id, Some distance, Some metadata, Some document =>
      search_hit vs results i
      = inr {[ "id" := VStr doc_id;
               "distance" := VFloat distance;
               "metadata" := VDict metadata;
               "document" := document;
               "original_content" := stored_original_content vs doc_id;
               "page" := dict_get metadata "page";
               "type" := dict_get metadata "type" ]}
  | _, _, _, _ => search_hit vs results i = inl IndexError
  end.
Proof.
  unfold search_hit, first_list, list_getitem, stored_original_content,
    get_original_content.
  destruct results as [ids distances metadatas documents]. cbn.
  destruct ids as [|ids0 ?]; cbn; [by rewrite lookup_nil|].
  destruct (ids0 !! i) as [id|]; cbn; [|done].
  destruct distances as [|distances0 ?]; cbn; [by rewrite lookup_nil|].
  destruct (distances0 !! i) as [d|]; cbn; [|done].
  destruct metadatas as [|metadatas0 ?]; cbn; [by rewrite lookup_nil|].
  destruct (metadatas0 !! i) as [m|]; cbn; [|done].
  destruct documents as [|documents0 ?]; cbn; [by rewrite lookup_nil|].
  destruct (documents0 !! i) as [doc|]; cbn; [|done].
  by destruct (OrderedDict.get (content_store vs) id).
Qed.

Lemma search_unfold vs query n e results :
  encode (VStr query) = inr e ->
  collection_query (collection vs) e n = inr results ->
  search vs query n
  = mapM (search_hit vs results)
         (seq 0 (length (first_list (qr_ids results)))).
Proof.
  intros He Hq. unfold search. rewrite He. cbn. rewrite Hq. cbn.
  unfold first_list. destruct (qr_ids results) as [|ids0 ?]; [done|]. cbn.
  by destruct ids0.
Qed.

(** X5: dense search returns one hit per identifier ChromaDB answers
    with, in ChromaDB's order, when the answer has a distance, a metadata
    and a document for each of them. The hit at a position carries that
    position's identifier, distance, metadata and document, the page and
    type read from the metadata, and the original content the content store
    holds for the identifier ([None] when it holds none). *)
Theorem search_lists_each_candidate
    (vs : VectorStore) (query : string) (n : Z) (e : list float)
    (results : QueryResult) :
  encode (VStr query) = inr e ->
  collection_query (collection vs) e n = inr results ->
  (length (first_list (qr_ids results)) <= answer_width results)%nat ->
  exists hits,
    search vs query n = inr hits /\
    length hits = length (first_list (qr_ids results)) /\
    forall i hit,
      hits !! i = Some hit ->
      exists doc_id distance metadata document,
        first_list (qr_ids results) !! i = Some doc_id /\
        first_list (qr_distances results) !! i = Some distance /\
        first_list (qr_metadatas results) !! i = Some metadata /\
        first_list (qr_documents results) !! i = Some document /\
        hit !! "id" = Some (VStr doc_id) /\
        hit !! "distance" = Some (VFloat distance) /\
        hit !! "metadata" = Some (VDict metadata) /\
        hit !! "document" = Some document /\
        hit !! "page" = Some (dict_get metadata "page") /\
        hit !! "type" = Some (dict_get metadata "type") /\
        hit !! "original_content" = Some (stored_original_content vs doc_id).
Proof.
  intros He Hq Hwidth. rewrite (search_unfold _ _ _ _ _ He Hq).
  unfold answer_width in Hwidth.
  assert (forall i, (i < length (first_list (qr_ids results)))%nat ->
            exists doc_id distance metadata document,
              first_list (qr_ids results) !! i = Some doc_id /\
              first_list (qr_distances results) !! i = Some distance /\
              first_list (qr_metadatas results) !! i = Some metadata /\
              first_list (qr_documents results) !! i = Some document)
    as Hrows.
  { intros i Hi.
    destruct (lookup_lt_is_Some_2 (first_list (qr_ids results)) i)
      as [id Hid]; [done|].
    destruct (lookup_lt_is_Some_2 (first_list (qr_distances results)) i)
      as [d Hd]; [lia|].
    destruct (lookup_lt_is_Some_2 (first_list (qr_metadatas results)) i)
      as [m Hm]; [lia|].
    destruct (lookup_lt_is_Some_2 (first_list (qr_documents results)) i)
      as [doc Hdoc]; [lia|].
    by exists id, d, m, doc. }
  destruct (mapM_returns (search_hit vs results)
              (seq 0 (length (first_list (qr_ids results))))) as [hits Hhits].
  { intros i [_ Hi]%elem_of_seq.
    destruct (Hrows i) as (id & d & m & doc & Hid & Hd & Hm & Hdoc); [lia|].
    pose proof (search_hit_cases vs results i) as Hcase.
    rewrite Hid, Hd, Hm, Hdoc in Hcase. by eexists. }
  exists hits. split; [done|].
  apply mapM_inr_Forall2 in Hhits.
  pose proof (Forall2_length _ _ _ Hhits) as Hlen.
  rewrite length_seq in Hlen. split; [done|].
  intros i hit Hhit.
  destruct (Forall2_lookup_r _ _ _ _ _ Hhits Hhit) as (j & Hj & Hrow).
  apply lookup_seq in Hj as [-> Hi]. cbn in Hrow.
  destruct (Hrows i Hi) as (id & d & m & doc & Hid & Hd & Hm & Hdoc).
  pose proof (search_hit_cases vs results i) as Hcase.
  rewrite Hid, Hd, Hm, Hdoc, Hrow in Hcase. injection Hcase as ->.
  exists id, d, m, doc. by simplify_map_eq.
Qed.

(** X6: when ChromaDB's answer has fewer distances, metadatas or
    documents than identifiers, dense search raises [IndexError]; it does
    not return the hits that were complete. *)
Theorem search_short_answer_raises
    (vs : VectorStore) (query : string) (n : Z) (e : list float)
    (results : QueryResult) :
  encode (VStr query) = inr e ->
  collection_query (collection vs) e n = inr results ->
  (answer_width results < length (first_list (qr_ids results)))%nat ->
  search vs query n = inl IndexError.
Proof.
  intros He Hq Hwidth. rewrite (search_unfold _ _ _ _ _ He Hq).
  apply mapM_raises.
  - intros i _. pose proof (search_hit_cases vs results i) as Hcase.
    destruct (first_list (qr_ids results) !! i); [|by left].
    destruct (first_list (qr_distances results) !! i); [|by left].
    destruct (first_list (qr_metadatas results) !! i); [|by left].
    destruct (first_list (qr_documents results) !! i); [|by left].
    right. by eexists.
  - exists (answer_width results). split; [apply elem_of_seq; lia|].
    pose proof (search_hit_cases vs results (answer_width results)) as Hcase.
    unfold answer_width in *.
    destruct (first_list (qr_ids results) !! _); [|done].
    destruct (first_list (qr_distances results) !! _) eqn:Hd; [|done].
    destruct (first_list (qr_metadatas results) !! _) eqn:Hm; [|done].
    destruct (first_list (qr_documents results) !! _) eqn:Hdoc; [|done].
    apply lookup_lt_Some in Hd, Hm, Hdoc. lia.
Qed.

End search_properties.

(** ** Results and the records behind them *)

Section joins.
Context `{!SentenceTransformer, !ChromaDB, !RankBM25, !NumPy}.
Import OrderedDict OrderedDictFacts.

(** X7: what a dense hit shows as ['original_content'] is the item's
    ['content'], not the summary that was embedded: after [add_documents]
    has accepted the items under distinct identifiers, every hit of a
    search whose id was drawn for an item carries that item's content. *)
Theorem search_shows_item_content
    (vs : VectorStore) (items : list pydict) (uuid4 : nat -> string)
    (query : string) (n : Z) (hits : list pydict) (i : nat)
    (item hit : pydict) :
  Forall item_ok items ->
  NoDup (map uuid4 (seq 0 (length items))) ->
  search (add_documents vs items uuid4).1 query n = inr hits ->
  items !! i = Some item ->
  hit ∈ hits ->
  id_of hit = Some (uuid4 i) ->
  hit !! "original_content" = Some (dict_get item "content").
Proof.
  intros Hok Hnd Hsearch Hitem Hhit Hid.
  apply search_hits in Hsearch. rewrite Forall_forall in Hsearch.
  destruct (Hsearch hit Hhit) as (j & results & Hj).
  apply search_hit_fields in Hj as (doc_id & Hid' & ->).
  rewrite Hid in Hid'. injection Hid' as <-.
  rewrite add_documents_store by done.
  rewrite (store_after_lookup _ 0 _ _ i item) by done. cbn.
  unfold record_of, stored_record, dict_get. by simplify_map_eq.
Qed.

Lemma items_lookup_get {V} (d : OrderedDict.t V) i key v :
  NoDup (keys d) -> d !! i = Some (key, v) -> get d key = Some v.
Proof.
  intros Hnd Hi. apply items_get; [done|].
  unfold OrderedDict.items. by apply list_elem_of_lookup_2 in Hi.
Qed.

Lemma keyword_hits_of_store
    (vs : VectorStore) (r : Retriever) (query : string) (k : Z)
    (out : list pydict) :
  NoDup (keys (content_store vs)) ->
  Retriever_init vs = inr r ->
  keyword_search vs r query k = inr out ->
  Forall (fun res =>
            exists doc_id content,
              id_of res = Some doc_id /\
              get_original_content vs doc_id = Some content /\
              res !! "original_content"
              = Some (dict_get content "original_content") /\
              res !! "page" = Some (dict_get content "page") /\
              res !! "type" = Some (dict_get content "type") /\
              res !! "metadata"
              = Some (dict_get_or content "metadata" (VDict ∅)) /\
              res !! "document"
              = Some (dict_get_or content "summary" (VStr ""))) out.
Proof.
  intros Hnd Hinit%Retriever_init_build Hsearch.
  apply build_spec in Hinit as [[_ ->]|(_ & index & Hb & _ & Hsums & Hids)].
  { rewrite keyword_search_blank in Hsearch by done.
    injection Hsearch as <-. constructor. }
  rewrite (keyword_search_indexed _ _ _ _ _ Hb) in Hsearch.
  apply keyword_loop_kept in Hsearch as (kept & _ & Hall).
  apply Forall_forall. intros res Hres.
  apply list_elem_of_lookup in Hres as [j Hj].
  destruct (Forall2_lookup_r _ _ _ _ _ Hall Hj)
    as (idx & _ & id & s & doc & Hid & Hdoc & _ & _ & ->).
  rewrite Hids in Hid. unfold keys in Hid.
  change (map ?f ?l) with (f <$> l) in Hid.
  apply list_lookup_fmap_Some in Hid as ([id' c] & -> & Hc). cbn.
  exists id', c. split; [apply id_of_keyword_hit|].
  pose proof (items_lookup_get _ _ _ _ Hnd Hc) as Hget.
  split; [done|].
  assert (VStr doc = dict_get_or c "summary" (VStr "")) as Hsum.
  { assert (map VStr (doc_summaries r) !! idx = Some (VStr doc)) as Hl.
    { change (map ?f ?l) with (f <$> l). by rewrite list_lookup_fmap, Hdoc. }
    rewrite Hsums in Hl. unfold store_summaries in Hl.
    change (map ?f ?l) with (f <$> l) in Hl.
    rewrite list_lookup_fmap in Hl. unfold OrderedDict.items in Hl.
    rewrite Hc in Hl. by injection Hl. }
  unfold keyword_hit, get_original_content in *. rewrite Hget, <- Hsum.
  by simplify_map_eq.
Qed.

(** X8: a retriever constructed over a store answers keyword queries
    against that store with results that resolve. Each result's id is the
    identifier of a stored record, its ['original_content'], ['page'],
    ['type'] and ['metadata'] are those of the record, and its ['document']
    is the record's summary. *)
Theorem keyword_hits_resolve
    (vs : VectorStore) (r : Retriever) (query : string) (k : Z)
    (out : list pydict) :
  reachable vs ->
  Retriever_init vs = inr r ->
  keyword_search vs r query k = inr out ->
  Forall (fun res =>
            exists doc_id content,
              id_of res = Some doc_id /\
              get_original_content vs doc_id = Some content /\
              res !! "original_content"
              = Some (dict_get content "original_content") /\
              res !! "page" = Some (dict_get content "page") /\
              res !! "type" = Some (dict_get content "type") /\
              res !! "metadata"
              = Some (dict_get_or content "metadata" (VDict ∅)) /\
              res !! "document"
              = Some (dict_get_or content "summary" (VStr ""))) out.
Proof.
  intros Hnd%reachable_NoDup. by apply keyword_hits_of_store.
Qed.

End joins.

(** ** The fusion: order of the results, and errors *)

Section float_order.

Lemma SFcompare_Lt_Gt (a b : spec_float) :
  SFcompare a b = Some Lt -> SFcompare b a = Some Gt.
Proof.
  destruct a as [sa|sa| |sa ma ea], b as [sb|sb| |sb mb eb]; cbn;
    try destruct sa; try destruct sb; try done.
  - rewrite (Z.compare_antisym ea eb).
    destruct (ea ?= eb)%Z; cbn; try done.
    change (Pos.compare_cont Eq mb ma) with (mb ?= ma)%positive.
    change (Pos.compare_cont Eq ma mb) with (ma ?= mb)%positive.
    rewrite (Pos.compare_antisym ma mb).
    by destruct (ma ?= mb)%positive.
  - rewrite (Z.compare_antisym ea eb).
    destruct (ea ?= eb)%Z; cbn; try done.
    change (Pos.compare_cont Eq mb ma) with (mb ?= ma)%positive.
    change (Pos.compare_cont Eq ma mb) with (ma ?= mb)%positive.
    rewrite (Pos.compare_antisym ma mb).
    by destruct (ma ?= mb)%positive.
Qed.

Lemma ltb_asym (x y : float) :
  PrimFloat.ltb x y = true -> PrimFloat.ltb y x = false.
Proof.
  rewrite !ltb_spec. unfold SFltb.
  destruct (SFcompare (Prim2SF x) (Prim2SF y)) as [[| |]|] eqn:Hc; try done.
  intros _. by rewrite (SFcompare_Lt_Gt _ _ Hc).
Qed.

End float_order.

Section rrf_order.

Lemma insert_desc_HdRel x y l :
  PrimFloat.ltb y.2 x.2 = false -> HdRel by_score y l ->
  HdRel by_score y (insert_desc x l).
Proof.
  intros Hyx Hyl. destruct l as [|z l]; cbn; [by constructor|].
  destruct (PrimFloat.ltb x.2 z.2); constructor; [|done].
  by inversion Hyl.
Qed.

Lemma insert_desc_Sorted x l :
  Sorted by_score l -> Sorted by_score (insert_desc x l).
Proof.
  induction l as [|y l IH]; intros Hs; cbn.
  - by repeat constructor.
  - inversion Hs as [|? ? Hl Hhd]; subst.
    destruct (PrimFloat.ltb x.2 y.2) eqn:Hxy.
    + constructor; [by apply IH|].
      apply insert_desc_HdRel; [by apply ltb_asym|done].
    + constructor; [done|]. by constructor.
Qed.

Lemma sorted_desc_Sorted l : Sorted by_score (sorted_desc l).
Proof.
  induction l as [|x l IH]; cbn; [constructor|].
  by apply insert_desc_Sorted.
Qed.

Lemma Sorted_Forall2 {A B} (R : relation A) (R' : relation B)
    (Q : A -> B -> Prop) l k :
  (forall x x' y y', R x x' -> Q x y -> Q x' y' -> R' y y') ->
  Forall2 Q l k -> Sorted R l -> Sorted R' k.
Proof.
  intros HR Hall. induction Hall as [|x y l k Hxy Hall IH]; intros Hs;
    [constructor|].
  inversion Hs as [|? ? Hl Hhd]; subst. constructor; [by apply IH|].
  destruct Hall as [|x' y' l k Hxy' _]; constructor.
  inversion Hhd; subst. by eapply HR.
Qed.

Lemma rrf_format_score info e r :
  rrf_format info e = inr r -> rrf_score_of r = Some e.2.
Proof.
  destruct e as [id s]. unfold rrf_format. intros H. inv_bind H.
  injection H as <-. unfold rrf_score_of. by simplify_map_eq.
Qed.

Lemma rrf_sorted rl k fused :
  reciprocal_rank_fusion rl k = inr fused ->
  Forall (fun r => is_Some (rrf_score_of r)) fused /\
  Sorted not_outscored_by fused.
Proof.
  unfold reciprocal_rank_fusion. intros H. inv_bind H. rename a into tabs.
  apply mapM_inr_Forall2 in H. split.
  - apply Forall_forall. intros r [i Hi]%list_elem_of_lookup.
    destruct (Forall2_lookup_r _ _ _ _ _ H Hi) as (e & _ & He).
    apply rrf_format_score in He. by rewrite He.
  - eapply (Sorted_Forall2 by_score); [|exact H|apply sorted_desc_Sorted].
    intros e e' r r' Hee' He He'.
    apply rrf_format_score in He, He'. by exists e.2, e'.2.
Qed.

End rrf_order.

(** X9: the fused list comes out best first. Every fused result has an
    [rrf_score], and none has a score strictly less than that of the
    result right after it. *)
Theorem rrf_results_are_ranked
    (rl : list (list pydict)) (k : Z) (fused : list pydict) :
  reciprocal_rank_fusion rl k = inr fused ->
  Forall (fun r => is_Some (rrf_score_of r)) fused /\
  Sorted not_outscored_by fused.
Proof. apply rrf_sorted. Qed.

Section rrf_errors.

Lemma foldM_raises {A S} (body : S -> A -> raises S) (e : exn) xs s :
  (forall s x, x ∈ xs -> body s x = inl e \/ exists s', body s x = inr s') ->
  (exists x, x ∈ xs /\ forall s, body s x = inl e) ->
  foldM body xs s = inl e.
Proof.
  revert s. induction xs as [|x xs IH]; intros s Hall (x0 & Hin & Hx0).
  - by apply elem_of_nil in Hin.
  - cbn. destruct (Hall s x) as [Hx|[s' Hx]]; [apply list_elem_of_here| |].
    + by rewrite Hx.
    + rewrite Hx. cbn. apply IH.
      * intros s0 z Hz. apply Hall. by apply list_elem_of_further.
      * apply elem_of_cons in Hin as [->|Hin]; [|by exists x0].
        rewrite Hx0 in Hx. discriminate Hx.
Qed.

Lemma enumerate_lookup {A} (start : Z) (xs : list A) i x :
  xs !! i = Some x -> (start + Z.of_nat i, x) ∈ enumerate start xs.
Proof.
  revert start i. induction xs as [|y xs IH]; intros start i Hi; [done|].
  destruct i as [|i]; cbn [enumerate].
  - injection Hi as ->. rewrite Z.add_0_r. apply list_elem_of_here.
  - apply list_elem_of_further.
    replace (start + Z.of_nat (S i)) with (start + 1 + Z.of_nat i) by lia.
    by apply IH.
Qed.

Lemma visits_lookup rl results i x :
  results ∈ rl -> results !! i = Some x ->
  (1 + Z.of_nat i, x) ∈ visits rl.
Proof.
  intros Hres Hi. unfold visits. apply elem_of_concat.
  exists (enumerate 1 results). split; [by apply enumerate_lookup|].
  apply list_elem_of_fmap. by exists results.
Qed.

Lemma rrf_visit_cases k tabs rank r :
  match r !! "id" with
  | None => rrf_visit k tabs (rank, r) = inl (KeyError "id")
  | Some (VStr _) =>
      if k + rank =? 0 then rrf_visit k tabs (rank, r) = inl ZeroDivisionError
      else exists tabs', rrf_visit k tabs (rank, r) = inr tabs'
  | Some _ => rrf_visit k tabs (rank, r) = inl TypeError
  end.
Proof.
  unfold rrf_visit, result_id, dict_getitem.
  destruct (r !! "id") as [[| | |id| |]|]; cbn; try done.
  unfold py_recip. destruct (k + rank =? 0); cbn; [done|].
  unfold OrderedDict.contains, OrderedDict.getitem.
  destruct (OrderedDict.get (doc_scores tabs) id) as [s|] eqn:Hget.
  - rewrite Hget. cbn. by eexists.
  - cbn [doc_scores]. rewrite OrderedDictFacts.get_set_eq. cbn. by eexists.
Qed.

Lemma visits_result rl rank r :
  (rank, r) ∈ visits rl -> exists results, results ∈ rl /\ r ∈ results.
Proof.
  intros Hin.
  assert (r ∈ concat rl) as (l & Hr & Hl)%elem_of_concat.
  { rewrite <- visits_snd. apply list_elem_of_fmap. by exists (rank, r). }
  by exists l.
Qed.

End rrf_errors.

(** X10: the fusion divides by [k + rank]. When every result has an id
    and some list is long enough for a rank to reach [- k], the fusion
    raises [ZeroDivisionError]. *)
Theorem rrf_zero_denominator_raises (rl : list (list pydict)) (k : Z) :
  Forall (Forall (fun r => is_Some (id_of r))) rl ->
  Exists (fun results => 1 <= - k <= Z.of_nat (length results)) rl ->
  reciprocal_rank_fusion rl k = inl ZeroDivisionError.
Proof.
  intros Hids (results & Hres & Hk)%Exists_exists.
  unfold reciprocal_rank_fusion. rewrite rrf_aggregate_flat.
  rewrite (foldM_raises _ ZeroDivisionError); [done| |].
  - intros tabs [rank r] (l & Hl & Hr)%visits_result.
    rewrite Forall_forall in Hids. specialize (Hids _ Hl).
    rewrite Forall_forall in Hids. destruct (Hids _ Hr) as [id Hid].
    pose proof (rrf_visit_cases k tabs rank r) as Hcase.
    unfold id_of in Hid. destruct (r !! "id") as [[| | |id'| |]|]; try done.
    destruct (k + rank =? 0); [by left|by right].
  - destruct (lookup_lt_is_Some_2 results (Z.to_nat (- k - 1))) as [r Hr];
      [lia|].
    exists (- k, r). split.
    + replace (- k) with (1 + Z.of_nat (Z.to_nat (- k - 1))) at 1 by lia.
      by apply (visits_lookup _ results).
    + intros tabs. pose proof (rrf_visit_cases k tabs (- k) r) as Hcase.
      rewrite Forall_forall in Hids. specialize (Hids _ Hres).
      rewrite Forall_forall in Hids.
      destruct (Hids r) as [id Hid]; [by eapply list_elem_of_lookup_2|].
      unfold id_of in Hid. destruct (r !! "id") as [[| | |id'| |]|]; try done.
      by replace (k + - k =? 0) with true in Hcase by (symmetry; lia).
Qed.

(** X11: the fusion reads [result['id']]. When no rank reaches [- k] and
    some result has no ['id'] (the others having text ids), the fusion
    raises [KeyError] for ['id']. *)
Theorem rrf_missing_id_raises (rl : list (list pydict)) (k : Z) :
  Forall (rank_defined k) rl ->
  Forall (Forall (fun r => r !! "id" = None \/ is_Some (id_of r))) rl ->
  Exists (Exists (fun r => r !! "id" = None)) rl ->
  reciprocal_rank_fusion rl k = inl (KeyError "id").
Proof.
  intros Hk Hids (results & Hres & (r & Hr & Hnone)%Exists_exists)%Exists_exists.
  unfold reciprocal_rank_fusion. rewrite rrf_aggregate_flat.
  rewrite (foldM_raises _ (KeyError "id")); [done| |].
  - intros tabs [rank x] Hin.
    pose proof Hin as (l & Hl & Hx)%visits_result.
    rewrite Forall_forall in Hids. specialize (Hids _ Hl).
    rewrite Forall_forall in Hids.
    pose proof (rrf_visit_cases k tabs rank x) as Hcase.
    destruct (Hids _ Hx) as [Hid|[id Hid]].
    + rewrite Hid in Hcase. by left.
    + unfold id_of in Hid. destruct (x !! "id") as [[| | |id'| |]|]; try done.
      apply visits_rank in Hin as (l' & Hl' & Hrank).
      rewrite Forall_forall in Hk. specialize (Hk _ Hl').
      unfold rank_defined in Hk.
      replace (k + rank =? 0) with false in Hcase by (symmetry; lia).
      by right.
  - apply list_elem_of_lookup in Hr as [i Hi].
    exists (1 + Z.of_nat i, r). split; [by apply (visits_lookup _ results)|].
    intros tabs. pose proof (rrf_visit_cases k tabs (1 + Z.of_nat i) r) as Hc.
    by rewrite Hnone in Hc.
Qed.

(** ** Hybrid retrieval as a whole *)

Section retrieve_properties.
Context `{!SentenceTransformer, !ChromaDB, !RankBM25, !NumPy}.

Lemma first_seen_app id xs ys :
  first_seen id (xs ++ ys)
  = match first_seen id xs with
    | Some x => Some x
    | None => first_seen id ys
    end.
Proof.
  unfold first_seen. rewrite filter_app.
  by destruct (filter _ xs).
Qed.

Lemma py_slice_to_take {A} (k : Z) (l : list A) :
  exists n, py_slice_to k l = take n l.
Proof. unfold py_slice_to. destruct (0 <=? k); by eexists. Qed.

Lemma Sorted_take {A} (R : relation A) n l :
  Sorted R l -> Sorted R (take n l).
Proof.
  revert n. induction l as [|x l IH]; intros n Hs; [by destruct n|].
  destruct n as [|n]; [constructor|]. cbn.
  inversion Hs as [|? ? Hl Hhd]; subst. constructor; [by apply IH|].
  destruct l as [|y l]; destruct n; cbn; constructor. by inversion Hhd.
Qed.

Lemma retrieve_inr vs r query top_k out :
  retrieve vs r query top_k = inr out ->
  exists dense keyword fused,
    dense_search vs query (top_k * 2) = inr dense /\
    keyword_search vs r query (top_k * 2) = inr keyword /\
    reciprocal_rank_fusion [dense; keyword] 60 = inr fused /\
    out = py_slice_to top_k fused.
Proof.
  unfold retrieve. intros Hret.
  inv_bind Hret. rename a into dense. inv_bind Hret. rename a into keyword.
  inv_bind Hret. rename a into fused. injection Hret as <-.
  by exists dense, keyword, fused.
Qed.

Lemma rrf_fused_ids rl k fused :
  reciprocal_rank_fusion rl k = inr fused -> NoDup (map id_of fused).
Proof.
  intros (entries & Hnd & _ & Hall)%rrf_fused.
  assert (map id_of fused = map Some entries.*1) as ->.
  { clear Hnd. induction Hall as [|e res es fused' He _ IH]; [done|].
    cbn. rewrite IH. f_equal.
    destruct He as (_ & src & Hsrc & ->).
    rewrite id_of_insert_score. apply first_seen_Some in Hsrc. tauto. }
  change (map Some ?l) with (Some <$> l). apply NoDup_fmap_2; [|done].
  by intros x y [=].
Qed.

Lemma search_hit_has_fields vs results i res :
  search_hit vs results i = inr res ->
  Forall (fun field => is_Some (res !! field))
         ["id"; "document"; "original_content"; "page"; "type"].
Proof.
  intros Hres. pose proof (search_hit_cases vs results i) as Hcase.
  destruct (first_list (qr_ids results) !! i); [|congruence].
  destruct (first_list (qr_distances results) !! i); [|congruence].
  destruct (first_list (qr_metadatas results) !! i); [|congruence].
  destruct (first_list (qr_documents results) !! i); [|congruence].
  rewrite Hres in Hcase. injection Hcase as ->.
  repeat constructor; by simplify_map_eq.
Qed.

Lemma keyword_hit_has_fields vs doc_id score document :
  Forall (fun field => is_Some (keyword_hit vs doc_id score document !! field))
         ["id"; "document"; "original_content"; "page"; "type"].
Proof. unfold keyword_hit. repeat constructor; by simplify_map_eq. Qed.

Lemma candidates_have_fields vs r query n n' dense keyword :
  dense_search vs query n = inr dense ->
  keyword_search vs r query n' = inr keyword ->
  Forall (fun res =>
            Forall (fun field => is_Some (res !! field))
                   ["id"; "document"; "original_content"; "page"; "type"])
         (dense ++ keyword).
Proof.
  intros Hdense Hkw. apply Forall_app. split.
  - apply search_hits in Hdense. eapply Forall_impl; [exact Hdense|].
    intros res (i & results & Hres). by eapply search_hit_has_fields.
  - destruct (bm25 r) as [index|] eqn:Hb.
    + rewrite (keyword_search_indexed _ _ _ _ _ Hb) in Hkw.
      apply keyword_loop_kept in Hkw as (kept & _ & Hall).
      apply Forall_forall. intros res [j Hj]%list_elem_of_lookup.
      destruct (Forall2_lookup_r _ _ _ _ _ Hall Hj)
        as (idx & _ & id & s & doc & _ & _ & _ & _ & ->).
      apply keyword_hit_has_fields.
    + rewrite keyword_search_blank in Hkw by done. injection Hkw as <-.
      constructor.
Qed.

(** X12: every result of [retrieve] is a candidate of one of the two
    searches with the fused score added under ['rrf_score'], and the dense
    search has precedence: a result whose id the dense search returned is
    the dense hit (with its ['distance']), and only a result the dense
    search did not return is the keyword hit. *)
Theorem retrieve_results_are_candidates
    (vs : VectorStore) (r : Retriever) (query : string) (top_k : Z)
    (out : list pydict) :
  retrieve vs r query top_k = inr out ->
  exists dense keyword,
    dense_search vs query (top_k * 2) = inr dense /\
    keyword_search vs r query (top_k * 2) = inr keyword /\
    Forall (fun res =>
              exists id src score,
                id_of res = Some id /\
                res = <["rrf_score" := VFloat score]> src /\
                (first_seen id dense = Some src \/
                 (first_seen id dense = None /\
                  first_seen id keyword = Some src))) out.
Proof.
  intros (dense & keyword & fused & Hd & Hk & Hf & ->)%retrieve_inr.
  exists dense, keyword. split; [done|]. split; [done|].
  apply Forall_forall. intros res Hres.
  assert (res ∈ fused) as Hin.
  { eapply elem_of_sublist; [done|apply py_slice_to_sublist]. }
  destruct (rrf_fused_fields _ _ _ _ Hf Hin) as (id & src & score & Hfs & Hid & ->).
  exists id, src, score. split; [by rewrite id_of_insert_score|].
  split; [done|]. cbn [concat] in Hfs. rewrite app_nil_r in Hfs.
  rewrite first_seen_app in Hfs.
  destruct (first_seen id dense); [left; congruence|by right].
Qed.

(** X13: [retrieve] returns its results best first, each item once, and
    ready to be shown. No two results have the same id, each has a fused
    score that is not strictly less than the next result's, and each has
    the fields ['id'], ['document'], ['original_content'], ['page'],
    ['type'] and ['rrf_score']. *)
Theorem retrieve_results_ranked_and_distinct
    (vs : VectorStore) (r : Retriever) (query : string) (top_k : Z)
    (out : list pydict) :
  retrieve vs r query top_k = inr out ->
  NoDup (map id_of out) /\
  Sorted not_outscored_by out /\
  Forall (fun res => Forall (fun field => is_Some (res !! field))
                            answer_fields) out.
Proof.
  intros (dense & keyword & fused & Hd & Hk & Hf & ->)%retrieve_inr.
  destruct (py_slice_to_take top_k fused) as [n ->].
  split; [|split].
  - change (map ?f ?l) with (f <$> l). rewrite fmap_take.
    eapply sublist_NoDup; [|apply sublist_take].
    by apply rrf_fused_ids in Hf.
  - apply Sorted_take. by apply rrf_sorted in Hf as [_ Hs].
  - apply Forall_forall. intros res Hres.
    assert (res ∈ fused) as Hin.
    { eapply elem_of_sublist; [done|apply sublist_take]. }
    destruct (rrf_fused_fields _ _ _ _ Hf Hin)
      as (id & src & score & Hfs & _ & ->).
    apply first_seen_Some in Hfs as [Hsrc _].
    cbn [concat] in Hsrc. rewrite app_nil_r in Hsrc.
    pose proof (candidates_have_fields _ _ _ _ _ _ _ Hd Hk) as Hall.
    rewrite Forall_forall in Hall. specialize (Hall _ Hsrc).
    unfold answer_fields.
    repeat match goal with
           | Hx : Forall _ (_ :: _) |- _ =>
               apply Forall_cons in Hx as [? Hx]
           end.
    repeat constructor;
      try (rewrite lookup_insert_ne by done; assumption).
    by rewrite lookup_insert_eq.
Qed.

End retrieve_properties.

(** ** Building the keyword index *)

Section build_properties.
Context `{!SentenceTransformer, !ChromaDB, !RankBM25, !NumPy}.
Import OrderedDict.

Lemma index_loop_texts docs toks ids sums new_ids new_sums :
  map (fun doc => dict_get_or doc "summary" (VStr "")) docs
  = map VStr new_sums ->
  map (fun doc => dict_get_or doc "doc_id" (VStr "")) docs
  = map VStr new_ids ->
  index_loop docs toks ids sums
  = (toks ++ map tokens_of new_sums, ids ++ new_ids, sums ++ new_sums,
     inr tt).
Proof.
  revert toks ids sums new_ids new_sums.
  induction docs as [|doc docs IH]; intros toks ids sums new_ids new_sums.
  - destruct new_ids, new_sums; try done. intros _ _. cbn.
    by rewrite !app_nil_r.
  - destruct new_ids as [|id new_ids], new_sums as [|s new_sums]; try done.
    cbn [map index_loop]. intros [= Hs Hsums] [= Hid Hids].
    rewrite Hs, Hid. cbn. rewrite (IH _ _ _ new_ids new_sums) by done.
    unfold tokens_of. by rewrite <- !app_assoc.
Qed.

(** X14: when [BM25Okapi] raises while the index is rebuilt over a
    non-empty store of text summaries, the retriever is left between two
    states: [doc_ids] and [doc_summaries] are already those of the store,
    while [bm25] is still the index it had, built over other documents. *)
Theorem failed_rebuild_keeps_old_index
    (vs : VectorStore) (r : Retriever) (texts : list string) (err : exn) :
  content_store vs <> [] ->
  store_summaries vs = map VStr texts ->
  BM25Okapi (map tokens_of texts) = inl err ->
  rebuild_index vs r
  = ({| bm25 := bm25 r; doc_ids := keys (content_store vs);
        doc_summaries := texts |}, inl err).
Proof.
  intros Hne Hsums Hbm. unfold rebuild_index, _build_keyword_index.
  destruct (get_all_documents vs) as [|doc docs] eqn:Hdocs.
  { by apply get_all_documents_nil in Hdocs. }
  rewrite (index_loop_texts _ _ _ _ (keys (content_store vs)) texts).
  - cbn [app]. destruct (map tokens_of texts) as [|tk tks] eqn:Htoks.
    + exfalso. destruct texts; [|discriminate].
      unfold store_summaries, items in Hsums.
      by destruct (content_store vs).
    + by rewrite Hbm.
  - by rewrite <- Hdocs, get_all_documents_summaries.
  - by rewrite <- Hdocs, get_all_documents_ids.
Qed.

End build_properties.

(** ** Keyword search *)

Section keyword_properties.
Context `{!SentenceTransformer, !ChromaDB, !RankBM25, !NumPy}.

Lemma lower_char_idem c : lower_char (lower_char c) = lower_char c.
Proof. by destruct c as [[] [] [] [] [] [] [] []]. Qed.

Lemma lower_upper_char c : lower_char (upper_char c) = lower_char c.
Proof. by destruct c as [[] [] [] [] [] [] [] []]. Qed.

Lemma lower_idem s : lower (lower s) = lower s.
Proof. induction s as [|c s IH]; cbn; [done|]. by rewrite lower_char_idem, IH. Qed.

Lemma lower_upper s : lower (upper s) = lower s.
Proof. induction s as [|c s IH]; cbn; [done|]. by rewrite lower_upper_char, IH. Qed.

(** X15: on ASCII text keyword search ignores letter case, in the query
    and in the summaries. An ASCII query typed in capitals or in small
    letters gets the results of the query as typed, and an ASCII summary
    is indexed under the same tokens whatever the case of its letters. *)
Theorem keyword_search_ignores_case
    (vs : VectorStore) (r : Retriever) (query : string) (k : Z) :
  ascii_text query = true ->
  keyword_search vs r (upper query) k = keyword_search vs r query k /\
  keyword_search vs r (lower query) k = keyword_search vs r query k /\
  (forall summary,
      ascii_text summary = true ->
      tokens_of (upper summary) = tokens_of summary).
Proof.
  intros _. unfold keyword_search, tokens_of.
  rewrite lower_upper, lower_idem. repeat split.
  intros summary _. by rewrite lower_upper.
Qed.

(** X16: keyword search returns no item twice. For a retriever
    constructed over a store, when [np.argsort] lists no index twice, no
    two results of a query have the same id. *)
Theorem keyword_search_distinct_ids
    (vs0 vs : VectorStore) (r : Retriever) (query : string) (k : Z)
    (out : list pydict) :
  reachable vs0 ->
  Retriever_init vs0 = inr r ->
  NoDup (argsort (bm25_scores r query)) ->
  keyword_search vs r query k = inr out ->
  NoDup (map id_of out).
Proof.
  intros Hnd%reachable_NoDup Hinit%Retriever_init_build Hperm Hsearch.
  apply build_spec in Hinit as [[_ ->]|(_ & index & Hb & _ & _ & Hids)].
  { rewrite keyword_search_blank in Hsearch by done.
    injection Hsearch as <-. constructor. }
  rewrite (keyword_search_indexed _ _ _ _ _ Hb) in Hsearch.
  apply keyword_loop_kept in Hsearch as (kept & Hsub & Hall).
  assert (NoDup kept) as Hkept.
  { eapply sublist_NoDup; [|exact Hsub].
    eapply sublist_NoDup; [|apply py_slice_to_sublist].
    by rewrite reverse_Permutation. }
  assert (map id_of out = (fun idx => doc_ids r !! idx) <$> kept) as ->.
  { clear Hkept Hsub. induction Hall as [|idx res kept' out' Hhit _ IH];
      [done|].
    cbn. rewrite IH. f_equal.
    destruct Hhit as (id & s & doc & Hid & _ & _ & _ & ->).
    by rewrite id_of_keyword_hit. }
  apply NoDup_fmap_2_strong; [|done].
  intros i j Hi Hj Hij.
  assert (is_Some (doc_ids r !! i)) as [id Hid].
  { clear -Hall Hi. apply list_elem_of_lookup in Hi as [p Hp].
    destruct (Forall2_lookup_l _ _ _ _ _ Hall Hp)
      as (res & _ & id & s & doc & Hid & _). by exists id. }
  rewrite Hids in Hid, Hij. rewrite Hid in Hij. symmetry in Hij.
  exact (NoDup_lookup _ _ _ _ Hnd Hid Hij).
Qed.

End keyword_properties.

(** ** The properties on concrete stores *)

Ltac not_in_list :=
  let H := fresh "Hin" in
  intros H;
  repeat (apply elem_of_cons in H as [H|H]; [discriminate H|]);
  by apply elem_of_nil in H.

Ltac distinct_list :=
  repeat (apply NoDup_cons_2; [not_in_list|]); apply NoDup_nil_2.

Section extras_on_memory.
#[local] Existing Instances
  Memory.encoder Memory.chroma Memory.rank_bm25 Memory.numpy.

Ltac items_ok := repeat constructor; unfold item_ok, is_Some; eauto.

Lemma add_documents_keeps_other_records_witness :
  ("u3" ∉ map Sample.uuid4 (seq 0 (length Sample.twins))) /\
  get_original_content
    (add_documents Scenario.store Sample.twins Sample.uuid4).1 "u3"
  = get_original_content Scenario.store "u3".
Proof.
  assert ("u3" ∉ map Sample.uuid4 (seq 0 (length Sample.twins))) as Hout
    by (cbn; not_in_list).
  split; [exact Hout|].
  exact (add_documents_keeps_other_records Scenario.store Sample.twins
           Sample.uuid4 "u3" Hout).
Defined.

Lemma add_documents_missing_field_witness :
  add_documents VectorStore_init
    ([Sample.text_item "alpha" 1] ++ Cases.no_page :: []) Sample.uuid4
  = ({| collection := collection VectorStore_init;
        content_store :=
          store_after Sample.uuid4 0 [Sample.text_item "alpha" 1]
            (content_store VectorStore_init) |},
     inl (KeyError "page")) /\
  add_documents VectorStore_init
    ([Sample.text_item "alpha" 1] ++ Cases.no_type :: []) Sample.uuid4
  = ({| collection := collection VectorStore_init;
        content_store :=
          store_after Sample.uuid4 0 [Sample.text_item "alpha" 1]
            (content_store VectorStore_init) |},
     inl (KeyError "type")).
Proof.
  assert (Forall item_ok [Sample.text_item "alpha" 1]) as Hok
    by items_ok.
  split.
  - apply (proj1 (add_documents_missing_field VectorStore_init
                    [Sample.text_item "alpha" 1] Cases.no_page []
                    Sample.uuid4 [Memory.float_of_nat 4] Hok eq_refl)).
    reflexivity.
  - apply (proj2 (add_documents_missing_field VectorStore_init
                    [Sample.text_item "alpha" 1] Cases.no_type []
                    Sample.uuid4 [Memory.float_of_nat 4] Hok eq_refl)).
    + by eexists.
    + reflexivity.
Defined.

Lemma scenario_store_reachable : reachable Scenario.store.
Proof.
  exact (reachable_add VectorStore_init Sample.items Sample.uuid4
           reachable_init).
Qed.

Lemma reachable_store_lists_each_record_once_witness :
  reachable Scenario.store /\
  NoDup (OrderedDict.keys (content_store Scenario.store)) /\
  (forall doc,
      doc ∈ get_all_documents Scenario.store <->
      exists doc_id content,
        get_original_content Scenario.store doc_id = Some content /\
        doc = <["doc_id" := VStr doc_id]> content) /\
  NoDup (map (fun doc => dict_get_or doc "doc_id" (VStr ""))
             (get_all_documents Scenario.store)).
Proof.
  split; [exact scenario_store_reachable|].
  exact (reachable_store_lists_each_record_once Scenario.store
           scenario_store_reachable).
Defined.

Lemma get_all_documents_after_add_witness :
  Forall item_ok Sample.twins /\
  NoDup (map Sample.uuid4 (seq 0 (length Sample.twins))) /\
  get_all_documents (add_documents VectorStore_init Sample.twins Sample.uuid4).1
  = get_all_documents VectorStore_init
    ++ imap (listed_document Sample.uuid4) Sample.twins.
Proof.
  assert (Forall item_ok Sample.twins) as Hok
    by items_ok.
  assert (NoDup (map Sample.uuid4 (seq 0 (length Sample.twins)))) as Hnd
    by (cbn; distinct_list).
  split; [exact Hok|]. split; [exact Hnd|].
  apply (get_all_documents_after_add VectorStore_init Sample.twins
           Sample.uuid4 Hok Hnd).
  by repeat constructor.
Defined.

Lemma search_lists_each_candidate_witness :
  exists results,
    collection_query (collection Scenario.store) [Memory.float_of_nat 5] 2
    = inr results /\
    exists hits,
      search Scenario.store "alpha" 2 = inr hits /\
      length hits = length (first_list (qr_ids results)) /\
      forall i hit,
        hits !! i = Some hit ->
        exists doc_id distance metadata document,
          first_list (qr_ids results) !! i = Some doc_id /\
          first_list (qr_distances results) !! i = Some distance /\
          first_list (qr_metadatas results) !! i = Some metadata /\
          first_list (qr_documents results) !! i = Some document /\
          hit !! "id" = Some (VStr doc_id) /\
          hit !! "distance" = Some (VFloat distance) /\
          hit !! "metadata" = Some (VDict metadata) /\
          hit !! "document" = Some document /\
          hit !! "page" = Some (dict_get metadata "page") /\
          hit !! "type" = Some (dict_get metadata "type") /\
          hit !! "original_content"
          = Some (stored_original_content Scenario.store doc_id).
Proof.
  eexists. split; [reflexivity|].
  apply (search_lists_each_candidate Scenario.store "alpha" 2
           [Memory.float_of_nat 5]).
  - reflexivity.
  - reflexivity.
  - apply Nat.leb_le. reflexivity.
Defined.

Lemma search_short_answer_raises_witness :
  @search Memory.encoder Cases.short_chroma
    (@add_documents Memory.encoder Cases.short_chroma
       (@VectorStore_init Cases.short_chroma) Sample.items Sample.uuid4).1
    "alpha" 2
  = inl IndexError.
Proof.
  eapply (@search_short_answer_raises Memory.encoder Cases.short_chroma
            _ "alpha" 2 [Memory.float_of_nat 5]).
  - reflexivity.
  - reflexivity.
  - apply Nat.ltb_lt. reflexivity.
Defined.

Lemma search_shows_item_content_witness :
  exists hits hit,
    search (add_documents VectorStore_init [Cases.table_item] Sample.uuid4).1
           "alpha" 1 = inr hits /\
    hit ∈ hits /\
    id_of hit = Some (Sample.uuid4 0) /\
    hit !! "document" = Some (VStr "alpha table") /\
    hit !! "original_content" = Some (dict_get Cases.table_item "content").
Proof.
  eexists. eexists. split; [reflexivity|].
  split; [apply list_elem_of_here|]. split; [reflexivity|].
  split; [reflexivity|].
  eapply (search_shows_item_content VectorStore_init [Cases.table_item]
            Sample.uuid4 "alpha" 1 _ 0 Cases.table_item).
  - items_ok.
  - cbn. distinct_list.
  - reflexivity.
  - reflexivity.
  - apply list_elem_of_here.
  - reflexivity.
Defined.

Lemma keyword_hits_resolve_witness :
  keyword_search Scenario.store Scenario.retriever "alpha beta" 10
  = inr Scenario.alpha_beta_hits /\
  Forall (fun res =>
            exists doc_id content,
              id_of res = Some doc_id /\
              get_original_content Scenario.store doc_id = Some content /\
              res !! "original_content"
              = Some (dict_get content "original_content") /\
              res !! "page" = Some (dict_get content "page") /\
              res !! "type" = Some (dict_get content "type") /\
              res !! "metadata"
              = Some (dict_get_or content "metadata" (VDict ∅)) /\
              res !! "document"
              = Some (dict_get_or content "summary" (VStr "")))
         Scenario.alpha_beta_hits.
Proof.
  split; [reflexivity|].
  apply (keyword_hits_resolve Scenario.store Scenario.retriever
           "alpha beta" 10).
  - exact scenario_store_reachable.
  - reflexivity.
  - reflexivity.
Defined.

Lemma rrf_results_are_ranked_witness :
  Forall (fun r => is_Some (rrf_score_of r)) Sample.fused_L1_L2 /\
  Sorted not_outscored_by Sample.fused_L1_L2.
Proof.
  apply (rrf_results_are_ranked [Sample.L1; Sample.L2] 60). reflexivity.
Defined.

Lemma rrf_zero_denominator_raises_witness :
  reciprocal_rank_fusion [Sample.L1; Sample.L2] (-2) = inl ZeroDivisionError.
Proof.
  apply rrf_zero_denominator_raises.
  - repeat constructor; by eexists.
  - apply Exists_cons_hd. cbn. lia.
Defined.

Lemma rrf_missing_id_raises_witness :
  reciprocal_rank_fusion [[Sample.item "A"; Cases.anonymous]] 60
  = inl (KeyError "id").
Proof.
  apply rrf_missing_id_raises.
  - repeat constructor. unfold rank_defined. cbn. lia.
  - apply Forall_cons. split; [|constructor].
    apply Forall_cons. split; [right; by eexists|].
    apply Forall_cons. split; [by left|constructor].
  - apply Exists_cons_hd, Exists_cons_tl, Exists_cons_hd. reflexivity.
Defined.

Lemma retrieve_results_are_candidates_witness :
  exists dense keyword,
    dense_search Scenario.store "alpha" (5 * 2) = inr dense /\
    keyword_search Scenario.store Scenario.retriever "alpha" (5 * 2)
    = inr keyword /\
    Forall (fun res =>
              exists id src score,
                id_of res = Some id /\
                res = <["rrf_score" := VFloat score]> src /\
                (first_seen id dense = Some src \/
                 (first_seen id dense = None /\
                  first_seen id keyword = Some src)))
           (returned [] (retrieve Scenario.store Scenario.retriever
                                  "alpha" 5)).
Proof.
  apply (retrieve_results_are_candidates Scenario.store Scenario.retriever
           "alpha" 5).
  reflexivity.
Defined.

Lemma retrieve_results_ranked_and_distinct_witness :
  length (returned [] (retrieve Scenario.store Scenario.retriever "alpha" 5))
  = 3%nat /\
  NoDup (map id_of (returned [] (retrieve Scenario.store Scenario.retriever
                                          "alpha" 5))) /\
  Sorted not_outscored_by
         (returned [] (retrieve Scenario.store Scenario.retriever "alpha" 5)) /\
  Forall (fun res => Forall (fun field => is_Some (res !! field))
                            answer_fields)
         (returned [] (retrieve Scenario.store Scenario.retriever "alpha" 5)).
Proof.
  split; [reflexivity|].
  apply (retrieve_results_ranked_and_distinct Scenario.store
           Scenario.retriever "alpha" 5).
  reflexivity.
Defined.

Lemma failed_rebuild_keeps_old_index_witness :
  rebuild_index Scenario.blank_store Scenario.retriever
  = ({| bm25 := bm25 Scenario.retriever;
        doc_ids := OrderedDict.keys (content_store Scenario.blank_store);
        doc_summaries := [""] |}, inl ZeroDivisionError) /\
  bm25 Scenario.retriever
  = Some [["alpha"; "beta"; "alpha"]; ["beta"; "gamma"]; ["delta"]] /\
  OrderedDict.keys (content_store Scenario.blank_store) = ["u1"].
Proof.
  split; [|split; reflexivity].
  apply (failed_rebuild_keeps_old_index Scenario.blank_store
           Scenario.retriever [""] ZeroDivisionError).
  - discriminate.
  - reflexivity.
  - reflexivity.
Defined.

Lemma keyword_search_ignores_case_witness :
  keyword_search Scenario.store Scenario.retriever "ALPHA BETA" 10
  = inr Scenario.alpha_beta_hits /\
  keyword_search Scenario.store Scenario.retriever (upper "Alpha Beta") 10
  = keyword_search Scenario.store Scenario.retriever "Alpha Beta" 10 /\
  keyword_search Scenario.store Scenario.retriever (lower "Alpha Beta") 10
  = keyword_search Scenario.store Scenario.retriever "Alpha Beta" 10 /\
  (forall summary,
      ascii_text summary = true ->
      tokens_of (upper summary) = tokens_of summary).
Proof.
  split; [reflexivity|].
  apply (keyword_search_ignores_case Scenario.store Scenario.retriever
           "Alpha Beta" 10).
  reflexivity.
Defined.

Lemma keyword_search_distinct_ids_witness :
  NoDup (argsort (bm25_scores Scenario.retriever "alpha beta")) /\
  NoDup (map id_of Scenario.alpha_beta_hits).
Proof.
  assert (NoDup (argsort (bm25_scores Scenario.retriever "alpha beta")))
    as Hperm.
  { replace (argsort (bm25_scores Scenario.retriever "alpha beta"))
      with [2; 1; 0]%nat by reflexivity.
    distinct_list. }
  split; [exact Hperm|].
  apply (keyword_search_distinct_ids Scenario.store Scenario.store
           Scenario.retriever "alpha beta" 10 Scenario.alpha_beta_hits).
  - exact scenario_store_reachable.
  - reflexivity.
  - exact Hperm.
  - reflexivity.
Defined.

End extras_on_memory.

(** * Extraction, summaries and answers *)

(** ** The document processor *)

Section process_properties.

Lemma process_unfold pdf_fitz entries dp :
  fold_left (process_page pdf_fitz) entries dp
  = {| text_blocks :=
         text_blocks dp
         ++ concat (map (fun '(n, page) => page_text_blocks n page) entries);
       tables :=
         tables dp
         ++ concat (map (fun '(n, page) => page_tables n page) entries);
       images :=
         images dp
         ++ concat (map (fun '(n, _) => page_images pdf_fitz n)
                        (entries : list (Z * pdf_page))) |}.
Proof.
  revert dp. induction entries as [|[n page] entries IH]; intros dp.
  - cbn. rewrite !app_nil_r. by destruct dp.
  - cbn [fold_left]. rewrite IH. cbn. by rewrite <- !app_assoc.
Qed.

Lemma enumerate_range {A} (start : Z) (xs : list A) n x :
  (n, x) ∈ enumerate start xs ->
  start <= n < start + Z.of_nat (length xs) /\
  xs !! Z.to_nat (n - start) = Some x.
Proof.
  revert start. induction xs as [|y xs IH]; intros start Hin;
    [by apply elem_of_nil in Hin|].
  cbn [enumerate] in Hin. apply elem_of_cons in Hin as [[= -> ->]|Hin].
  - split; [cbn [length]; lia|]. by rewrite Z.sub_diag.
  - apply IH in Hin as [Hrange Hx]. split; [cbn [length]; lia|].
    replace (Z.to_nat (n - start)) with (S (Z.to_nat (n - (start + 1))))
      by lia.
    done.
Qed.

End process_properties.

(** X17: [process] appends to what the processor already holds and never
    starts afresh: after a call each list is the list before the call
    followed by the items of the PDF. Processing the same PDF twice with
    one processor therefore lists every item twice. *)
Theorem process_appends
    (pdf : list pdf_page) (pdf_fitz : list fitz_page)
    (dp : DocumentProcessor) :
  let new := process pdf pdf_fitz DocumentProcessor_init in
  text_blocks (process pdf pdf_fitz dp) = text_blocks dp ++ text_blocks new /\
  tables (process pdf pdf_fitz dp) = tables dp ++ tables new /\
  images (process pdf pdf_fitz dp) = images dp ++ images new /\
  length (get_all_content (process pdf pdf_fitz new))
  = (2 * length (get_all_content new))%nat.
Proof.
  cbn zeta. unfold process, get_all_content. rewrite !process_unfold.
  cbn. repeat split. rewrite !length_app. lia.
Qed.

Lemma process_items_shape
    (pdf : list pdf_page) (pdf_fitz : list fitz_page) :
  let dp := process pdf pdf_fitz DocumentProcessor_init in
  Forall (fun item =>
            exists text page_num,
              item = text_block text page_num /\
              1 <= page_num <= Z.of_nat (length pdf) /\
              strip text <> "") (text_blocks dp) /\
  Forall (fun item =>
            exists table page_num table_idx,
              item = table_block table page_num table_idx /\
              1 <= page_num <= Z.of_nat (length pdf) /\
              0 <= table_idx /\ table <> []) (tables dp) /\
  Forall (fun item =>
            exists image_bytes page_num img_idx,
              item = {[ "content" := image_bytes; "page" := VInt page_num;
                        "type" := VStr "image";
                        "image_index" := VInt img_idx;
                        "metadata" := VDict ∅ ]} /\
              1 <= page_num <= Z.of_nat (length pdf) /\
              page_num <= Z.of_nat (length pdf_fitz) /\
              0 <= img_idx) (images dp).
Proof.
  cbn zeta. unfold process. rewrite process_unfold. cbn [text_blocks tables
    images DocumentProcessor_init app].
  split; [|split]; apply Forall_forall; intros item Hitem;
    apply elem_of_concat in Hitem as (l & Hitem & Hl);
    apply list_elem_of_fmap in Hl as ([n page] & -> & Hn);
    apply enumerate_range in Hn as [Hn _].
  - unfold page_text_blocks in Hitem.
    destruct (extract_text page) as [text|]; [|by apply elem_of_nil in Hitem].
    destruct (str_truthy text); cbn in Hitem;
      [|by apply elem_of_nil in Hitem].
    destruct (str_truthy (strip text)) eqn:Hs;
      [|by apply elem_of_nil in Hitem].
    apply list_elem_of_singleton in Hitem as ->.
    exists text, n. split; [done|]. split; [lia|].
    intros Hblank. by rewrite Hblank in Hs.
  - unfold page_tables in Hitem.
    apply list_elem_of_omap in Hitem as ([idx table] & Hin & Hsome).
    apply enumerate_range in Hin as [Hidx _].
    destruct table as [|row table]; [done|]. injection Hsome as <-.
    exists (row :: table), n, idx. split; [done|]. split; [lia|].
    split; [lia|done].
  - unfold page_images in Hitem.
    destruct (n <=? Z.of_nat (length pdf_fitz)) eqn:Hfitz;
      [|by apply elem_of_nil in Hitem].
    apply Z.leb_le in Hfitz.
    destruct (pdf_fitz !! Z.to_nat (n - 1)) as [page_fitz|];
      [|by apply elem_of_nil in Hitem].
    apply list_elem_of_omap in Hitem as ([idx img] & Hin & Hsome).
    apply enumerate_range in Hin as [Hidx _].
    destruct img as [e|image_bytes]; [done|]. injection Hsome as <-.
    exists image_bytes, n, idx. split; [done|]. lia.
Qed.

Section process_pages.

Lemma enumerate_elem {A} (start : Z) (xs : list A) n x :
  (n, x) ∈ enumerate start xs <->
  start <= n /\ xs !! Z.to_nat (n - start) = Some x.
Proof.
  split.
  - intros [Hn Hx]%enumerate_range. split; [lia|done].
  - intros [Hn Hx].
    replace n with (start + Z.of_nat (Z.to_nat (n - start))) at 1 by lia.
    by apply enumerate_lookup.
Qed.

Lemma str_truthy_true s : str_truthy s = true <-> s <> "".
Proof. by destruct s. Qed.

Lemma str_truthy_strip text :
  strip text <> "" -> (str_truthy text && str_truthy (strip text))%bool = true.
Proof.
  intros Hs. apply andb_true_intro. split; apply str_truthy_true; [|done].
  by intros ->.
Qed.

Lemma page_text_blocks_elem item n page :
  item ∈ page_text_blocks n page <->
  exists text,
    extract_text page = Some text /\ strip text <> "" /\
    item = text_block text n.
Proof.
  unfold page_text_blocks. split.
  - destruct (extract_text page) as [text|]; [|by intros ?%elem_of_nil].
    destruct (str_truthy text); cbn; [|by intros ?%elem_of_nil].
    destruct (str_truthy (strip text)) eqn:Hs; [|by intros ?%elem_of_nil].
    intros ->%list_elem_of_singleton. exists text.
    split; [done|]. split; [|done]. by apply str_truthy_true.
  - intros (text & -> & Hs & ->). rewrite str_truthy_strip by done.
    apply list_elem_of_here.
Qed.

Lemma page_tables_elem item n page :
  item ∈ page_tables n page <->
  exists idx table,
    extract_tables page !! idx = Some table /\ table <> [] /\
    item = table_block table n (Z.of_nat idx).
Proof.
  unfold page_tables. rewrite list_elem_of_omap. split.
  - intros ([k table] & [Hk Hin]%enumerate_elem & Hsome).
    destruct table as [|row table]; [done|]. injection Hsome as <-.
    exists (Z.to_nat (k - 0)), (row :: table).
    split; [done|]. split; [done|]. f_equal. lia.
  - intros (idx & table & Hin & Hne & ->).
    exists (Z.of_nat idx, table). split.
    + apply enumerate_elem. split; [lia|].
      by replace (Z.to_nat (Z.of_nat idx - 0)) with idx by lia.
    + by destruct table.
Qed.

Lemma page_images_elem item pdf_fitz n :
  0 <= n ->
  item ∈ page_images pdf_fitz (n + 1) <->
  exists page_fitz idx image_bytes,
    pdf_fitz !! Z.to_nat n = Some page_fitz /\
    page_fitz !! idx = Some (inr image_bytes) /\
    item = image_block image_bytes (n + 1) (Z.of_nat idx).
Proof.
  intros Hn. unfold page_images.
  replace (n + 1 - 1) with n by lia. split.
  - destruct (n + 1 <=? _); [|by intros ?%elem_of_nil].
    destruct (pdf_fitz !! Z.to_nat n) as [page_fitz|];
      [|by intros ?%elem_of_nil].
    intros ([k img] & [Hk Hin]%enumerate_elem & Hsome)%list_elem_of_omap.
    destruct img as [e|image_bytes]; [done|]. injection Hsome as <-.
    exists page_fitz, (Z.to_nat (k - 0)), image_bytes.
    split; [done|]. split; [done|]. unfold image_block.
    by replace (Z.of_nat (Z.to_nat (k - 0))) with k by lia.
  - intros (page_fitz & idx & image_bytes & Hpage & Hin & ->).
    pose proof (lookup_lt_Some _ _ _ Hpage) as Hlt.
    replace (n + 1 <=? Z.of_nat (length pdf_fitz)) with true
      by (symmetry; apply Z.leb_le; lia).
    rewrite Hpage. apply list_elem_of_omap.
    exists (Z.of_nat idx, inr image_bytes). split; [|done].
    apply enumerate_elem. split; [lia|].
    by replace (Z.to_nat (Z.of_nat idx - 0)) with idx by lia.
Qed.

Lemma pages_elem {A} (f : Z -> A -> list pydict) (xs : list A) item :
  item ∈ concat (map (fun '(n, x) => f n x) (enumerate 1 xs)) <->
  exists n x, xs !! n = Some x /\ item ∈ f (Z.of_nat n + 1) x.
Proof.
  rewrite elem_of_concat. split.
  - intros (l & Hitem & ([k x] & -> & [Hk Hx]%enumerate_elem)%list_elem_of_fmap).
    exists (Z.to_nat (k - 1)), x. split; [done|].
    by replace (Z.of_nat (Z.to_nat (k - 1)) + 1) with k by lia.
  - intros (n & x & Hx & Hitem). exists (f (Z.of_nat n + 1) x).
    split; [done|]. apply list_elem_of_fmap.
    exists (Z.of_nat n + 1, x). split; [done|].
    apply enumerate_elem. split; [lia|].
    by replace (Z.to_nat (Z.of_nat n + 1 - 1)) with n by lia.
Qed.

(** The items of the pages come in the order of the pages. *)
Lemma pages_sorted {A} (R : relation Z) (f : Z -> A -> list pydict)
    (start : Z) (xs : list A) :
  (forall a b, a < b -> R a b) ->
  (forall n x item, item ∈ f n x -> page_of item = n) ->
  (forall n x, StronglySorted R (map page_of (f n x))) ->
  StronglySorted R
    (map page_of
         (concat (map (fun '(n, x) => f n x) (enumerate start xs)))).
Proof.
  intros HR Hpage Hone. revert start.
  induction xs as [|x xs IH]; intros start; [constructor|].
  cbn [enumerate map concat]. rewrite map_app.
  apply StronglySorted_app_2; [|apply Hone|apply IH].
  intros a b Ha Hb. apply HR.
  apply list_elem_of_fmap in Ha as (item & -> & Hitem).
  apply list_elem_of_fmap in Hb as (item' & -> & Hitem').
  rewrite (Hpage _ _ _ Hitem).
  apply elem_of_concat in Hitem' as (l & Hitem' & Hl).
  apply list_elem_of_fmap in Hl as ([k y] & -> & [Hk _]%enumerate_elem).
  rewrite (Hpage _ _ _ Hitem'). lia.
Qed.

Lemma same_page_sorted n (l : list pydict) :
  (forall item, item ∈ l -> page_of item = n) ->
  StronglySorted Z.le (map page_of l).
Proof.
  induction l as [|item l IH]; intros Hall; [constructor|].
  cbn. constructor.
  - apply IH. intros item' Hin. apply Hall. by apply list_elem_of_further.
  - apply Forall_forall. intros k (item' & -> & Hin)%list_elem_of_fmap.
    rewrite (Hall item) by apply list_elem_of_here.
    rewrite (Hall item') by (by apply list_elem_of_further). lia.
Qed.

Lemma process_pages (pdf : list pdf_page) (pdf_fitz : list fitz_page) :
  let dp := process pdf pdf_fitz DocumentProcessor_init in
  (forall item,
      item ∈ text_blocks dp <->
      exists n page text,
        pdf !! n = Some page /\ extract_text page = Some text /\
        strip text <> "" /\
        item = text_block text (Z.of_nat n + 1)) /\
  (forall item,
      item ∈ tables dp <->
      exists n page idx table,
        pdf !! n = Some page /\ extract_tables page !! idx = Some table /\
        table <> [] /\
        item = table_block table (Z.of_nat n + 1) (Z.of_nat idx)) /\
  (forall item,
      item ∈ images dp <->
      exists n page page_fitz idx image_bytes,
        pdf !! n = Some page /\ pdf_fitz !! n = Some page_fitz /\
        page_fitz !! idx = Some (inr image_bytes) /\
        item = image_block image_bytes (Z.of_nat n + 1) (Z.of_nat idx)) /\
  StronglySorted Z.lt (map page_of (text_blocks dp)) /\
  StronglySorted Z.le (map page_of (tables dp)) /\
  StronglySorted Z.le (map page_of (images dp)).
Proof.
  cbn zeta. unfold process. rewrite process_unfold.
  cbn [text_blocks tables images DocumentProcessor_init app].
  assert (forall n page item,
             item ∈ page_text_blocks n page -> page_of item = n) as Htext.
  { by intros n page item (text & _ & _ & ->)%page_text_blocks_elem. }
  assert (forall n page item,
             item ∈ page_tables n page -> page_of item = n) as Htables.
  { by intros n page item (idx & table & _ & _ & ->)%page_tables_elem. }
  assert (forall n (page : pdf_page) item,
             item ∈ page_images pdf_fitz n -> page_of item = n) as Himages.
  { intros n page item. unfold page_images.
    destruct (n <=? _); [|by intros ?%elem_of_nil].
    destruct (pdf_fitz !! _); [|by intros ?%elem_of_nil].
    intros ([k img] & _ & Hsome)%list_elem_of_omap.
    destruct img; [done|]. by injection Hsome as <-. }
  split; [|split; [|split; [|split; [|split]]]].
  - intros item. rewrite (pages_elem page_text_blocks). split.
    + intros (n & page & Hpage & (text & Ht & Hs & ->)%page_text_blocks_elem).
      by exists n, page, text.
    + intros (n & page & text & Hpage & Ht & Hs & ->).
      exists n, page. split; [done|]. apply page_text_blocks_elem.
      by exists text.
  - intros item. rewrite (pages_elem page_tables). split.
    + intros (n & page & Hpage & (idx & table & Ht & Hne & ->)%page_tables_elem).
      by exists n, page, idx, table.
    + intros (n & page & idx & table & Hpage & Ht & Hne & ->).
      exists n, page. split; [done|]. apply page_tables_elem.
      by exists idx, table.
  - intros item.
    rewrite (pages_elem (fun n (_ : pdf_page) => page_images pdf_fitz n)).
    split.
    + intros (n & page & Hpage & Hitem).
      apply page_images_elem in Hitem
          as (page_fitz & idx & image_bytes & Hf & Hi & ->); [|lia].
      rewrite Nat2Z.id in Hf. by exists n, page, page_fitz, idx, image_bytes.
    + intros (n & page & page_fitz & idx & image_bytes & Hpage & Hf & Hi & ->).
      exists n, page. split; [done|]. apply page_images_elem; [lia|].
      exists page_fitz, idx, image_bytes. by rewrite Nat2Z.id.
  - apply (pages_sorted Z.lt page_text_blocks); [done|done|].
    intros n page. unfold page_text_blocks.
    destruct (extract_text page); [|constructor].
    destruct (_ && _)%bool; repeat constructor.
  - apply (pages_sorted Z.le page_tables); [lia|done|].
    intros n page. by apply (same_page_sorted n), Htables.
  - apply (pages_sorted Z.le (fun n (_ : pdf_page) => page_images pdf_fitz n));
      [lia|done|].
    intros n page. apply (same_page_sorted n). intros item.
    by apply Himages.
Qed.

End process_pages.

(** X18: what [process] extracts is what the pages hold, in the order of
    the pages, which are numbered from one. On a PDF with ASCII text, the
    text blocks are exactly the texts of the pages whose text is not
    blank, each with the number of its page and at most one for a page;
    the table items are exactly the markdown of the tables that have rows,
    each with the number of its page and its position among the tables of
    the page; the image items are exactly the images that could be
    extracted from the pages both libraries know, each with the number of
    its page and its position among the images of the page. *)
Theorem process_items_are_well_formed
    (pdf : list pdf_page) (pdf_fitz : list fitz_page) :
  Forall ascii_page pdf ->
  let dp := process pdf pdf_fitz DocumentProcessor_init in
  (forall item,
      item ∈ text_blocks dp <->
      exists n page text,
        pdf !! n = Some page /\ extract_text page = Some text /\
        strip text <> "" /\
        item = text_block text (Z.of_nat n + 1)) /\
  (forall item,
      item ∈ tables dp <->
      exists n page idx table,
        pdf !! n = Some page /\ extract_tables page !! idx = Some table /\
        table <> [] /\
        item = table_block table (Z.of_nat n + 1) (Z.of_nat idx)) /\
  (forall item,
      item ∈ images dp <->
      exists n page page_fitz idx image_bytes,
        pdf !! n = Some page /\ pdf_fitz !! n = Some page_fitz /\
        page_fitz !! idx = Some (inr image_bytes) /\
        item = image_block image_bytes (Z.of_nat n + 1) (Z.of_nat idx)) /\
  StronglySorted Z.lt (map page_of (text_blocks dp)) /\
  StronglySorted Z.le (map page_of (tables dp)) /\
  StronglySorted Z.le (map page_of (images dp)).
Proof. intros _. apply process_pages. Qed.

Lemma process_extracted (pdf : list pdf_page) (pdf_fitz : list fitz_page) :
  Forall extracted
         (get_all_content (process pdf pdf_fitz DocumentProcessor_init)).
Proof.
  destruct (process_items_shape pdf pdf_fitz) as (Htext & Htables & Himages).
  unfold get_all_content. rewrite !Forall_app. split; [|split].
  - eapply Forall_impl; [exact Htext|].
    intros item (text & n & -> & _ & _).
    exists (VStr text), n, "text". unfold text_block.
    repeat split; try by simplify_map_eq.
    + apply list_elem_of_here.
    + by exists text.
  - eapply Forall_impl; [exact Htables|].
    intros item (table & n & idx & -> & _).
    exists (VStr (_table_to_markdown table)), n, "table". unfold table_block.
    repeat split; try by simplify_map_eq.
    apply list_elem_of_further, list_elem_of_here.
  - eapply Forall_impl; [exact Himages|].
    intros item (image_bytes & n & idx & -> & _).
    exists image_bytes, n, "image".
    repeat split; try by simplify_map_eq.
    do 2 apply list_elem_of_further. apply list_elem_of_here.
Qed.

Section text_facts.

Lemma append_cons c s1 s2 : String c s1 +:+ s2 = String c (s1 +:+ s2).
Proof. reflexivity. Qed.

Lemma append_nil_l s : "" +:+ s = s.
Proof. reflexivity. Qed.

Lemma append_nil_r s : s +:+ "" = s.
Proof. induction s as [|c s IH]; [done|]. by rewrite append_cons, IH. Qed.

Lemma append_assoc s1 s2 s3 : (s1 +:+ s2) +:+ s3 = s1 +:+ (s2 +:+ s3).
Proof.
  induction s1 as [|c s1 IH]; [done|]. by rewrite !append_cons, IH.
Qed.

Lemma length_append s1 s2 :
  String.length (s1 +:+ s2) = (String.length s1 + String.length s2)%nat.
Proof.
  induction s1 as [|c s1 IH]; [done|]. rewrite append_cons. cbn.
  by rewrite IH.
Qed.

Lemma count_char_app c s1 s2 :
  count_char c (s1 +:+ s2) = (count_char c s1 + count_char c s2)%nat.
Proof.
  induction s1 as [|a s1 IH]; [done|]. rewrite append_cons. cbn.
  rewrite IH. lia.
Qed.

Lemma count_char_join c sep parts :
  Forall (fun p => count_char c p = 0%nat) parts ->
  count_char c (join sep parts)
  = ((length parts - 1) * count_char c sep)%nat.
Proof.
  induction 1 as [|p [|q rest] Hp Hrest IH]; [done|cbn; lia|].
  change (join sep (p :: q :: rest)) with (p +:+ sep +:+ join sep (q :: rest)).
  rewrite !count_char_app, IH, Hp. cbn [length].
  rewrite !Nat.sub_succ, !Nat.sub_0_r. cbn [Nat.mul]. lia.
Qed.

End text_facts.

Section markdown_properties.

Lemma clean_row_plain c row :
  (c = "|"%char \/ c = newline_char) ->
  Forall plain_cell row ->
  Forall (fun s => count_char c s = 0%nat) (clean_row row).
Proof.
  intros Hc Hrow. unfold clean_row. apply Forall_fmap.
  eapply Forall_impl; [exact Hrow|].
  intros [s|] Hcell; cbn; [|done].
  destruct Hcell as [Hp Hn]. by destruct Hc as [-> | ->].
Qed.

Lemma padded_plain c width cells :
  Forall (fun s => count_char c s = 0%nat) cells ->
  Forall (fun s => count_char c s = 0%nat) (take width (pad_row width cells)).
Proof.
  intros Hcells. apply Forall_take. unfold pad_row.
  apply Forall_app. split; [done|]. by apply Forall_replicate.
Qed.

Lemma length_padded width cells :
  length (take width (pad_row width cells)) = width.
Proof.
  unfold pad_row. rewrite length_take, length_app, length_replicate. lia.
Qed.

Lemma table_line_pipes cells :
  Forall (fun s => count_char "|" s = 0%nat) cells ->
  count_char "|" (table_line cells) = S (Nat.max 1 (length cells)).
Proof.
  intros Hcells. unfold table_line.
  rewrite !count_char_app, count_char_join by done. cbn. lia.
Qed.

Lemma table_line_breaks cells :
  Forall (fun s => count_char newline_char s = 0%nat) cells ->
  count_char newline_char (table_line cells) = 0%nat.
Proof.
  intros Hcells. unfold table_line.
  rewrite !count_char_app, count_char_join by done. cbn. lia.
Qed.

End markdown_properties.

(** X19: the markdown of a table is rectangular. For a table whose cells
    hold no ['|'] and no line break, [_table_to_markdown] gives one line
    for the header, one of dashes, and one per further row; every line has
    the same number of column separators, whatever the length of the row:
    short rows are padded with empty cells and long rows are cut to the
    width of the header. *)
Theorem table_markdown_is_rectangular
    (header : list (option string)) (rows : pdf_table) :
  Forall (Forall plain_cell) (header :: rows) ->
  exists lines,
    _table_to_markdown (header :: rows) = join newline lines /\
    length lines = S (S (length rows)) /\
    Forall (fun line =>
              count_char "|" line = S (Nat.max 1 (length header)) /\
              count_char newline_char line = 0%nat) lines /\
    count_char newline_char (_table_to_markdown (header :: rows))
    = S (length rows).
Proof.
  intros Hplain. apply Forall_cons in Hplain as [Hheader Hrows].
  assert (length (clean_row header) = length header) as Hwidth
    by apply length_map.
  set (lines := markdown_lines (map clean_row (header :: rows))).
  assert (length lines = S (S (length rows))) as Hlen.
  { unfold lines. cbn. by rewrite !length_map. }
  assert (Forall (fun line =>
                    count_char "|" line = S (Nat.max 1 (length header)) /\
                    count_char newline_char line = 0%nat) lines) as Hlines.
  { unfold lines. cbn [map markdown_lines].
    repeat apply Forall_cons_2.
    - split.
      + rewrite table_line_pipes, Hwidth; [done|].
        apply clean_row_plain; [by left|done].
      + apply table_line_breaks, clean_row_plain; [by right|done].
    - split.
      + rewrite table_line_pipes, length_replicate, Hwidth; [done|].
        by apply Forall_replicate.
      + by apply table_line_breaks, Forall_replicate.
    - apply Forall_forall. intros line Hline.
      apply list_elem_of_fmap in Hline as (row & -> & Hrow).
      apply list_elem_of_fmap in Hrow as (cells & -> & Hcells).
      rewrite Forall_forall in Hrows. specialize (Hrows _ Hcells). split.
      + rewrite table_line_pipes, length_padded, Hwidth; [done|].
        apply padded_plain, clean_row_plain; [by left|done].
      + apply table_line_breaks, padded_plain, clean_row_plain;
          [by right|done]. }
  exists lines. split; [done|]. split; [done|]. split; [done|].
  change (_table_to_markdown (header :: rows)) with (join newline lines).
  rewrite count_char_join, Hlen.
  - cbn. lia.
  - eapply Forall_impl; [exact Hlines|]. by intros line [_ Hl].
Qed.

(** ** The summarizer *)

Section summarizer_properties.
Context `{!PyRepr, !GenerativeModel}.

Lemma summarize_item_returns item :
  summarizable item ->
  exists summary,
    summarize_item item = inr (<["summary" := summary]> item) /\
    (needs_model item = true -> exists text, summary = VStr text) /\
    (needs_model item = false -> summary = dict_get item "content").
Proof.
  intros ([type Htype] & [content Hcontent] & Hpage).
  unfold summarize_item, needs_model, dict_getitem, dict_get in *.
  rewrite Htype, Hcontent in *. cbn in *.
  destruct (py_eq_str type "table") eqn:Htable; cbn in *.
  { destruct Hpage as [page ->]; [done|]. cbn.
    eexists. split; [done|]. split; [by eexists|done]. }
  destruct (py_eq_str type "image") eqn:Himage; cbn in *.
  { destruct Hpage as [page ->]; [done|]. cbn.
    eexists. split; [done|]. split; [by eexists|done]. }
  exists content. by repeat split.
Qed.

Lemma mapM_app_raises {A B} (f : A -> raises B) xs x ys e :
  (forall z, z ∈ xs -> exists y, f z = inr y) -> f x = inl e ->
  mapM f (xs ++ x :: ys) = inl e.
Proof.
  induction xs as [|z xs IH]; intros Hxs Hx.
  - cbn. by rewrite Hx.
  - cbn. destruct (Hxs z) as [y ->]; [apply list_elem_of_here|]. cbn.
    rewrite IH; [done| |done].
    intros z' Hz'. apply Hxs. by apply list_elem_of_further.
Qed.

(** X20: [summarize_batch] gives back the items it was given, in their
    order, each with one more field, ['summary'], and every other field as
    it was. This holds whatever the model does: a call of the model that
    raises does not end the batch. The summary of a table or an image is a
    text; the summary of any other item is its content, as it is. *)
Theorem summarize_batch_adds_summaries (content_items : list pydict) :
  Forall summarizable content_items ->
  exists summarized_items,
    summarize_batch content_items = inr summarized_items /\
    Forall2 (fun item summarized =>
               exists summary,
                 summarized = <["summary" := summary]> item /\
                 (needs_model item = true -> exists text, summary = VStr text) /\
                 (needs_model item = false ->
                  summary = dict_get item "content"))
            content_items summarized_items.
Proof.
  unfold summarize_batch. induction 1 as [|item items Hitem _ IH].
  - exists []. split; [done|constructor].
  - destruct IH as (out & Hout & Hall).
    destruct (summarize_item_returns item Hitem) as (summary & Hsum & Hs).
    exists (<["summary" := summary]> item :: out). split.
    + cbn. rewrite Hsum. cbn. by rewrite Hout.
    + constructor; [by exists summary|done].
Qed.

(** X21: an item without a ['type'], or with a type and without a
    ['content'], makes [summarize_batch] raise [KeyError] for that key, also
    when every item before it was summarized: no part of the batch is
    returned. *)
Theorem summarize_batch_missing_field
    (summarized : list pydict) (item : pydict) (rest : list pydict) :
  Forall summarizable summarized ->
  (item !! "type" = None ->
   summarize_batch (summarized ++ item :: rest) = inl (KeyError "type")) /\
  (is_Some (item !! "type") -> item !! "content" = None ->
   summarize_batch (summarized ++ item :: rest) = inl (KeyError "content")).
Proof.
  intros Hok.
  assert (forall z, z ∈ summarized -> exists y, summarize_item z = inr y)
    as Hbefore.
  { intros z Hz. rewrite Forall_forall in Hok.
    destruct (summarize_item_returns z (Hok z Hz)) as (s & Hs & _).
    by eexists. }
  split.
  - intros Htype. apply mapM_app_raises; [done|].
    unfold summarize_item, dict_getitem. by rewrite Htype.
  - intros [type Htype] Hcontent. apply mapM_app_raises; [done|].
    unfold summarize_item, dict_getitem. rewrite Htype, Hcontent. cbn.
    destruct (py_eq_str type "table"); [done|].
    by destruct (py_eq_str type "image").
Qed.

End summarizer_properties.

(** ** The answer generator *)

Section answer_properties.
Context `{!PyRepr, !GenerativeModel}.

Lemma context_part_image i doc content :
  doc !! "type" = Some (VStr "image") ->
  context_part i (<["original_content" := content]> doc) = context_part i doc.
Proof.
  intros Htype. unfold context_part, dict_get_or.
  rewrite !lookup_insert_ne by done. by rewrite Htype.
Qed.

Lemma context_parts_from start docs docs' :
  Forall2 same_but_image_content docs docs' ->
  concat (map (fun '(i, doc) => [context_part i doc; ""])
              (enumerate start docs'))
  = concat (map (fun '(i, doc) => [context_part i doc; ""])
                (enumerate start docs)).
Proof.
  intros Hall. revert start.
  induction Hall as [|doc doc' docs docs' Hdoc _ IH]; intros start; [done|].
  cbn [enumerate map concat]. rewrite IH. f_equal.
  destruct Hdoc as [->|(Htype & content & ->)]; [done|].
  by rewrite context_part_image.
Qed.

(** X22: the content of an image never reaches the prompt. Replacing the
    ['original_content'] of retrieved documents of type ['image'] by
    anything else leaves the context string as it is. *)
Theorem format_context_leaves_out_image_content
    (retrieved_docs retrieved_docs' : list pydict) :
  Forall2 same_but_image_content retrieved_docs retrieved_docs' ->
  _format_context retrieved_docs' = _format_context retrieved_docs.
Proof.
  intros Hall. unfold _format_context, context_parts.
  by rewrite (context_parts_from 1 _ _ Hall).
Qed.

Lemma length_str_take n s :
  String.length (str_take n s) = Nat.min n (String.length s).
Proof.
  revert s. induction n as [|n IH]; intros [|c s]; cbn; try done.
  by rewrite IH.
Qed.

Lemma str_take_prefix n s : exists rest, s = str_take n s +:+ rest.
Proof.
  revert s. induction n as [|n IH]; intros s.
  - exists s. by destruct s.
  - destruct s as [|c s]; [by exists ""|].
    destruct (IH s) as [rest Hrest]. exists rest. cbn [str_take].
    by rewrite append_cons, <- Hrest.
Qed.

Lemma type_is_not (doc : pydict) (kind : string) :
  kind <> "" ->
  py_eq_str (dict_get_or doc "type" (VStr "")) kind
  = py_eq_str (dict_get doc "type") kind.
Proof.
  intros Hkind. unfold dict_get_or, dict_get.
  destruct (doc !! "type"); [done|]. cbn.
  by rewrite bool_decide_eq_false_2.
Qed.

(** X23: the preview of a text is a bounded prefix of it. For a document
    that is neither a table nor an image, the preview is never longer than
    [max_length + 3]; it is the content itself when that has at most
    [max_length] characters, and otherwise the first [max_length]
    characters of the content followed by three dots. *)
Theorem text_preview_is_a_bounded_prefix (doc : pydict) (max_length : nat) :
  needs_model doc = false ->
  let content := py_str (dict_get_or doc "original_content" (VStr "")) in
  let preview := _get_content_preview doc max_length in
  (String.length preview <= max_length + 3)%nat /\
  ((String.length content <= max_length)%nat -> preview = content) /\
  ((max_length < String.length content)%nat ->
   preview = str_take max_length content +:+ "..." /\
   exists rest, content = str_take max_length content +:+ rest).
Proof.
  intros [Htable Himage]%orb_false_elim. cbn zeta.
  unfold _get_content_preview.
  rewrite !type_is_not, Htable, Himage by done.
  destruct (max_length <? _)%nat eqn:Hlong.
  - apply Nat.ltb_lt in Hlong. split; [|split].
    + rewrite length_append, length_str_take. cbn. lia.
    + lia.
    + intros _. split; [done|]. apply str_take_prefix.
  - apply Nat.ltb_ge in Hlong. split; [lia|]. split; [done|]. lia.
Qed.

Lemma split_on_cons sep s : exists p ps, split_on sep s = p :: ps.
Proof.
  induction s as [|c s (p & ps & IH)]; [by eexists _, _|].
  cbn. destruct (Ascii.eqb c sep); [by eexists _, _|].
  rewrite IH. by eexists _, _.
Qed.

Lemma join_String sep c p ps :
  join sep (String c p :: ps) = String c (join sep (p :: ps)).
Proof. by destruct ps. Qed.

Lemma join_split_on s : join newline (split_on newline_char s) = s.
Proof.
  induction s as [|c s IH]; [done|]. cbn [split_on].
  destruct (Ascii.eqb c newline_char) eqn:Hc.
  - apply Ascii.eqb_eq in Hc as ->.
    destruct (split_on_cons newline_char s) as (p & ps & Hs).
    rewrite Hs. rewrite Hs in IH.
    change (join newline ("" :: p :: ps))
      with (String newline_char (join newline (p :: ps))).
    by rewrite IH.
  - destruct (split_on_cons newline_char s) as (p & ps & Hs).
    rewrite Hs. rewrite Hs in IH. by rewrite join_String, IH.
Qed.

Lemma join_take sep n parts :
  (0 < n < length parts)%nat ->
  join sep parts = join sep (take n parts) +:+ sep +:+ join sep (drop n parts).
Proof.
  revert n. induction parts as [|p parts IH]; intros n Hn; [cbn in Hn; lia|].
  destruct n as [|n]; [lia|]. cbn [length] in Hn.
  destruct parts as [|q parts]; [cbn in Hn; lia|].
  destruct n as [|n]; [done|].
  cbn [take drop].
  change (join sep (p :: q :: parts)) with (p +:+ sep +:+ join sep (q :: parts)).
  rewrite (IH (S n)) by (cbn [length] in *; lia).
  cbn [take]. change (join sep (p :: q :: take n parts))
    with (p +:+ sep +:+ join sep (q :: take n parts)).
  by rewrite !append_assoc.
Qed.

(** X24: the preview of a table is its first three lines. Joining the
    lines of the content gives the content back; a table of at most three
    lines is previewed as it is, and a longer one as its first three lines,
    joined, followed by three dots. *)
Theorem table_preview_shows_first_lines (doc : pydict) (max_length : nat) :
  dict_get doc "type" = VStr "table" ->
  let content := py_str (dict_get_or doc "original_content" (VStr "")) in
  let lines := split_on newline_char content in
  join newline lines = content /\
  ((length lines <= 3)%nat -> _get_content_preview doc max_length = content) /\
  ((3 < length lines)%nat ->
   _get_content_preview doc max_length
   = join newline (take 3 lines) +:+ "...").
Proof.
  intros Htype. cbn zeta. unfold _get_content_preview.
  rewrite !type_is_not, Htype by done. cbn [py_eq_str].
  rewrite bool_decide_eq_false_2 by done.
  rewrite bool_decide_eq_true_2 by done.
  set (content := py_str (dict_get_or doc "original_content" (VStr ""))).
  pose proof (join_split_on content) as Hjoin.
  split; [done|]. split.
  - intros Hshort. rewrite take_ge by done. rewrite Hjoin.
    by rewrite Nat.ltb_irrefl.
  - intros Hlong.
    rewrite <- Hjoin at 2.
    rewrite (join_take newline 3 (split_on newline_char content)) by lia.
    rewrite !length_append.
    by replace (_ <? _)%nat with true by (symmetry; apply Nat.ltb_lt; cbn; lia).
Qed.

End answer_properties.

(** ** The two pipelines *)

Section query_pipeline.
Context `{!SentenceTransformer, !ChromaDB, !RankBM25, !NumPy,
          !PyRepr, !GenerativeModel, !Runtime}.

(** X25: an answer cites at most five sources. When a search returns,
    [retrieve] has given at most five documents; the sources of the answer
    are one per document, in their order, or none at all when the model
    raised; and when nothing was retrieved the answer is the fixed
    sentence, without sources. *)
Theorem answer_cites_at_most_five_sources
    (session : Session) (query : string) (result : Answer) :
  answer_query session query = inr result ->
  exists retrieved_docs,
    retrieve (vector_store session) (retriever session) query 5
    = inr retrieved_docs /\
    (length retrieved_docs <= 5)%nat /\
    (sources result = [] \/ sources result = map source_of retrieved_docs) /\
    (length (sources result) <= 5)%nat /\
    (retrieved_docs = [] ->
     answer result = nothing_found /\ sources result = []).
Proof.
  unfold answer_query. intros Hq. inv_bind Hq. rename a into docs.
  inv_bind Hq. injection Hq as <-. exists docs. split; [done|].
  assert (length docs <= 5)%nat as Hlen.
  { apply retrieve_inr in Hm as (dense & keyword & fused & _ & _ & _ & ->).
    pose proof (py_slice_to_length 5 fused). lia. }
  split; [done|].
  assert (sources (generate_answer query docs) = []
          \/ sources (generate_answer query docs) = map source_of docs)
    as Hsources.
  { unfold generate_answer. destruct docs as [|doc docs]; [by left|].
    destruct (generate_content _); [by left|by right]. }
  split; [done|]. split.
  - destruct Hsources as [-> | ->]; [cbn; lia|by rewrite length_map].
  - by intros ->.
Qed.

End query_pipeline.

Section ingest_pipeline.
Context `{!SentenceTransformer, !ChromaDB, !RankBM25, !NumPy,
          !PyRepr, !GenerativeModel, !Runtime}.
Import OrderedDict OrderedDictFacts.

Lemma summarize_extracted item :
  extracted item ->
  exists text,
    summarize_item item = inr (<["summary" := VStr text]> item) /\
    (item !! "type" = Some (VStr "text") ->
     item !! "content" = Some (VStr text)).
Proof.
  intros (content & n & type & Hcontent & Hpage & Htype & Hkind & Htext).
  unfold summarize_item, dict_getitem. rewrite Htype, Hcontent, Hpage. cbn.
  repeat (apply elem_of_cons in Hkind as [->|Hkind]);
    [| | |by apply elem_of_nil in Hkind].
  - destruct Htext as [text ->]; [done|]. cbn. by exists text.
  - cbn. eexists. split; [done|]. intros [=].
  - cbn. eexists. split; [done|]. intros [=].
Qed.

Lemma summarize_batch_extracted items :
  Forall extracted items ->
  exists out,
    summarize_batch items = inr out /\
    Forall2 (fun item o =>
               extracted item /\
               exists text,
                 o = <["summary" := VStr text]> item /\
                 (item !! "type" = Some (VStr "text") ->
                  item !! "content" = Some (VStr text))) items out.
Proof.
  unfold summarize_batch. induction 1 as [|item items Hitem _ IH].
  - exists []. split; [done|constructor].
  - destruct IH as (out & Hout & Hall).
    destruct (summarize_extracted item Hitem) as (text & Hsum & Hs).
    exists (<["summary" := VStr text]> item :: out). split.
    + cbn. rewrite Hsum. cbn. by rewrite Hout.
    + constructor; [|done]. split; [done|]. by exists text.
Qed.

Lemma summarized_ready item text :
  extracted item -> ready_to_index (<["summary" := VStr text]> item).
Proof.
  intros (content & n & type & Hcontent & Hpage & Htype & _).
  unfold ready_to_index, item_summary, dict_get_or.
  rewrite !lookup_insert_ne by done. rewrite lookup_insert_eq, Hpage, Htype.
  split; [done|]. split; [done|]. by exists text.
Qed.

Lemma add_loop_ready uuid4 n items b store :
  Forall ready_to_index items ->
  (Forall item_ok items /\
   exists b', add_loop uuid4 n items b store
              = (store_after uuid4 n items store, inr b')) \/
  (exists text e store',
      encode (VStr text) = inl e /\
      add_loop uuid4 n items b store = (store', inl e)).
Proof.
  intros Hready. revert n b store.
  induction Hready as [|item items Hitem _ IH]; intros n b store.
  - left. split; [constructor|]. by eexists.
  - destruct Hitem as ([page Hpage] & [type Htype] & text & Hsum).
    cbn [add_loop]. unfold dict_getitem. rewrite Hsum, Hpage, Htype.
    destruct (encode (VStr text)) as [e|emb] eqn:He; cbn.
    { right. by exists text, e, store. }
    destruct (IH (S n)
                {| b_ids := b_ids b ++ [uuid4 n];
                   b_documents := b_documents b ++ [VStr text];
                   b_embeddings := b_embeddings b ++ [emb];
                   b_metadatas :=
                     b_metadatas b
                     ++ [{[ "page" := page; "type" := type;
                            "doc_id" := VStr (uuid4 n) ]}] |}
                (set store (uuid4 n) (stored_record item page type)))
      as [(Hok & b' & Hloop)|(text' & e & store' & He' & Hloop)].
    + left. split.
      * constructor; [|done]. unfold item_ok. rewrite Hpage, Htype, Hsum.
        split; [done|]. split; [done|]. by exists emb.
      * exists b'. rewrite Hloop. cbn [store_after]. unfold record_of.
        unfold dict_get. by rewrite Hpage, Htype.
    + right. exists text', e, store'. by rewrite Hloop.
Qed.

Lemma add_documents_ready vs items uuid4 :
  Forall ready_to_index items ->
  match add_documents vs items uuid4 with
  | (vs', inr _) =>
      Forall item_ok items /\
      content_store vs' = store_after uuid4 0 items (content_store vs)
  | (_, inl e) => raised_by_library e
  end.
Proof.
  intros Hready. unfold add_documents.
  destruct (add_loop_ready uuid4 0 items
              {| b_ids := []; b_documents := []; b_embeddings := [];
                 b_metadatas := [] |} (content_store vs) Hready)
    as [(Hok & b' & ->)|(text & e & store' & He & ->)].
  - destruct (b_ids b'); [done|].
    destruct (collection_add _ _ _ _ _) as [e|c] eqn:Hadd; [|done].
    do 5 right. left. by eexists _, _, _, _, _.
  - do 4 right. left. by exists text.
Qed.

Lemma set_Forall {V} (P : V -> Prop) (d : OrderedDict.t V) key v :
  Forall (fun entry => P entry.2) d -> P v ->
  Forall (fun entry => P entry.2) (set d key v).
Proof.
  intros Hd Hv. induction Hd as [|[k w] d Hw Hd IH]; cbn.
  - by repeat constructor.
  - destruct (decide (key = k)); by constructor.
Qed.

Lemma store_after_Forall (P : pydict -> Prop) uuid4 n items store :
  Forall (fun entry => P entry.2) store ->
  Forall (fun item => P (record_of item)) items ->
  Forall (fun entry => P entry.2) (store_after uuid4 n items store).
Proof.
  intros Hstore Hitems. revert n store Hstore.
  induction Hitems as [|item items Hitem _ IH]; intros n store Hstore;
    [done|].
  cbn [store_after]. apply IH. by apply set_Forall.
Qed.

Lemma summaries_are_texts (vs : VectorStore) :
  Forall (fun entry : string * pydict =>
            exists text, dict_get_or entry.2 "summary" (VStr "") = VStr text)
         (content_store vs) ->
  exists texts, store_summaries vs = map VStr texts.
Proof.
  unfold store_summaries, items.
  induction 1 as [|entry d [text Htext] _ (texts & IH)]; [by exists []|].
  exists (text :: texts). cbn. by rewrite Htext, IH.
Qed.

Lemma record_summary item text :
  item_summary item = VStr text ->
  dict_get_or (record_of item) "summary" (VStr "") = VStr text.
Proof.
  intros Hsum. unfold record_of, stored_record, dict_get_or.
  rewrite Hsum. by simplify_map_eq.
Qed.

Lemma build_over_texts vs r texts :
  content_store vs <> [] ->
  store_summaries vs = map VStr texts ->
  _build_keyword_index vs r
  = match BM25Okapi (map tokens_of texts) with
    | inl err =>
        ({| bm25 := bm25 r; doc_ids := keys (content_store vs);
            doc_summaries := texts |}, inl err)
    | inr index =>
        ({| bm25 := Some index; doc_ids := keys (content_store vs);
            doc_summaries := texts |}, inr tt)
    end.
Proof.
  intros Hne Hsums. unfold _build_keyword_index.
  destruct (get_all_documents vs) as [|doc docs] eqn:Hdocs.
  { by apply get_all_documents_nil in Hdocs. }
  rewrite (index_loop_texts _ _ _ _ (keys (content_store vs)) texts).
  - cbn [app]. destruct (map tokens_of texts) as [|tk tks] eqn:Htoks.
    + exfalso. destruct texts; [|discriminate].
      unfold store_summaries, items in Hsums.
      by destruct (content_store vs).
    + by destruct (BM25Okapi (tk :: tks)).
  - by rewrite <- Hdocs, get_all_documents_summaries.
  - by rewrite <- Hdocs, get_all_documents_ids.
Qed.

Lemma keys_imap {A V} (uuid4 : nat -> string) (f : A -> V) n (l : list A) :
  keys (imap (fun i x => (uuid4 (n + i)%nat, f x)) l)
  = map uuid4 (seq n (length l)).
Proof.
  revert n. induction l as [|x l IH]; intros n; [done|].
  cbn [imap keys map length seq]. rewrite Nat.add_0_r. f_equal.
  rewrite <- IH. unfold keys. f_equal. apply imap_ext.
  intros i y _. cbn. by rewrite Nat.add_succ_r.
Qed.

(** What the steps of [process_document] come to on any PDF. *)
Lemma process_document_cases pdf pdf_fitz uuid4 :
  let processor := process pdf pdf_fitz DocumentProcessor_init in
  exists summarized,
    Forall2 (fun item o =>
               extracted item /\
               exists text,
                 o = <["summary" := VStr text]> item /\
                 (item !! "type" = Some (VStr "text") ->
                  item !! "content" = Some (VStr text)))
            (get_all_content processor) summarized /\
    match process_document pdf pdf_fitz uuid4 with
    | inl e => raised_by_library e
    | inr session =>
        Forall item_ok summarized /\
        content_store (vector_store session)
        = store_after uuid4 0 summarized [] /\
        Retriever_init (vector_store session) = inr (retriever session) /\
        text_count session = length (text_blocks processor) /\
        table_count session = length (tables processor) /\
        image_count session = length (images processor)
    end.
Proof.
  cbn zeta.
  destruct (summarize_batch_extracted _ (process_extracted pdf pdf_fitz))
    as (summarized & Hsum & Hall).
  exists summarized. split; [done|].
  unfold process_document, Summarizer_new, VectorStore_new.
  destruct read_pdf as [e|[]] eqn:Hread; [by left|]. cbn.
  destruct configure_gemini as [e|[]] eqn:Hgemini; [by right; left|]. cbn.
  rewrite Hsum. cbn.
  destruct load_embedding_model as [e|[]] eqn:Hmodel;
    [by right; right; left|]. cbn.
  destruct open_collection as [e|[]] eqn:Hopen;
    [by right; right; right; left|]. cbn.
  assert (Forall ready_to_index summarized) as Hready.
  { apply Forall_forall. intros o [i Hi]%list_elem_of_lookup.
    destruct (Forall2_lookup_r _ _ _ _ _ Hall Hi)
      as (item & _ & Hitem & text & -> & _).
    by apply summarized_ready. }
  pose proof (add_documents_ready VectorStore_init summarized uuid4 Hready)
    as Hadd.
  destruct (add_documents VectorStore_init summarized uuid4)
    as [vs [e|[]]]; [done|].
  destruct Hadd as [Hok Hstore]. cbn in Hstore |- *.
  assert (content_store vs = [] \/ content_store vs <> []) as [Hd|Hne]
    by (destruct (content_store vs); [by left|by right]).
  { rewrite (proj2 (Retriever_init_build vs blank_retriever))
      by (by apply build_on_empty_store).
    cbn. unfold rebuild_index. rewrite build_on_empty_store by done. cbn.
    split; [done|]. split; [done|]. split; [|done].
    by apply Retriever_init_build, build_on_empty_store. }
  destruct (summaries_are_texts vs) as [texts Htexts].
  { rewrite Hstore.
    apply (store_after_Forall
             (fun record => exists text,
                  dict_get_or record "summary" (VStr "") = VStr text));
      [constructor|].
    eapply Forall_impl; [exact Hready|].
    intros o (_ & _ & text & Htext). exists text. by apply record_summary. }
  pose proof (build_over_texts vs blank_retriever texts Hne Htexts) as Hinit.
  destruct (BM25Okapi (map tokens_of texts)) as [err|index] eqn:Hbm.
  { unfold Retriever_init. fold blank_retriever. rewrite Hinit. cbn.
    do 6 right. by eexists. }
  apply Retriever_init_build in Hinit. rewrite Hinit. cbn.
  unfold rebuild_index. rewrite (build_over_texts vs _ texts Hne Htexts), Hbm.
  cbn. split; [done|]. split; [done|]. split; [|done].
  apply Retriever_init_build.
  by rewrite (build_over_texts vs _ texts Hne Htexts), Hbm.
Qed.

End ingest_pipeline.

Section ingest_theorems.
Context `{!SentenceTransformer, !ChromaDB, !RankBM25, !NumPy,
          !PyRepr, !GenerativeModel, !Runtime}.
Import OrderedDict OrderedDictFacts.

Lemma record_of_summarized (item : pydict) (text : string) :
  record_of (<["summary" := VStr text]> item)
  = {[ "original_content" := dict_get item "content";
       "summary" := VStr text;
       "page" := dict_get item "page";
       "type" := dict_get item "type";
       "metadata" := dict_get_or item "metadata" (VDict ∅) ]}.
Proof.
  unfold record_of, stored_record, item_summary, dict_get, dict_get_or.
  rewrite (lookup_insert_ne item "summary" "content") by done.
  rewrite (lookup_insert_ne item "summary" "page") by done.
  rewrite (lookup_insert_ne item "summary" "type") by done.
  rewrite (lookup_insert_ne item "summary" "metadata") by done.
  by rewrite lookup_insert_eq.
Qed.

Lemma process_document_structure
    (pdf : list pdf_page) (pdf_fitz : list fitz_page) (uuid4 : nat -> string)
    (session : Session) :
  let processor := process pdf pdf_fitz DocumentProcessor_init in
  let all_content := get_all_content processor in
  process_document pdf pdf_fitz uuid4 = inr session ->
  NoDup (map uuid4 (seq 0 (length all_content))) ->
  text_count session = length (text_blocks processor) /\
  table_count session = length (tables processor) /\
  image_count session = length (images processor) /\
  keys (content_store (vector_store session))
  = map uuid4 (seq 0 (length all_content)) /\
  (forall i item,
      all_content !! i = Some item ->
      exists record text,
        get_original_content (vector_store session) (uuid4 i) = Some record /\
        record !! "original_content" = Some (dict_get item "content") /\
        record !! "page" = Some (dict_get item "page") /\
        record !! "type" = Some (dict_get item "type") /\
        record !! "summary" = Some (VStr text) /\
        (item !! "type" = Some (VStr "text") ->
         dict_get item "content" = VStr text)) /\
  Retriever_init (vector_store session) = inr (retriever session) /\
  doc_ids (retriever session) = map uuid4 (seq 0 (length all_content)).
Proof.
  cbn zeta. intros Hdoc Hnd.
  destruct (process_document_cases pdf pdf_fitz uuid4)
    as (summarized & Hall & Hcases).
  rewrite Hdoc in Hcases.
  destruct Hcases as (Hok & Hstore & Hinit & Htext & Htable & Himage).
  pose proof (Forall2_length _ _ _ Hall) as Hlen. rewrite Hlen in Hnd |- *.
  assert (keys (content_store (vector_store session))
          = map uuid4 (seq 0 (length summarized))) as Hkeys.
  { rewrite Hstore, store_after_fresh; [|done|].
    - cbn [app]. apply (keys_imap uuid4 record_of 0).
    - apply Forall_forall. by intros id _. }
  repeat (split; [done|]). split; [|split; [done|]].
  - intros i item Hitem.
    destruct (Forall2_lookup_l _ _ _ _ _ Hall Hitem)
      as (o & Ho & _ & text & -> & Htext').
    exists (record_of (<["summary" := VStr text]> item)), text.
    split.
    { unfold get_original_content. rewrite Hstore.
      by rewrite (store_after_lookup _ 0 _ _ i _ Hnd Ho). }
    rewrite record_of_summarized.
    repeat (split; [by simplify_map_eq|]).
    intros Htype. unfold dict_get. by rewrite (Htext' Htype).
  - apply Retriever_init_build, build_spec in Hinit
      as [[Hnil ->]|(_ & index & _ & _ & _ & Hids)].
    + rewrite <- Hkeys, Hnil. done.
    + by rewrite Hids.
Qed.

(** X26: when [process_document] succeeds, every extracted item is in the
    store and in the index. With distinct identifiers drawn, the store
    holds one record per item, in the order text blocks, tables, images;
    the record of an item has the item's content as ['original_content'],
    its page and its type, and a text as ['summary'], which for a text
    block is the block itself. The retriever is the one constructed over
    the store (rebuilding its index changed nothing), it indexes the
    records in their order, and the three counts are the numbers of
    extracted items. *)
Theorem process_document_indexes_every_item
    (pdf : list pdf_page) (pdf_fitz : list fitz_page) (uuid4 : nat -> string)
    (session : Session) :
  let processor := process pdf pdf_fitz DocumentProcessor_init in
  let all_content := get_all_content processor in
  process_document pdf pdf_fitz uuid4 = inr session ->
  NoDup (map uuid4 (seq 0 (length all_content))) ->
  text_count session = length (text_blocks processor) /\
  table_count session = length (tables processor) /\
  image_count session = length (images processor) /\
  keys (content_store (vector_store session))
  = map uuid4 (seq 0 (length all_content)) /\
  (forall i item,
      all_content !! i = Some item ->
      exists record text,
        get_original_content (vector_store session) (uuid4 i) = Some record /\
        record !! "original_content" = Some (dict_get item "content") /\
        record !! "page" = Some (dict_get item "page") /\
        record !! "type" = Some (dict_get item "type") /\
        record !! "summary" = Some (VStr text) /\
        (item !! "type" = Some (VStr "text") ->
         dict_get item "content" = VStr text)) /\
  Retriever_init (vector_store session) = inr (retriever session) /\
  doc_ids (retriever session) = map uuid4 (seq 0 (length all_content)).
Proof. apply process_document_structure. Qed.

(** X28: after [process_document] has succeeded with distinct
    identifiers, what a keyword result shows is what was extracted from the
    PDF. Every result of [keyword_search] on the session's store and
    retriever has the identifier drawn for an extracted item, and that
    item's content (not its summary), page and type. *)
Theorem keyword_hits_show_extracted_content
    (pdf : list pdf_page) (pdf_fitz : list fitz_page) (uuid4 : nat -> string)
    (session : Session) (query : string) (k : Z) (out : list pydict) :
  let all_content :=
    get_all_content (process pdf pdf_fitz DocumentProcessor_init) in
  process_document pdf pdf_fitz uuid4 = inr session ->
  NoDup (map uuid4 (seq 0 (length all_content))) ->
  keyword_search (vector_store session) (retriever session) query k
  = inr out ->
  Forall (fun res =>
            exists i item,
              all_content !! i = Some item /\
              id_of res = Some (uuid4 i) /\
              res !! "original_content" = Some (dict_get item "content") /\
              res !! "page" = Some (dict_get item "page") /\
              res !! "type" = Some (dict_get item "type")) out.
Proof.
  cbn zeta. intros Hdoc Hnd Hsearch.
  destruct (process_document_structure pdf pdf_fitz uuid4 session Hdoc Hnd)
    as (_ & _ & _ & Hkeys & Hget & Hinit & _).
  assert (NoDup (keys (content_store (vector_store session)))) as Hstore
    by (by rewrite Hkeys).
  pose proof (keyword_hits_of_store _ _ _ _ _ Hstore Hinit Hsearch) as Hall.
  eapply Forall_impl; [exact Hall|].
  intros res (doc_id & content & Hid & Hcontent & Hoc & Hpage & Htype & _).
  assert (doc_id ∈ keys (content_store (vector_store session))) as Hin.
  { apply get_Some_keys. unfold get_original_content in Hcontent.
    by rewrite Hcontent. }
  rewrite Hkeys in Hin.
  apply list_elem_of_fmap in Hin as (i & -> & [_ Hi]%elem_of_seq).
  destruct (lookup_lt_is_Some_2
              (get_all_content (process pdf pdf_fitz DocumentProcessor_init))
              i) as [item Hitem]; [lia|].
  destruct (Hget i item Hitem)
    as (record & text & Hrecord & Hroc & Hrpage & Hrtype & _).
  rewrite Hcontent in Hrecord. injection Hrecord as ->.
  exists i, item. split; [done|]. split; [done|].
  unfold dict_get in Hoc, Hpage, Htype.
  rewrite Hroc in Hoc. rewrite Hrpage in Hpage. rewrite Hrtype in Htype.
  done.
Qed.

(** X27: [process_document] fails only when a library fails. On any PDF,
    with any model, an exception that ends it was raised when the PDF was
    opened and read, when the Gemini client was configured for the
    summarizer, when the embedding model was loaded or the collection
    created for the new store, by the encoder on a summary text, by the
    collection when the batch was added, or by [BM25Okapi]: the steps
    between extraction and indexing raise no [KeyError] and no
    [AttributeError] of their own. *)
Theorem process_document_fails_only_in_libraries
    (pdf : list pdf_page) (pdf_fitz : list fitz_page) (uuid4 : nat -> string)
    (e : exn) :
  process_document pdf pdf_fitz uuid4 = inl e -> raised_by_library e.
Proof.
  intros Hdoc.
  destruct (process_document_cases pdf pdf_fitz uuid4)
    as (summarized & _ & Hcases).
  by rewrite Hdoc in Hcases.
Qed.

End ingest_theorems.

(** ** The further properties on the small PDF *)

Section extras_on_demo.
#[local] Existing Instances
  Memory.encoder Memory.chroma Memory.rank_bm25 Memory.numpy
  Demo.repr Demo.model Demo.runtime.

(** The markdown of the example table: the short row is padded, the long
    one is cut. *)
Example table_to_markdown_figures :
  _table_to_markdown Demo.figures
  = text_of_lines
      [ "| year | alpha |"; "| --- | --- |"; "| 2023 |  |"; "| 2024 |  |" ].
Proof. reflexivity. Qed.

Example process_demo_pdf :
  get_all_content (process Demo.pdf Demo.pdf_fitz DocumentProcessor_init)
  = Demo.items.
Proof. reflexivity. Qed.

Lemma process_items_are_well_formed_witness :
  Forall ascii_page Demo.pdf /\
  text_blocks (process Demo.pdf Demo.pdf_fitz DocumentProcessor_init)
  = [text_block "Alpha beta" 1] /\
  (forall item,
      item ∈ text_blocks (process Demo.pdf Demo.pdf_fitz
                                  DocumentProcessor_init) <->
      exists n page text,
        Demo.pdf !! n = Some page /\ extract_text page = Some text /\
        strip text <> "" /\
        item = text_block text (Z.of_nat n + 1)) /\
  (forall item,
      item ∈ tables (process Demo.pdf Demo.pdf_fitz
                             DocumentProcessor_init) <->
      exists n page idx table,
        Demo.pdf !! n = Some page /\
        extract_tables page !! idx = Some table /\
        table <> [] /\
        item = table_block table (Z.of_nat n + 1) (Z.of_nat idx)) /\
  (forall item,
      item ∈ images (process Demo.pdf Demo.pdf_fitz
                             DocumentProcessor_init) <->
      exists n page page_fitz idx image_bytes,
        Demo.pdf !! n = Some page /\ Demo.pdf_fitz !! n = Some page_fitz /\
        page_fitz !! idx = Some (inr image_bytes) /\
        item = image_block image_bytes (Z.of_nat n + 1) (Z.of_nat idx)) /\
  StronglySorted Z.lt
    (map page_of (text_blocks (process Demo.pdf Demo.pdf_fitz
                                       DocumentProcessor_init))) /\
  StronglySorted Z.le
    (map page_of (tables (process Demo.pdf Demo.pdf_fitz
                                  DocumentProcessor_init))) /\
  StronglySorted Z.le
    (map page_of (images (process Demo.pdf Demo.pdf_fitz
                                  DocumentProcessor_init))).
Proof.
  assert (Forall ascii_page Demo.pdf) as Hascii by (repeat constructor).
  split; [exact Hascii|]. split; [reflexivity|].
  exact (process_items_are_well_formed Demo.pdf Demo.pdf_fitz Hascii).
Defined.

Lemma table_markdown_is_rectangular_witness :
  exists lines,
    _table_to_markdown Demo.figures = join newline lines /\
    length lines = 4%nat /\
    Forall (fun line =>
              count_char "|" line = 3%nat /\
              count_char newline_char line = 0%nat) lines /\
    count_char newline_char (_table_to_markdown Demo.figures) = 3%nat.
Proof.
  apply (table_markdown_is_rectangular
           [Some "year"; Some "alpha"]
           [[Some "2023"]; [Some "2024"; None; Some "extra"]]).
  repeat constructor.
Defined.

Ltac all_summarizable :=
  repeat (apply Forall_cons_2;
          [split; [by eexists|split; [by eexists|intros _; by eexists]]|]);
  apply Forall_nil_2.

Lemma summarize_batch_adds_summaries_witness :
  exists summarized_items,
    summarize_batch Demo.items = inr summarized_items /\
    Forall2 (fun item summarized =>
               exists summary,
                 summarized = <["summary" := summary]> item /\
                 (needs_model item = true -> exists text, summary = VStr text) /\
                 (needs_model item = false ->
                  summary = dict_get item "content"))
            Demo.items summarized_items.
Proof.
  apply (summarize_batch_adds_summaries Demo.items). all_summarizable.
Defined.

(** The three summaries: the text itself, the answer of the model without
    the white space around it, and the text that stands in for the
    description the model did not give. *)
Example summarize_demo_items :
  map (fun item => dict_get item "summary")
      (returned [] (summarize_batch Demo.items))
  = [ VStr "Alpha beta"; VStr "Alpha figures by year.";
      VStr "Image on page 1 (description generation failed)" ].
Proof. reflexivity. Qed.

Lemma summarize_batch_missing_field_witness :
  summarize_batch (Demo.items ++ Cases.no_page :: [])
  = inl (KeyError "type") /\
  summarize_batch (Demo.items ++ {[ "type" := VStr "text" ]} :: [])
  = inl (KeyError "content").
Proof.
  assert (Forall summarizable Demo.items) as Hok by all_summarizable.
  split.
  - by apply (proj1 (summarize_batch_missing_field Demo.items
                       Cases.no_page [] Hok)).
  - apply (proj2 (summarize_batch_missing_field Demo.items
                    {[ "type" := VStr "text" ]} [] Hok)).
    + by eexists.
    + reflexivity.
Defined.

Lemma format_context_leaves_out_image_content_witness :
  _format_context
    [Demo.text_doc;
     <["original_content" := VStr "other bytes"]> Demo.image_doc]
  = _format_context [Demo.text_doc; Demo.image_doc].
Proof.
  apply format_context_leaves_out_image_content.
  constructor; [by left|].
  constructor; [|constructor].
  right. split; [reflexivity|]. by eexists.
Defined.

Example format_context_demo :
  _format_context [Demo.text_doc; Demo.image_doc]
  = text_of_lines
      [ "[Source 1 - Page 1, Text]"; "Alpha beta"; "";
        "[Source 2 - Page 1, Image]";
        "(Diagram/image description available - see source details)"; "" ].
Proof. reflexivity. Qed.

Lemma text_preview_is_a_bounded_prefix_witness :
  (String.length (_get_content_preview Demo.text_doc 5) <= 5 + 3)%nat /\
  _get_content_preview Demo.text_doc 10 = "Alpha beta" /\
  _get_content_preview Demo.text_doc 5 = "Alpha..." /\
  exists rest, "Alpha beta" = "Alpha" +:+ rest.
Proof.
  destruct (text_preview_is_a_bounded_prefix Demo.text_doc 5 eq_refl)
    as (Hbound & _ & Hlong).
  destruct (text_preview_is_a_bounded_prefix Demo.text_doc 10 eq_refl)
    as (_ & Hshort & _).
  split; [exact Hbound|].
  split; [apply Hshort, Nat.leb_le; reflexivity|].
  apply Hlong, Nat.ltb_lt. reflexivity.
Defined.

Lemma table_preview_shows_first_lines_witness :
  join newline (split_on newline_char (_table_to_markdown Demo.figures))
  = _table_to_markdown Demo.figures /\
  _get_content_preview Demo.table_doc 200
  = text_of_lines ["| year | alpha |"; "| --- | --- |"; "| 2023 |  |"]
    +:+ "...".
Proof.
  destruct (table_preview_shows_first_lines Demo.table_doc 200 eq_refl)
    as (Hjoin & _ & Hlong).
  split; [exact Hjoin|]. apply Hlong, Nat.ltb_lt. reflexivity.
Defined.

Lemma answer_cites_at_most_five_sources_witness :
  answer_query Demo.session "alpha" = inr Ingest.result /\
  answer Ingest.result = "Alpha figures by year." /\
  exists retrieved_docs,
    retrieve (vector_store Demo.session) (retriever Demo.session) "alpha" 5
    = inr retrieved_docs /\
    (length retrieved_docs <= 5)%nat /\
    (sources Ingest.result = []
     \/ sources Ingest.result = map source_of retrieved_docs) /\
    (length (sources Ingest.result) <= 5)%nat /\
    (retrieved_docs = [] ->
     answer Ingest.result = nothing_found /\ sources Ingest.result = []).
Proof.
  split; [reflexivity|]. split; [reflexivity|].
  apply (answer_cites_at_most_five_sources Demo.session "alpha" Ingest.result).
  reflexivity.
Defined.

Lemma process_document_indexes_every_item_witness :
  process_document Demo.pdf Demo.pdf_fitz Sample.uuid4 = inr Ingest.session /\
  get_original_content (vector_store Ingest.session) "u2"
  = Some {[ "original_content" := VStr (_table_to_markdown Demo.figures);
            "summary" := VStr "Alpha figures by year.";
            "page" := VInt 1; "type" := VStr "table";
            "metadata" := VDict ∅ ]} /\
  text_count Ingest.session = 1%nat /\
  table_count Ingest.session = 1%nat /\
  image_count Ingest.session = 1%nat /\
  OrderedDict.keys (content_store (vector_store Ingest.session))
  = ["u1"; "u2"; "u3"] /\
  (forall i item,
      Demo.items !! i = Some item ->
      exists record text,
        get_original_content (vector_store Ingest.session) (Sample.uuid4 i)
        = Some record /\
        record !! "original_content" = Some (dict_get item "content") /\
        record !! "page" = Some (dict_get item "page") /\
        record !! "type" = Some (dict_get item "type") /\
        record !! "summary" = Some (VStr text) /\
        (item !! "type" = Some (VStr "text") ->
         dict_get item "content" = VStr text)) /\
  Retriever_init (vector_store Ingest.session)
  = inr (retriever Ingest.session) /\
  doc_ids (retriever Ingest.session) = ["u1"; "u2"; "u3"].
Proof.
  split; [reflexivity|]. split; [reflexivity|].
  apply (process_document_indexes_every_item Demo.pdf Demo.pdf_fitz
           Sample.uuid4 Ingest.session).
  - reflexivity.
  - cbn. distinct_list.
Defined.

Lemma keyword_hits_show_extracted_content_witness :
  map id_of
      (returned [] (keyword_search (vector_store Ingest.session)
                      (retriever Ingest.session) "alpha figures" 10))
  = [Some "u2"; Some "u1"] /\
  Forall (fun res =>
            exists i item,
              get_all_content
                (process Demo.pdf Demo.pdf_fitz DocumentProcessor_init) !! i
              = Some item /\
              id_of res = Some (Sample.uuid4 i) /\
              res !! "original_content" = Some (dict_get item "content") /\
              res !! "page" = Some (dict_get item "page") /\
              res !! "type" = Some (dict_get item "type"))
         (returned [] (keyword_search (vector_store Ingest.session)
                         (retriever Ingest.session) "alpha figures" 10)).
Proof.
  split; [reflexivity|].
  apply (keyword_hits_show_extracted_content Demo.pdf Demo.pdf_fitz
           Sample.uuid4 Ingest.session "alpha figures" 10).
  - reflexivity.
  - cbn. distinct_list.
  - reflexivity.
Defined.

End extras_on_demo.

Section extras_on_blank_model.
#[local] Existing Instances
  Memory.encoder Memory.chroma Memory.rank_bm25 Memory.numpy
  Demo.repr Demo.blank_model Demo.runtime.

Lemma process_document_fails_only_in_libraries_witness :
  process_document Demo.table_pdf [] Sample.uuid4 = inl ZeroDivisionError /\
  raised_by_library ZeroDivisionError.
Proof.
  split; [reflexivity|].
  apply (process_document_fails_only_in_libraries Demo.table_pdf []
           Sample.uuid4 ZeroDivisionError).
  reflexivity.
Defined.

End extras_on_blank_model.

Section extras_offline.
#[local] Existing Instances
  Memory.encoder Memory.chroma Memory.rank_bm25 Memory.numpy
  Demo.repr Demo.model Demo.offline.

(** When the embedding model cannot be loaded no store is made, and
    [process_document] ends with that exception. *)
Example process_document_offline :
  process_document Demo.pdf Demo.pdf_fitz Sample.uuid4
  = inl (LibraryError "all-MiniLM-L6-v2").
Proof. reflexivity. Qed.

End extras_offline.
